(** * Controller service of the EBS CSI driver

    A shallow embedding of [pkg/driver/controller.go]: the request handlers
    are functions in a state-and-error monad over the state of the cloud
    provider, which the driver reaches only through the [cloud.Cloud]
    interface.  Integers are the 64-bit integers of Go seen as [Z]: the
    controller itself only compares them, and the arithmetic of [pkg/util]
    is done in 64 bits ([int64]).  Go maps are [gmap]s and a lookup of a
    missing key yields the zero value.

    The file has the libraries the controller calls, the messages, the
    handlers, a provider after section 4.1 of the spec, sample data after
    the tests of the controller, and then the properties: first for any
    provider behind the interface, then over the provider of the spec, and
    last at the sample data. *)

From stdpp Require Import base strings gmap list pretty.
From Stdlib Require Import ZArith Lia Ascii.

#[local] Open Scope Z_scope.

(** Go's [m[k]] on a [map[string]string]: the empty string when [k] is absent
    (also on a nil map). *)
Definition index (m : gmap string string) (k : string) : string :=
  default EmptyString (m !! k).

(** Go's [len(s) == 0]. *)
Definition len0 (s : string) : bool := (String.length s =? 0)%nat.

(** What a variable of Go's type [int64] holds after an operation whose
    exact result is [z]: the result wraps around at 64 bits. *)
Definition int64 (z : Z) : Z := (z + 2 ^ 63) mod 2 ^ 64 - 2 ^ 63.

(** ** google.golang.org/grpc/codes *)
Module codes.
Inductive Code :=
| OK | Unknown | InvalidArgument | NotFound | AlreadyExists
| FailedPrecondition | Unimplemented | Internal.

#[global] Instance Code_eq_dec : EqDecision Code.
Proof. solve_decision. Defined.
End codes.

(** ** pkg/util *)
Module util.
(** Modelled from the spec: the constant [util.GiB] is not part of the
    sources at hand; the spec fixes 1 GiB = 2^30 bytes. *)
Definition GiB : Z := 2 ^ 30.

(** Modelled from the spec: [util.RoundUpBytes] is not part of the sources
    at hand.  Section 4.1 of the spec says that byte-granularity requests
    are rounded up to GiB, strictly up, and that zero or negative requested
    bytes are treated as the default, which section 4.2 gives as 10 GiB.
    The function is on [int64] as in the call of the controller, so the
    rounding is written in the arithmetic of Go: the sum and the product
    wrap around and the division truncates.  A size that comes out zero or
    negative is replaced by the default: that is the case for zero or
    negative requested bytes, and also for a request within 2^30 bytes of
    the largest [int64], whose round-up does not fit in 64 bits.  The
    result is always a positive multiple of [GiB]. *)
Definition RoundUpBytes (volumeSizeBytes : Z) : Z :=
  let size := int64 (Z.quot (int64 (volumeSizeBytes + GiB - 1)) GiB * GiB) in
  if size <=? 0 then 10 * GiB else size.

(** Modelled from the spec: [util.RoundUpGiB] is not part of the sources at
    hand; the same rounding, with the same default for a size that is zero
    or negative, and the result in GiB. *)
Definition RoundUpGiB (volumeSizeBytes : Z) : Z :=
  let size := Z.quot (int64 (volumeSizeBytes + GiB - 1)) GiB in
  if size <=? 0 then 10 else size.

(** Modelled from the spec: [util.GiBToBytes] is not part of the sources at
    hand; a capacity in GiB expressed in bytes, an [int64] as well. *)
Definition GiBToBytes (volumeSizeGiB : Z) : Z := int64 (volumeSizeGiB * GiB).
End util.

(** ** time.Time and github.com/golang/protobuf/ptypes *)
Module time.
(** A point in time by what [Unix()] and [Nanosecond()] return. *)
Record Time := { Unix : Z; Nanosecond : Z }.
End time.

Module ptypes.
Record Timestamp := { Seconds : Z; Nanos : Z }.

(** 0001-01-01T00:00:00Z and 10000-01-01T00:00:00Z in Unix seconds. *)
Definition minValidSeconds : Z := -62135596800.
Definition maxValidSeconds : Z := 253402300800.

(** [ptypes.TimestampProto]: the conversion fails outside the years 1 to
    9999. *)
Definition TimestampProto (t : time.Time) : option Timestamp :=
  if (time.Unix t <? minValidSeconds) || (maxValidSeconds <=? time.Unix t)
     || (time.Nanosecond t <? 0) || (1000000000 <=? time.Nanosecond t)
  then None
  else Some {| Seconds := time.Unix t; Nanos := time.Nanosecond t |}.
End ptypes.

(** ** strconv *)
Module strconv.
Definition digit (a : Ascii.ascii) : option Z :=
  let n := Z.of_nat (Ascii.nat_of_ascii a) in
  if (48 <=? n) && (n <=? 57) then Some (n - 48) else None.

Fixpoint digits (s : string) (acc : Z) : option Z :=
  match s with
  | EmptyString => Some acc
  | String a s' =>
      match digit a with
      | Some v => digits s' (10 * acc + v)
      | None => None
      end
  end.

(** [strconv.Atoi]: an optional sign, then at least one decimal digit; the
    value has to fit the 64-bit [int]. *)
Definition Atoi (s : string) : option Z :=
  let '(neg, body) :=
    match s with
    | String "+"%char r => (false, r)
    | String "-"%char r => (true, r)
    | _ => (false, s)
    end in
  match body with
  | EmptyString => None
  | _ =>
      match digits body 0 with
      | Some n =>
          let v := if neg : bool then - n else n in
          if (- 2 ^ 63 <=? v) && (v <=? 2 ^ 63 - 1) then Some v else None
      | None => None
      end
  end.
End strconv.

(** ** pkg/cloud: what the controller uses of it *)
Module cloud.
(** Modelled from the spec: the errors of the provider.  The declarations
    are not part of the sources at hand; these are the sentinel errors the
    spec lists (the controller compares with the first four), and any other
    error is [ErrOther]. *)
Inductive Err :=
| ErrNotFound | ErrMultiDisks | ErrDiskExistsDiffSize | ErrAlreadyExists
| ErrTimeout
| ErrOther (msg : string).

#[global] Instance Err_eq_dec : EqDecision Err.
Proof. solve_decision. Defined.

(** Modelled from the spec: the constant [cloud.DefaultVolumeSize] is not
    part of the sources at hand; the spec gives a default of 10 GiB. *)
Definition DefaultVolumeSize : Z := 10 * util.GiB.

(** Modelled from the spec: the constant [cloud.VolumeTypeIO1] is not part
    of the sources at hand; the spec names the provisioned-IOPS class
    [io1]. *)
Definition VolumeTypeIO1 : string := "io1".

(** Modelled from the spec: a provisioned block device.  The declaration is
    not part of the sources at hand; the fields are those of the spec, which
    are the ones the controller reads and writes. *)
Record Disk := {
  VolumeID : string;
  CapacityGiB : Z;
  AvailabilityZone : string;
  FsType : string
}.

(** Modelled from the spec: a snapshot, with the fields the controller
    reads (the ready flag of the spec is not read: the response is always
    ready to use). *)
Record Snapshot := {
  SnapshotID : string;
  SourceVolumeID : string;
  Size : Z;
  CreationTime : time.Time
}.

Module DiskOptions.
(** Modelled from the spec: the create request of a disk, with the fields
    the controller fills in. *)
Record t := {
  CapacityBytes : Z;
  Tags : gmap string string;
  VolumeType : string;
  IOPSPerGB : Z;
  AvailabilityZone : string;
  Encrypted : bool;
  KmsKeyID : string;
  SnapshotID : string
}.
End DiskOptions.

Module SnapshotOptions.
(** Modelled from the spec: the create request of a snapshot. *)
Record t := { Tags : gmap string string }.
End SnapshotOptions.

(** The [Cloud] interface, with the methods the controller calls and the
    signatures of the call sites.  A method takes the provider's state and
    returns its results with the new state.  A Go method returning
    [(v, err)] returns both here as well: the controller looks at [err]
    first and at [v] after it.  A returned disk is a value: the controller's
    write to its [FsType] is on its own copy. *)
Record Cloud (S : Type) := {
  CreateDisk : string -> DiskOptions.t -> S -> (option Disk * option Err) * S;
  DeleteDisk : string -> S -> (bool * option Err) * S;
  AttachDisk : string -> string -> S -> (string * option Err) * S;
  GetDiskByName : string -> Z -> S -> (option Disk * option Err) * S;
  GetDiskByID : string -> S -> (option Disk * option Err) * S;
  IsExistInstance : string -> S -> bool * S;
  CreateSnapshot : string -> SnapshotOptions.t -> S -> (option Snapshot * option Err) * S;
  GetSnapshotByName : string -> S -> (option Snapshot * option Err) * S
}.
#[global] Arguments CreateDisk {S}.
#[global] Arguments DeleteDisk {S}.
#[global] Arguments AttachDisk {S}.
#[global] Arguments GetDiskByName {S}.
#[global] Arguments GetDiskByID {S}.
#[global] Arguments IsExistInstance {S}.
#[global] Arguments CreateSnapshot {S}.
#[global] Arguments GetSnapshotByName {S}.
End cloud.

(** ** The CSI messages of the controller service

    A message that may be absent (a nil pointer in Go) is an [option]; the
    elements of a repeated field are messages. *)
Module csi.
Inductive Mode :=
| UNKNOWN | SINGLE_NODE_WRITER | SINGLE_NODE_READER_ONLY
| MULTI_NODE_READER_ONLY | MULTI_NODE_SINGLE_WRITER | MULTI_NODE_MULTI_WRITER.

#[global] Instance Mode_eq_dec : EqDecision Mode.
Proof. solve_decision. Defined.

Module AccessMode.
Record t := { Mode : csi.Mode }.
(** The getter of a possibly nil message. *)
Definition GetMode (m : option t) : csi.Mode :=
  match m with Some m => Mode m | None => UNKNOWN end.
End AccessMode.

Inductive AccessType := Block | Mount.

Module VolumeCapability.
Record t := {
  AccessType : option csi.AccessType;
  AccessMode : option AccessMode.t
}.
End VolumeCapability.

Module CapacityRange.
Record t := { RequiredBytes : Z; LimitBytes : Z }.
Definition GetRequiredBytes (r : option t) : Z :=
  match r with Some r => RequiredBytes r | None => 0 end.
Definition GetLimitBytes (r : option t) : Z :=
  match r with Some r => LimitBytes r | None => 0 end.
End CapacityRange.

Module Topology.
Record t := { Segments : gmap string string }.
End Topology.

Module TopologyRequirement.
Record t := { Requisite : list Topology.t; Preferred : list Topology.t }.
End TopologyRequirement.

Module SnapshotSource.
Record t := { SnapshotId : string }.
End SnapshotSource.

Module VolumeSource.
Record t := { VolumeId : string }.
End VolumeSource.

(** The oneof [type] of a content source; the message in it may be nil. *)
Inductive VolumeContentSource_Type :=
| VolumeContentSource_Snapshot (s : option SnapshotSource.t)
| VolumeContentSource_Volume (v : option VolumeSource.t).

Module VolumeContentSource.
Record t := { Type_ : option VolumeContentSource_Type }.
Definition GetSnapshot (v : t) : option SnapshotSource.t :=
  match Type_ v with
  | Some (VolumeContentSource_Snapshot s) => s
  | _ => None
  end.
End VolumeContentSource.

Module CreateVolumeRequest.
Record t := {
  Name : string;
  CapacityRange : option CapacityRange.t;
  VolumeCapabilities : list VolumeCapability.t;
  Parameters : gmap string string;
  VolumeContentSource : option VolumeContentSource.t;
  AccessibilityRequirements : option TopologyRequirement.t
}.
End CreateVolumeRequest.

Module Volume.
Record t := {
  CapacityBytes : Z;
  VolumeId : string;
  VolumeContext : gmap string string;
  AccessibleTopology : list Topology.t
}.
End Volume.

Module CreateVolumeResponse.
Record t := { Volume : Volume.t }.
End CreateVolumeResponse.

Module DeleteVolumeRequest.
Record t := { VolumeId : string }.
End DeleteVolumeRequest.

Module DeleteVolumeResponse.
Record t := { }.
End DeleteVolumeResponse.

Module ControllerPublishVolumeRequest.
Record t := {
  VolumeId : string;
  NodeId : string;
  VolumeCapability : option VolumeCapability.t
}.
End ControllerPublishVolumeRequest.

Module ControllerPublishVolumeResponse.
Record t := { PublishContext : gmap string string }.
End ControllerPublishVolumeResponse.

Module ValidateVolumeCapabilitiesRequest.
Record t := {
  VolumeId : string;
  VolumeCapabilities : list VolumeCapability.t
}.
End ValidateVolumeCapabilitiesRequest.

Module Confirmed.
Record t := { VolumeCapabilities : list VolumeCapability.t }.
End Confirmed.

Module ValidateVolumeCapabilitiesResponse.
Record t := { Confirmed : option Confirmed.t }.
End ValidateVolumeCapabilitiesResponse.

Module CreateSnapshotRequest.
Record t := { SourceVolumeId : string; Name : string }.
End CreateSnapshotRequest.

Module Snapshot.
Record t := {
  SizeBytes : Z;
  SnapshotId : string;
  SourceVolumeId : string;
  CreationTime : ptypes.Timestamp;
  ReadyToUse : bool
}.
End Snapshot.

Module CreateSnapshotResponse.
Record t := { Snapshot : Snapshot.t }.
End CreateSnapshotResponse.
End csi.

(** ** google.golang.org/grpc/status and the errors a handler returns *)
Module status.
(** An argument of a format string. *)
Inductive Arg :=
| AString (s : string)
| AError (e : cloud.Err)
| ANumError (input : string).

(** The message of a status: a literal, the text of a provider error, or a
    format string with its arguments (left unformatted). *)
Inductive Message :=
| Text (s : string)
| ErrorText (e : cloud.Err)
| Sprintf (format : string) (args : list Arg).
End status.

(** What a handler returns as its [error]: a gRPC status, an error passed on
    as it came, or the run-time panic of a nil dereference. *)
Inductive error :=
| status_Error (c : codes.Code) (msg : status.Message)
| cloud_error (e : cloud.Err)
| timestamp_error
| nil_dereference.

(** [status.Code]: the code of a status, [Unknown] for any other error. *)
Definition status_Code (e : error) : codes.Code :=
  match e with
  | status_Error c _ => c
  | _ => codes.Unknown
  end.

(** ** Handlers: state of the provider threaded, early return on error *)
Definition M (S A : Type) : Type := S -> (A + error) * S.

Definition ret {S A} (a : A) : M S A := fun s => (inl a, s).

Definition fail {S A} (e : error) : M S A := fun s => (inr e, s).

Definition bind {S A B} (m : M S A) (k : A -> M S B) : M S B :=
  fun s =>
    match m s with
    | (inl a, s') => k a s'
    | (inr e, s') => (inr e, s')
    end.

(** A call of a provider method. *)
Definition call {S A} (op : S -> A * S) : M S A :=
  fun s => let '(a, s') := op s in (inl a, s').

Notation "'let*' x ':=' m 'in' k" := (bind m (fun x => k))
  (at level 10, x pattern, m at level 100, k at level 200).

(** The code a call ends with: [OK] for a response. *)
Definition codeOf {A} (r : A + error) : codes.Code :=
  match r with
  | inl _ => codes.OK
  | inr e => status_Code e
  end.

Module Driver.
(** The fields of the driver the controller reads. *)
Record t (S : Type) := {
  cloud : cloud.Cloud S;
  volumeCaps : list csi.AccessMode.t
}.
#[global] Arguments cloud {S}.
#[global] Arguments volumeCaps {S}.
End Driver.

Import csi.

(** The package constant [topologyKey] and the tag keys of the provider
    package are not part of the sources at hand and the spec names no
    value for them: they are parameters of the development. *)
Class Keys := {
  topologyKey : string;
  VolumeNameTagKey : string;
  SnapshotNameTagKey : string
}.

Section Controller.
Context {keys : Keys}.

Section Handlers.
Context {S : Type}.

(** The closure [hasSupport] of [isValidVolumeCapabilities], over the
    supported modes that are left to try. *)
Fixpoint hasSupport (volumeCaps : list AccessMode.t) (cap : VolumeCapability.t) : bool :=
  match volumeCaps with
  | [] => false
  | c :: rest =>
      if decide (AccessMode.Mode c = AccessMode.GetMode (VolumeCapability.AccessMode cap))
      then true
      else hasSupport rest cap
  end.

Definition isValidVolumeCapabilities (d : Driver.t S) (volCaps : list VolumeCapability.t) : bool :=
  fold_left
    (fun foundAll c => if negb (hasSupport (Driver.volumeCaps d) c) then false else foundAll)
    volCaps true.

(** One of the two loops of [pickAvailabilityZone]. *)
Fixpoint firstZone (topologies : list Topology.t) : option string :=
  match topologies with
  | [] => None
  | topology :: rest =>
      match Topology.Segments topology !! topologyKey with
      | Some zone => Some zone
      | None => firstZone rest
      end
  end.

Definition pickAvailabilityZone (requirement : option TopologyRequirement.t) : string :=
  match requirement with
  | None => EmptyString
  | Some requirement =>
      match firstZone (TopologyRequirement.Preferred requirement) with
      | Some zone => zone
      | None =>
          match firstZone (TopologyRequirement.Requisite requirement) with
          | Some zone => zone
          | None => EmptyString
          end
      end
  end.

Definition newCreateVolumeResponse (disk : cloud.Disk) : CreateVolumeResponse.t :=
  {| CreateVolumeResponse.Volume :=
       {| Volume.VolumeId := cloud.VolumeID disk;
          Volume.CapacityBytes := util.GiBToBytes (cloud.CapacityGiB disk);
          Volume.VolumeContext := {[ "fsType" := cloud.FsType disk ]};
          Volume.AccessibleTopology :=
            [ {| Topology.Segments := {[ topologyKey := cloud.AvailabilityZone disk ]} |} ] |} |}.

Definition newCreateSnapshotResponse (snapshot : cloud.Snapshot)
  : CreateSnapshotResponse.t + error :=
  match ptypes.TimestampProto (cloud.CreationTime snapshot) with
  | None => inr timestamp_error
  | Some ts =>
      inl {| CreateSnapshotResponse.Snapshot :=
               {| Snapshot.SnapshotId := cloud.SnapshotID snapshot;
                  Snapshot.SourceVolumeId := cloud.SourceVolumeID snapshot;
                  Snapshot.SizeBytes := cloud.Size snapshot;
                  Snapshot.CreationTime := ts;
                  Snapshot.ReadyToUse := true |} |}
  end.

(** The size that is asked for ([volSize], lines 39 to 42): the required
    bytes of the capacity range, and the default size without one. *)
Definition volSizeOf (req : CreateVolumeRequest.t) : Z :=
  match CreateVolumeRequest.CapacityRange req with
  | Some r => CapacityRange.RequiredBytes r
  | None => cloud.DefaultVolumeSize
  end.

(** The size [CreateVolume] works with ([volSizeBytes], line 44). *)
Definition volSizeBytesOf (req : CreateVolumeRequest.t) : Z :=
  util.RoundUpBytes (volSizeOf req).

(** The options of the disk to create (lines 79 to 120 of [CreateVolume]):
    the zone, the parameters and the content source of the request; a
    parameter or a content source that cannot be used ends the call. *)
Definition diskOptionsOf (req : CreateVolumeRequest.t) (volName : string) (volSizeBytes : Z)
  : cloud.DiskOptions.t + error :=
  let zone := pickAvailabilityZone (CreateVolumeRequest.AccessibilityRequirements req) in
  let volumeParams := CreateVolumeRequest.Parameters req in
  let volumeType := index volumeParams "type" in
  let iopsPerGB : Z + error :=
    if decide (volumeType = cloud.VolumeTypeIO1) then
      match strconv.Atoi (index volumeParams "iopsPerGB") with
      | Some n => inl n
      | None =>
          inr (status_Error codes.InvalidArgument
                 (status.Sprintf "Could not parse invalid iopsPerGB: %v"
                    [status.ANumError (index volumeParams "iopsPerGB")]))
      end
    else inl 0 in
  match iopsPerGB with
  | inr e => inr e
  | inl iopsPerGB =>
      let '(isEncrypted, kmsKeyId) :=
        if decide (index volumeParams "encrypted" = "true")
        then (true, index volumeParams "kmsKeyId")
        else (false, EmptyString) in
      let opts (snapshotID : string) :=
        {| cloud.DiskOptions.CapacityBytes := volSizeBytes;
           cloud.DiskOptions.Tags := {[ VolumeNameTagKey := volName ]};
           cloud.DiskOptions.VolumeType := volumeType;
           cloud.DiskOptions.IOPSPerGB := iopsPerGB;
           cloud.DiskOptions.AvailabilityZone := zone;
           cloud.DiskOptions.Encrypted := isEncrypted;
           cloud.DiskOptions.KmsKeyID := kmsKeyId;
           cloud.DiskOptions.SnapshotID := snapshotID |} in
      (* Shall we restore a snapshot? *)
      match CreateVolumeRequest.VolumeContentSource req with
      | None => inl (opts EmptyString)
      | Some volumeSource =>
          match VolumeContentSource.Type_ volumeSource with
          | Some (VolumeContentSource_Snapshot _) =>
              match VolumeContentSource.GetSnapshot volumeSource with
              | None =>
                  inr (status_Error codes.InvalidArgument
                         (status.Text "Error retrieving snapshot from the volumeContentSource"))
              | Some sourceSnapshot => inl (opts (SnapshotSource.SnapshotId sourceSnapshot))
              end
          | _ =>
              inr (status_Error codes.InvalidArgument
                     (status.Text "Unsupported volumeContentSource type"))
          end
      end
  end.

Definition CreateVolume (d : Driver.t S) (req : CreateVolumeRequest.t)
  : M S CreateVolumeResponse.t :=
  let volName := CreateVolumeRequest.Name req in
  if len0 volName then
    fail (status_Error codes.InvalidArgument (status.Text "Volume name not provided"))
  else
  let volSizeBytes := volSizeBytesOf req in
  let maxVolSize := CapacityRange.GetLimitBytes (CreateVolumeRequest.CapacityRange req) in
  if (0 <? maxVolSize) && (maxVolSize <? volSizeBytes) then
    fail (status_Error codes.InvalidArgument
            (status.Text "After round-up, volume size exceeds the limit specified"))
  else
  let volCaps := CreateVolumeRequest.VolumeCapabilities req in
  if (length volCaps =? 0)%nat then
    fail (status_Error codes.InvalidArgument (status.Text "Volume capabilities not provided"))
  else
  if negb (isValidVolumeCapabilities d volCaps) then
    fail (status_Error codes.InvalidArgument (status.Text "Volume capabilities not supported"))
  else
  let* (disk, err) := call (cloud.GetDiskByName (Driver.cloud d) volName volSizeBytes) in
  let* _ :=
    match err with
    | None => ret tt
    | Some cloud.ErrNotFound => ret tt
    | Some cloud.ErrMultiDisks =>
        fail (status_Error codes.Internal (status.ErrorText cloud.ErrMultiDisks))
    | Some cloud.ErrDiskExistsDiffSize =>
        fail (status_Error codes.AlreadyExists (status.ErrorText cloud.ErrDiskExistsDiffSize))
    | Some e => fail (status_Error codes.Internal (status.ErrorText e))
    end in
  match disk with
  | Some disk =>
      (* volume exists already *)
      ret (newCreateVolumeResponse disk)
  | None =>
      (* create a new volume *)
      let volumeParams := CreateVolumeRequest.Parameters req in
      let* opts := (fun s => (diskOptionsOf req volName volSizeBytes, s)) in
      let* (disk, err) := call (cloud.CreateDisk (Driver.cloud d) volName opts) in
      match err with
      | Some e =>
          fail (status_Error codes.Internal
                  (status.Sprintf "Could not create volume %q: %v"
                     [status.AString volName; status.AError e]))
      | None =>
          let fsType := index volumeParams "fsType" in
          match disk with
          | None => fail nil_dereference
          | Some disk =>
              let disk :=
                {| cloud.VolumeID := cloud.VolumeID disk;
                   cloud.CapacityGiB := cloud.CapacityGiB disk;
                   cloud.AvailabilityZone := cloud.AvailabilityZone disk;
                   cloud.FsType := fsType |} in
              ret (newCreateVolumeResponse disk)
          end
      end
  end.

Definition DeleteVolume (d : Driver.t S) (req : DeleteVolumeRequest.t)
  : M S DeleteVolumeResponse.t :=
  let volumeID := DeleteVolumeRequest.VolumeId req in
  if len0 volumeID then
    fail (status_Error codes.InvalidArgument (status.Text "Volume ID not provided"))
  else
  let* (_, err) := call (cloud.DeleteDisk (Driver.cloud d) volumeID) in
  match err with
  | Some cloud.ErrNotFound =>
      (* volume not found, returning with success *)
      ret DeleteVolumeResponse.Build_t
  | Some e =>
      fail (status_Error codes.Internal
              (status.Sprintf "Could not delete volume ID %q: %v"
                 [status.AString volumeID; status.AError e]))
  | None => ret DeleteVolumeResponse.Build_t
  end.

Definition ControllerPublishVolume (d : Driver.t S) (req : ControllerPublishVolumeRequest.t)
  : M S ControllerPublishVolumeResponse.t :=
  let volumeID := ControllerPublishVolumeRequest.VolumeId req in
  if len0 volumeID then
    fail (status_Error codes.InvalidArgument (status.Text "Volume ID not provided"))
  else
  let nodeID := ControllerPublishVolumeRequest.NodeId req in
  if len0 nodeID then
    fail (status_Error codes.InvalidArgument (status.Text "Node ID not provided"))
  else
  match ControllerPublishVolumeRequest.VolumeCapability req with
  | None =>
      fail (status_Error codes.InvalidArgument (status.Text "Volume capability not provided"))
  | Some volCap =>
      let caps := [volCap] in
      if negb (isValidVolumeCapabilities d caps) then
        fail (status_Error codes.InvalidArgument (status.Text "Volume capability not supported"))
      else
      let* exists_ := call (cloud.IsExistInstance (Driver.cloud d) nodeID) in
      if negb exists_ then
        fail (status_Error codes.NotFound
                (status.Sprintf "Instance %q not found" [status.AString nodeID]))
      else
      let* (_, err) := call (cloud.GetDiskByID (Driver.cloud d) volumeID) in
      let* _ :=
        match err with
        | None => ret tt
        | Some cloud.ErrNotFound =>
            fail (status_Error codes.NotFound (status.Text "Volume not found"))
        | Some e =>
            fail (status_Error codes.Internal
                    (status.Sprintf "Could not get volume with ID %q: %v"
                       [status.AString volumeID; status.AError e]))
        end in
      let* (devicePath, err) := call (cloud.AttachDisk (Driver.cloud d) volumeID nodeID) in
      match err with
      | Some cloud.ErrAlreadyExists =>
          fail (status_Error codes.AlreadyExists (status.ErrorText cloud.ErrAlreadyExists))
      | Some e =>
          fail (status_Error codes.Internal
                  (status.Sprintf "Could not attach volume %q to node %q: %v"
                     [status.AString volumeID; status.AString nodeID; status.AError e]))
      | None =>
          let pvInfo : gmap string string := {[ "devicePath" := devicePath ]} in
          ret {| ControllerPublishVolumeResponse.PublishContext := pvInfo |}
      end
  end.

Definition ValidateVolumeCapabilities (d : Driver.t S) (req : ValidateVolumeCapabilitiesRequest.t)
  : M S ValidateVolumeCapabilitiesResponse.t :=
  let volumeID := ValidateVolumeCapabilitiesRequest.VolumeId req in
  if len0 volumeID then
    fail (status_Error codes.InvalidArgument (status.Text "Volume ID not provided"))
  else
  let volCaps := ValidateVolumeCapabilitiesRequest.VolumeCapabilities req in
  if (length volCaps =? 0)%nat then
    fail (status_Error codes.InvalidArgument (status.Text "Volume capabilities not provided"))
  else
  let* (_, err) := call (cloud.GetDiskByID (Driver.cloud d) volumeID) in
  let* _ :=
    match err with
    | None => ret tt
    | Some cloud.ErrNotFound =>
        fail (status_Error codes.NotFound (status.Text "Volume not found"))
    | Some e =>
        fail (status_Error codes.Internal
                (status.Sprintf "Could not get volume with ID %q: %v"
                   [status.AString volumeID; status.AError e]))
    end in
  let confirmed :=
    if isValidVolumeCapabilities d volCaps
    then Some {| Confirmed.VolumeCapabilities := volCaps |}
    else None in
  ret {| ValidateVolumeCapabilitiesResponse.Confirmed := confirmed |}.

Definition CreateSnapshot (d : Driver.t S) (req : CreateSnapshotRequest.t)
  : M S CreateSnapshotResponse.t :=
  let snapshotName := CreateSnapshotRequest.Name req in
  if len0 snapshotName then
    fail (status_Error codes.InvalidArgument (status.Text "Snapshot name not provided"))
  else
  let volumeID := CreateSnapshotRequest.SourceVolumeId req in
  if len0 volumeID then
    fail (status_Error codes.InvalidArgument
            (status.Text "Snapshot volume source ID not provided"))
  else
  let* (snapshot, err) := call (cloud.GetSnapshotByName (Driver.cloud d) snapshotName) in
  let* _ :=
    match err with
    | None => ret tt
    | Some cloud.ErrNotFound => ret tt
    | Some e => fail (cloud_error e)
    end in
  match snapshot with
  | Some snapshot =>
      if negb (bool_decide (cloud.SourceVolumeID snapshot = volumeID)) then
        fail (status_Error codes.AlreadyExists
                (status.Sprintf "Snapshot %s already exists for different volume (%s)"
                   [status.AString snapshotName;
                    status.AString (cloud.SourceVolumeID snapshot)]))
      else
        (* already exists; nothing to do *)
        fun s => (newCreateSnapshotResponse snapshot, s)
  | None =>
      let opts :=
        {| cloud.SnapshotOptions.Tags := {[ SnapshotNameTagKey := snapshotName ]} |} in
      let* (snapshot, err) := call (cloud.CreateSnapshot (Driver.cloud d) volumeID opts) in
      match err with
      | Some e =>
          fail (status_Error codes.Internal
                  (status.Sprintf "Could not create snapshot %q: %v"
                     [status.AString snapshotName; status.AError e]))
      | None =>
          match snapshot with
          | None => fail nil_dereference
          | Some snapshot => fun s => (newCreateSnapshotResponse snapshot, s)
          end
      end
  end.
End Handlers.

(** Modelled from the spec: [NewDriver] is not part of the sources at hand.
    The spec gives the supported access mode: single-node writer, every
    other mode unsupported. *)
Definition NewDriver {S} (c : cloud.Cloud S) : Driver.t S :=
  {| Driver.cloud := c;
     Driver.volumeCaps := [ {| AccessMode.Mode := SINGLE_NODE_WRITER |} ] |}.

(** ** The provider

    The package [pkg/cloud] that implements the [Cloud] interface is not
    part of the sources at hand.  Section 4.1 of the spec is followed
    operation by operation.  Every wait of the provider ends well here; the
    provider of expired waits is [timeoutProvider] below. *)

(** Modelled from the spec: a disk as the provider holds it, with its tags. *)
Record StoredDisk := { sdDisk : cloud.Disk; sdTags : gmap string string }.

(** Modelled from the spec: a snapshot as the provider holds it. *)
Record StoredSnapshot := { ssSnapshot : cloud.Snapshot; ssTags : gmap string string }.

(** Modelled from the spec: an attachment is a triple of a volume ID, an
    instance ID and a device path. *)
Record Attachment := {
  attVolumeID : string;
  attInstanceID : string;
  attDevicePath : string
}.

(** Modelled from the spec: the state of the provider: the disks and
    snapshots with their tags, the instances, the attachments, a serial
    number for fresh opaque identifiers, the zone the provider picks when
    none is asked for, and its clock. *)
Record Provider := {
  disks : list StoredDisk;
  snapshots : list StoredSnapshot;
  instances : list string;
  attachments : list Attachment;
  serial : nat;
  zone : string;
  clock : time.Time
}.

(** Modelled from the spec: updates of the state of the provider. *)
Definition withDisks (p : Provider) (ds : list StoredDisk) (n : nat) : Provider :=
  {| disks := ds; snapshots := snapshots p; instances := instances p;
     attachments := attachments p; serial := n; zone := zone p; clock := clock p |}.

Definition withSnapshots (p : Provider) (ss : list StoredSnapshot) (n : nat) : Provider :=
  {| disks := disks p; snapshots := ss; instances := instances p;
     attachments := attachments p; serial := n; zone := zone p; clock := clock p |}.

Definition withAttachments (p : Provider) (ats : list Attachment) : Provider :=
  {| disks := disks p; snapshots := snapshots p; instances := instances p;
     attachments := ats; serial := serial p; zone := zone p; clock := clock p |}.

(** Modelled from the spec: the disk carries the name in its name tag. *)
Definition diskNamed (name : string) (sd : StoredDisk) : bool :=
  bool_decide (sdTags sd !! VolumeNameTagKey = Some name).

(** Modelled from the spec: the disk has the volume ID. *)
Definition diskHasID (volumeID : string) (sd : StoredDisk) : bool :=
  bool_decide (cloud.VolumeID (sdDisk sd) = volumeID).

(** Modelled from the spec: the snapshot carries the name in its name tag. *)
Definition snapshotNamed (name : string) (ss : StoredSnapshot) : bool :=
  bool_decide (ssTags ss !! SnapshotNameTagKey = Some name).

(** Modelled from the spec: [GetDiskByName] resolves by name tag; no match
    is [ErrNotFound], more than one is [ErrMultiDisks], one whose capacity
    in bytes is not [capacityBytes] is [ErrDiskExistsDiffSize]. *)
Definition provider_GetDiskByName (name : string) (capacityBytes : Z) (p : Provider)
  : (option cloud.Disk * option cloud.Err) * Provider :=
  match List.filter (diskNamed name) (disks p) with
  | [] => ((None, Some cloud.ErrNotFound), p)
  | [sd] =>
      if decide (util.GiBToBytes (cloud.CapacityGiB (sdDisk sd)) = capacityBytes)
      then ((Some (sdDisk sd), None), p)
      else ((None, Some cloud.ErrDiskExistsDiffSize), p)
  | _ => ((None, Some cloud.ErrMultiDisks), p)
  end.

(** Modelled from the spec: [CreateDisk] creates a disk of the requested
    capacity rounded up to GiB with a tag that carries the name, in the
    requested zone or in one the provider picks; it fails with
    [ErrAlreadyExists] if a disk of another size carries the name, and a
    disk of the same size that carries the name is returned as it is.
    Zero or negative requested bytes are treated as the default of 10 GiB
    (the capacity semantics of section 4.1, in [util.RoundUpGiB]), so the
    capacity of a disk is always positive. *)
Definition provider_CreateDisk (name : string) (opts : cloud.DiskOptions.t) (p : Provider)
  : (option cloud.Disk * option cloud.Err) * Provider :=
  let capacityGiB := util.RoundUpGiB (cloud.DiskOptions.CapacityBytes opts) in
  let named := List.filter (diskNamed name) (disks p) in
  if existsb (fun sd => negb (bool_decide (cloud.CapacityGiB (sdDisk sd) = capacityGiB))) named
  then ((None, Some cloud.ErrAlreadyExists), p)
  else
    match named with
    | sd :: _ => ((Some (sdDisk sd), None), p)
    | [] =>
        let disk :=
          {| cloud.VolumeID := "vol-" +:+ pretty (serial p);
             cloud.CapacityGiB := capacityGiB;
             cloud.AvailabilityZone :=
               if len0 (cloud.DiskOptions.AvailabilityZone opts)
               then zone p
               else cloud.DiskOptions.AvailabilityZone opts;
             cloud.FsType := EmptyString |} in
        let sd :=
          {| sdDisk := disk;
             sdTags := <[ VolumeNameTagKey := name ]> (cloud.DiskOptions.Tags opts) |} in
        ((Some disk, None), withDisks p (disks p ++ [sd]) (Datatypes.S (serial p)))
    end.

(** Modelled from the spec: [DeleteDisk] returns [ErrNotFound] if the disk
    does not exist at call time. *)
Definition provider_DeleteDisk (volumeID : string) (p : Provider)
  : (bool * option cloud.Err) * Provider :=
  if existsb (diskHasID volumeID) (disks p)
  then ((true, None),
        withDisks p (List.filter (fun sd => negb (diskHasID volumeID sd)) (disks p)) (serial p))
  else ((false, Some cloud.ErrNotFound), p).

(** Modelled from the spec: [GetDiskByID] returns [ErrNotFound] if absent. *)
Definition provider_GetDiskByID (volumeID : string) (p : Provider)
  : (option cloud.Disk * option cloud.Err) * Provider :=
  match List.find (diskHasID volumeID) (disks p) with
  | Some sd => ((Some (sdDisk sd), None), p)
  | None => ((None, Some cloud.ErrNotFound), p)
  end.

(** Modelled from the spec: [IsExistInstance] tells whether the provider has
    the instance. *)
Definition provider_IsExistInstance (instanceID : string) (p : Provider) : bool * Provider :=
  (bool_decide (instanceID ∈ instances p), p).

(** Modelled from the spec: the alphabet of device paths, /dev/xvdba to
    /dev/xvdcz, in the order in which they are tried. *)
Definition devicePaths : list string :=
  let letters := map (fun n => ascii_of_nat n) (seq 97 26) in
  flat_map
    (fun x => map (fun y => "/dev/xvd" +:+ String x (String y EmptyString)) letters)
    [ "b"%char; "c"%char ].

(** Modelled from the spec: [AttachDisk] returns the existing device path
    if the disk is attached to this instance, [ErrAlreadyExists] if it is
    attached to another one, and else attaches it at the first device path
    of the alphabet that is not in use on the instance.  A disk or an
    instance that does not exist is [ErrNotFound]. *)
Definition provider_AttachDisk (volumeID instanceID : string) (p : Provider)
  : (string * option cloud.Err) * Provider :=
  if negb (existsb (diskHasID volumeID) (disks p))
     || negb (bool_decide (instanceID ∈ instances p))
  then ((EmptyString, Some cloud.ErrNotFound), p)
  else
    match List.find (fun a => bool_decide (attVolumeID a = volumeID)) (attachments p) with
    | Some a =>
        if bool_decide (attInstanceID a = instanceID)
        then ((attDevicePath a, None), p)
        else ((EmptyString, Some cloud.ErrAlreadyExists), p)
    | None =>
        let inUse :=
          map attDevicePath
            (List.filter (fun a => bool_decide (attInstanceID a = instanceID)) (attachments p)) in
        match List.find (fun dev => negb (bool_decide (dev ∈ inUse))) devicePaths with
        | Some dev =>
            let a := {| attVolumeID := volumeID; attInstanceID := instanceID;
                        attDevicePath := dev |} in
            ((dev, None), withAttachments p (attachments p ++ [a]))
        | None => ((EmptyString, Some (cloud.ErrOther "no device path available")), p)
        end
    end.

(** Modelled from the spec: [GetSnapshotByName] resolves by name tag. *)
Definition provider_GetSnapshotByName (name : string) (p : Provider)
  : (option cloud.Snapshot * option cloud.Err) * Provider :=
  match List.filter (snapshotNamed name) (snapshots p) with
  | [] => ((None, Some cloud.ErrNotFound), p)
  | ss :: _ => ((Some (ssSnapshot ss), None), p)
  end.

(** Modelled from the spec: [CreateSnapshot] records a snapshot of the
    volume with the given tags, of the size of the volume when the
    provider knows it, taken at the time of the provider's clock. *)
Definition provider_CreateSnapshot (volumeID : string) (opts : cloud.SnapshotOptions.t)
    (p : Provider) : (option cloud.Snapshot * option cloud.Err) * Provider :=
  let size :=
    match List.find (diskHasID volumeID) (disks p) with
    | Some sd => util.GiBToBytes (cloud.CapacityGiB (sdDisk sd))
    | None => 0
    end in
  let snapshot :=
    {| cloud.SnapshotID := "snap-" +:+ pretty (serial p);
       cloud.SourceVolumeID := volumeID;
       cloud.Size := size;
       cloud.CreationTime := clock p |} in
  let ss := {| ssSnapshot := snapshot; ssTags := cloud.SnapshotOptions.Tags opts |} in
  ((Some snapshot, None), withSnapshots p (snapshots p ++ [ss]) (Datatypes.S (serial p))).

(** Modelled from the spec: the provider as an implementation of the
    [Cloud] interface. *)
Definition provider : cloud.Cloud Provider :=
  {| cloud.CreateDisk := provider_CreateDisk;
     cloud.DeleteDisk := provider_DeleteDisk;
     cloud.AttachDisk := provider_AttachDisk;
     cloud.GetDiskByName := provider_GetDiskByName;
     cloud.GetDiskByID := provider_GetDiskByID;
     cloud.IsExistInstance := provider_IsExistInstance;
     cloud.CreateSnapshot := provider_CreateSnapshot;
     cloud.GetSnapshotByName := provider_GetSnapshotByName |}.

(** Modelled from the spec: a provider that holds no disk and no snapshot
    yet. *)
Definition emptyProvider (instanceIDs : list string) (z : string) (now : time.Time) : Provider :=
  {| disks := []; snapshots := []; instances := instanceIDs; attachments := [];
     serial := 0; zone := z; clock := now |}.

(** ** Vocabulary of the properties *)

(** The access modes a driver supports. *)
Definition supportedModes {S} (d : Driver.t S) : list csi.Mode :=
  map AccessMode.Mode (Driver.volumeCaps d).

(** The request passes the argument checks of [CreateVolume]: a name, a size
    within the limit if there is one, capabilities, all of them supported. *)
Definition accepted {S} (d : Driver.t S) (req : CreateVolumeRequest.t) : Prop :=
  CreateVolumeRequest.Name req <> EmptyString
  /\ ~ (0 < CapacityRange.GetLimitBytes (CreateVolumeRequest.CapacityRange req)
           < volSizeBytesOf req)
  /\ CreateVolumeRequest.VolumeCapabilities req <> []
  /\ isValidVolumeCapabilities d (CreateVolumeRequest.VolumeCapabilities req) = true.

(** The driver over the provider of this file, for given supported modes. *)
Definition driverOn (volumeCaps : list AccessMode.t) : Driver.t Provider :=
  {| Driver.cloud := provider; Driver.volumeCaps := volumeCaps |}.

End Controller.

(** ** The rest of the controller

    The handlers of [controller.go] that call the provider otherwise than
    the ones above, with the messages, the methods of the [Cloud] interface
    and the field of the driver they need. *)
Module csi_rest.
Inductive RPC_Type :=
| RPC_UNKNOWN | CREATE_DELETE_VOLUME | PUBLISH_UNPUBLISH_VOLUME | LIST_VOLUMES
| GET_CAPACITY | CREATE_DELETE_SNAPSHOT | LIST_SNAPSHOTS.

Module ControllerServiceCapability_RPC.
Record t := { Type_ : RPC_Type }.
End ControllerServiceCapability_RPC.

(** The oneof [type] of a controller capability. *)
Inductive ControllerServiceCapability_Type :=
| ControllerServiceCapability_Rpc (Rpc : option ControllerServiceCapability_RPC.t).

Module ControllerServiceCapability.
Record t := { Type_ : option ControllerServiceCapability_Type }.
(** The getters of the message, nil-safe as the generated ones are. *)
Definition GetRpc (c : t) : option ControllerServiceCapability_RPC.t :=
  match Type_ c with
  | Some (ControllerServiceCapability_Rpc rpc) => rpc
  | None => None
  end.
Definition GetRpcType (c : t) : RPC_Type :=
  match GetRpc c with
  | Some rpc => ControllerServiceCapability_RPC.Type_ rpc
  | None => RPC_UNKNOWN
  end.
End ControllerServiceCapability.

Module ControllerGetCapabilitiesResponse.
Record t := { Capabilities : list ControllerServiceCapability.t }.
End ControllerGetCapabilitiesResponse.

Module ControllerUnpublishVolumeRequest.
Record t := { VolumeId : string; NodeId : string }.
End ControllerUnpublishVolumeRequest.

Module ControllerUnpublishVolumeResponse.
Record t := { }.
End ControllerUnpublishVolumeResponse.

Module DeleteSnapshotRequest.
Record t := { SnapshotId : string }.
End DeleteSnapshotRequest.

Module DeleteSnapshotResponse.
Record t := { }.
End DeleteSnapshotResponse.
End csi_rest.

Module CloudRest.
(** The two other methods of the [Cloud] interface that the controller
    calls, with the signatures of their call sites. *)
Record t (S : Type) := {
  DetachDisk : string -> string -> S -> option cloud.Err * S;
  DeleteSnapshot : string -> S -> (bool * option cloud.Err) * S
}.
#[global] Arguments DetachDisk {S}.
#[global] Arguments DeleteSnapshot {S}.
End CloudRest.

Section RestOfController.
Import csi_rest.
Context {S : Type}.

Definition ControllerUnpublishVolume (c : CloudRest.t S) (req : ControllerUnpublishVolumeRequest.t)
  : M S ControllerUnpublishVolumeResponse.t :=
  let volumeID := ControllerUnpublishVolumeRequest.VolumeId req in
  if len0 volumeID then
    fail (status_Error codes.InvalidArgument (status.Text "Volume ID not provided"))
  else
  let nodeID := ControllerUnpublishVolumeRequest.NodeId req in
  if len0 nodeID then
    fail (status_Error codes.InvalidArgument (status.Text "Node ID not provided"))
  else
  let* err := call (CloudRest.DetachDisk c volumeID nodeID) in
  match err with
  | Some e =>
      fail (status_Error codes.Internal
              (status.Sprintf "Could not detach volume %q from node %q: %v"
                 [status.AString volumeID; status.AString nodeID; status.AError e]))
  | None => ret ControllerUnpublishVolumeResponse.Build_t
  end.

(** [ControllerGetCapabilities], over the field [controllerCaps] of the
    driver: the loop appends one capability for each of its entries. *)
Definition ControllerGetCapabilities (controllerCaps : list RPC_Type)
  : M S ControllerGetCapabilitiesResponse.t :=
  let caps :=
    fold_left
      (fun caps cap =>
         let c :=
           {| ControllerServiceCapability.Type_ :=
                Some (ControllerServiceCapability_Rpc
                        (Some {| ControllerServiceCapability_RPC.Type_ := cap |})) |} in
         caps ++ [c])
      controllerCaps [] in
  ret {| ControllerGetCapabilitiesResponse.Capabilities := caps |}.

Definition DeleteSnapshot (c : CloudRest.t S) (req : DeleteSnapshotRequest.t)
  : M S DeleteSnapshotResponse.t :=
  let snapshotID := DeleteSnapshotRequest.SnapshotId req in
  if len0 snapshotID then
    fail (status_Error codes.InvalidArgument (status.Text "Snapshot ID not provided"))
  else
  let* (_, err) := call (CloudRest.DeleteSnapshot c snapshotID) in
  match err with
  | Some cloud.ErrNotFound =>
      (* snapshot not found, returning with success *)
      ret DeleteSnapshotResponse.Build_t
  | Some e =>
      fail (status_Error codes.Internal
              (status.Sprintf "Could not delete snapshot ID %q: %v"
                 [status.AString snapshotID; status.AError e]))
  | None => ret DeleteSnapshotResponse.Build_t
  end.
End RestOfController.

(** ** The end-to-end test: polling the provider (tests/e2e/e2e_test.go) *)
Module aws.
(** [aws.StringValue]: the string a pointer points to, empty for nil. *)
Definition StringValue (v : option string) : string := default EmptyString v.
End aws.

Module ec2.
Module VolumeAttachment.
Record t := { State : option string }.
End VolumeAttachment.

Module Volume.
Record t := {
  VolumeId : option string;
  State : option string;
  Attachments : list VolumeAttachment.t
}.
End Volume.

Module DescribeVolumesInput.
Record t := { VolumeIds : list (option string); NextToken : option string }.
End DescribeVolumesInput.

Module DescribeVolumesOutput.
Record t := { Volumes : list Volume.t; NextToken : option string }.
End DescribeVolumesOutput.
End ec2.

Module e2e.
(** An error in the test: one of the EC2 client, which is an [awserr.Error]
    with a code or another error, or the one [fmt.Errorf] of the test. *)
Inductive error :=
| AwsError (code : string)
| OtherError (msg : string)
| Errorf (format : string) (n : nat).

(** What a condition function does: it returns [(done, err)], or it panics on
    an index out of range. *)
Inductive outcome :=
| Return (done : bool) (err : option error)
| Panic.

Section Client.
(** The state of the world behind the EC2 API, and [ec2Client.DescribeVolumes]
    on it. *)
Context {W : Type}.
Variable DescribeVolumes :
  ec2.DescribeVolumesInput.t -> W -> (ec2.DescribeVolumesOutput.t + error) * W.

(** [describeVolumes]: the loop over the pages, with the volumes collected so
    far.  The loop has no bound of its own: [fuel] bounds the number of
    pages, and [None] is a loop that has not ended within it.  The input is
    a pointer and the loop writes its [NextToken]: the input as it is left
    is returned with the result. *)
Fixpoint describeVolumes_loop (fuel : nat) (params : ec2.DescribeVolumesInput.t)
    (volumes : list ec2.Volume.t) (w : W)
  : option ((list ec2.Volume.t + error) * ec2.DescribeVolumesInput.t * W) :=
  match fuel with
  | O => None
  | Datatypes.S fuel =>
      match DescribeVolumes params w with
      | (inr err, w') => Some (inr err, params, w')
      | (inl response, w') =>
          let volumes := volumes ++ ec2.DescribeVolumesOutput.Volumes response in
          let nextToken := ec2.DescribeVolumesOutput.NextToken response in
          if decide (aws.StringValue nextToken = EmptyString)
          then Some (inl volumes, params, w')
          else
            let params :=
              {| ec2.DescribeVolumesInput.VolumeIds := ec2.DescribeVolumesInput.VolumeIds params;
                 ec2.DescribeVolumesInput.NextToken := nextToken |} in
            describeVolumes_loop fuel params volumes w'
      end
  end.

Definition describeVolumes (fuel : nat) (params : ec2.DescribeVolumesInput.t) (w : W)
  : option ((list ec2.Volume.t + error) * ec2.DescribeVolumesInput.t * W) :=
  describeVolumes_loop fuel params [] w.

(** The condition function [verifyVolumeFunc] of [waitForVolumeState], after
    its call of [describeVolumes]. *)
Definition volumeStateReached (state : string) (described : list ec2.Volume.t + error)
  : outcome :=
  match described with
  | inr err => Return false (Some err)
  | inl volumes =>
      if negb (length volumes =? 1)%nat then
        Return false (Some (Errorf "expected 1 volume, got %d" (length volumes)))
      else
        match volumes with
        | [] => Panic
        | volume :: _ =>
            if negb (bool_decide (aws.StringValue (ec2.Volume.State volume) = state)) then
              Return false None
            else if bool_decide (state = "in-use") then
              (* We need to check the atachment state when the volume is "in-use",
                 as it might still be "attaching" rather than "attached". *)
              match ec2.Volume.Attachments volume with
              | [] => Panic
              | attachment :: _ =>
                  if negb (bool_decide
                             (aws.StringValue (ec2.VolumeAttachment.State attachment)
                              = "attached"))
                  then Return false None
                  else Return true None
              end
            else Return true None
        end
  end.

(** The condition function [verifyVolumeFunc] of [waitForVolumes], after its
    call of [describeVolumes]. *)
Definition volumesCounted (nVolumes : nat) (described : list ec2.Volume.t + error)
  : outcome :=
  match described with
  | inr err =>
      if (nVolumes =? 0)%nat then
        match err with
        | AwsError code =>
            if bool_decide (code = "InvalidVolume.NotFound")
            then Return true None
            else Return false (Some err)
        | _ => Return false (Some err)
        end
      else Return false (Some err)
  | inl volumes =>
      if negb (length volumes =? nVolumes)%nat then Return false None
      else Return true None
  end.

(** The two condition functions: the volume is described by its ID, from the
    first page on. *)
Definition describeInput (volumeID : string) : ec2.DescribeVolumesInput.t :=
  {| ec2.DescribeVolumesInput.VolumeIds := [Some volumeID];
     ec2.DescribeVolumesInput.NextToken := None |}.

Definition verifyVolumeState (fuel : nat) (volumeID state : string) (w : W)
  : option (outcome * W) :=
  match describeVolumes fuel (describeInput volumeID) w with
  | Some (described, _, w') => Some (volumeStateReached state described, w')
  | None => None
  end.

Definition verifyVolumes (fuel : nat) (volumeID : string) (nVolumes : nat) (w : W)
  : option (outcome * W) :=
  match describeVolumes fuel (describeInput volumeID) w with
  | Some (described, _, w') => Some (volumesCounted nVolumes described, w')
  | None => None
  end.

(** The pages the API serves from an input on: the volumes of all of them, the
    input as the loop leaves it and the state of the world after the last
    page. *)
Inductive Served :
  ec2.DescribeVolumesInput.t -> W -> list ec2.Volume.t ->
  ec2.DescribeVolumesInput.t -> W -> Prop :=
| Served_last params w response w' :
    DescribeVolumes params w = (inl response, w') ->
    aws.StringValue (ec2.DescribeVolumesOutput.NextToken response) = EmptyString ->
    Served params w (ec2.DescribeVolumesOutput.Volumes response) params w'
| Served_more params w response w1 volumes params' w' :
    DescribeVolumes params w = (inl response, w1) ->
    aws.StringValue (ec2.DescribeVolumesOutput.NextToken response) <> EmptyString ->
    Served
      {| ec2.DescribeVolumesInput.VolumeIds := ec2.DescribeVolumesInput.VolumeIds params;
         ec2.DescribeVolumesInput.NextToken := ec2.DescribeVolumesOutput.NextToken response |}
      w1 volumes params' w' ->
    Served params w (ec2.DescribeVolumesOutput.Volumes response ++ volumes) params' w'.
End Client.
End e2e.

(** ** Sample data, after the tests of the controller *)

Definition sampleKeys : Keys :=
  {| topologyKey := "topology.ebs.csi.aws.com/zone";
     VolumeNameTagKey := "CSIVolumeName";
     SnapshotNameTagKey := "CSIVolumeSnapshotName" |}.

Definition stdVolCap : list VolumeCapability.t :=
  [ {| VolumeCapability.AccessType := Some Mount;
       VolumeCapability.AccessMode := Some {| AccessMode.Mode := SINGLE_NODE_WRITER |} |} ].

Definition readerVolCap : VolumeCapability.t :=
  {| VolumeCapability.AccessType := Some Mount;
     VolumeCapability.AccessMode := Some {| AccessMode.Mode := MULTI_NODE_READER_ONLY |} |}.

Definition stdVolSize : Z := 5 * 1024 * 1024 * 1024.

(** A request for a volume of a name, with the required bytes if any, the
    standard capabilities and the given parameters. *)
Definition volumeRequest (name : string) (required : option Z) (params : gmap string string)
  : CreateVolumeRequest.t :=
  {| CreateVolumeRequest.Name := name;
     CreateVolumeRequest.CapacityRange :=
       match required with
       | Some b => Some {| CapacityRange.RequiredBytes := b; CapacityRange.LimitBytes := 0 |}
       | None => None
       end;
     CreateVolumeRequest.VolumeCapabilities := stdVolCap;
     CreateVolumeRequest.Parameters := params;
     CreateVolumeRequest.VolumeContentSource := None;
     CreateVolumeRequest.AccessibilityRequirements := None |}.

Definition sampleProvider : Provider :=
  emptyProvider [ "i-0123456789"; "i-9876543210" ] "us-west-2a"
    {| time.Unix := 1546300800; time.Nanosecond := 0 |}.

Definition zoneTopology (key zone : string) : Topology.t :=
  {| Topology.Segments := {[ key := zone ]} |}.

Definition emptyTopology : Topology.t := {| Topology.Segments := ∅ |}.

(** The driver of the tests: [NewDriver] over a provider with the sample keys. *)
Definition sampleDriver : Driver.t Provider :=
  NewDriver (provider (keys := sampleKeys)).

(** Modelled from the spec: the provider when every wait expires: the
    operations that wait for a state fail with [ErrTimeout] and leave the
    state as it is. *)
Definition timeoutProvider {keys : Keys} : cloud.Cloud Provider :=
  {| cloud.CreateDisk := fun _ _ p => ((None, Some cloud.ErrTimeout), p);
     cloud.DeleteDisk := fun _ p => ((false, Some cloud.ErrTimeout), p);
     cloud.AttachDisk := fun _ _ p => ((EmptyString, Some cloud.ErrTimeout), p);
     cloud.GetDiskByName := provider_GetDiskByName;
     cloud.GetDiskByID := provider_GetDiskByID;
     cloud.IsExistInstance := provider_IsExistInstance;
     cloud.CreateSnapshot := fun _ _ p => ((None, Some cloud.ErrTimeout), p);
     cloud.GetSnapshotByName := provider_GetSnapshotByName |}.

(** The sample provider after the volume [test-vol] of the standard size has
    been created in it. *)
Definition providerWithVolume : Provider :=
  snd (CreateVolume (keys := sampleKeys) sampleDriver
         (volumeRequest "test-vol" (Some stdVolSize) ∅) sampleProvider).

Definition snapshotRequest (name volumeID : string) : CreateSnapshotRequest.t :=
  {| CreateSnapshotRequest.Name := name; CreateSnapshotRequest.SourceVolumeId := volumeID |}.

(** ... and after the snapshot [test-snapshot] of that volume has been
    created as well. *)
Definition providerWithSnapshot : Provider :=
  snd (CreateSnapshot (keys := sampleKeys) sampleDriver
         (snapshotRequest "test-snapshot" "vol-0") providerWithVolume).

Definition publishRequest (volumeID nodeID : string) (volCap : option VolumeCapability.t)
  : ControllerPublishVolumeRequest.t :=
  {| ControllerPublishVolumeRequest.VolumeId := volumeID;
     ControllerPublishVolumeRequest.NodeId := nodeID;
     ControllerPublishVolumeRequest.VolumeCapability := volCap |}.

(** ... and after the volume has been attached to the first instance. *)
Definition providerAttached : Provider :=
  snd (ControllerPublishVolume sampleDriver
         (publishRequest "vol-0" "i-0123456789" (head stdVolCap)) providerWithVolume).

(** What a test looks at in the outcome of [CreateVolume]: the code, and the
    capacity and the fsType of the volume context when there is a volume. *)
Definition observed (r : (CreateVolumeResponse.t + error) * Provider)
  : codes.Code * option (Z * option string) :=
  (codeOf (fst r),
   match fst r with
   | inl resp =>
       Some (Volume.CapacityBytes (CreateVolumeResponse.Volume resp),
             Volume.VolumeContext (CreateVolumeResponse.Volume resp) !! "fsType")
   | inr _ => None
   end).

(** ** Further sample data: providers that fail, and a paged API *)

(** A provider of which every method fails with the given error and leaves
    the state as it is; it knows the instances of the state. *)
Definition failingProvider (e : cloud.Err) : cloud.Cloud Provider :=
  {| cloud.CreateDisk := fun _ _ p => ((None, Some e), p);
     cloud.DeleteDisk := fun _ p => ((false, Some e), p);
     cloud.AttachDisk := fun _ _ p => ((EmptyString, Some e), p);
     cloud.GetDiskByName := fun _ _ p => ((None, Some e), p);
     cloud.GetDiskByID := fun _ p => ((None, Some e), p);
     cloud.IsExistInstance := provider_IsExistInstance;
     cloud.CreateSnapshot := fun _ _ p => ((None, Some e), p);
     cloud.GetSnapshotByName := fun _ p => ((None, Some e), p) |}.

(** A provider that finds nothing and whose create methods return neither a
    result nor an error. *)
Definition silentProvider : cloud.Cloud Provider :=
  {| cloud.CreateDisk := fun _ _ p => ((None, None), p);
     cloud.DeleteDisk := fun _ p => ((false, Some cloud.ErrNotFound), p);
     cloud.AttachDisk := fun _ _ p => ((EmptyString, Some cloud.ErrNotFound), p);
     cloud.GetDiskByName := fun _ _ p => ((None, Some cloud.ErrNotFound), p);
     cloud.GetDiskByID := fun _ p => ((None, Some cloud.ErrNotFound), p);
     cloud.IsExistInstance := provider_IsExistInstance;
     cloud.CreateSnapshot := fun _ _ p => ((None, None), p);
     cloud.GetSnapshotByName := fun _ p => ((None, Some cloud.ErrNotFound), p) |}.

(** The two other methods, failing with the given error if there is one. *)
Definition restReturning (err : option cloud.Err) : CloudRest.t Provider :=
  {| CloudRest.DetachDisk := fun _ _ p => (err, p);
     CloudRest.DeleteSnapshot := fun _ p => ((bool_decide (err = None), err), p) |}.

(** The sample provider with two disks that carry the name [test-vol]. *)
Definition providerWithTwins : Provider :=
  withDisks providerWithVolume (disks providerWithVolume ++ disks providerWithVolume) 2.

(** A request for an io1 volume whose iopsPerGB is not a number. *)
Definition badIopsRequest : CreateVolumeRequest.t :=
  volumeRequest "test-vol" (Some stdVolSize)
    {[ "type" := cloud.VolumeTypeIO1; "iopsPerGB" := "many" ]}.

(** A request for an encrypted io1 volume restored from a snapshot. *)
Definition restoreRequest : CreateVolumeRequest.t :=
  {| CreateVolumeRequest.Name := "restored-vol";
     CreateVolumeRequest.CapacityRange := None;
     CreateVolumeRequest.VolumeCapabilities := stdVolCap;
     CreateVolumeRequest.Parameters :=
       {[ "type" := cloud.VolumeTypeIO1; "iopsPerGB" := "5";
          "encrypted" := "true"; "kmsKeyId" := "arn:aws:kms:key/abcd1234" ]};
     CreateVolumeRequest.VolumeContentSource :=
       Some {| VolumeContentSource.Type_ :=
                 Some (VolumeContentSource_Snapshot
                         (Some {| SnapshotSource.SnapshotId := "snap-1" |})) |};
     CreateVolumeRequest.AccessibilityRequirements :=
       Some {| TopologyRequirement.Requisite := [];
               TopologyRequirement.Preferred :=
                 [ zoneTopology (topologyKey (Keys := sampleKeys)) "us-west-2b" ] |} |}.

(** A request whose content source is another volume. *)
Definition cloneRequest : CreateVolumeRequest.t :=
  {| CreateVolumeRequest.Name := "cloned-vol";
     CreateVolumeRequest.CapacityRange := None;
     CreateVolumeRequest.VolumeCapabilities := stdVolCap;
     CreateVolumeRequest.Parameters := ∅;
     CreateVolumeRequest.VolumeContentSource :=
       Some {| VolumeContentSource.Type_ :=
                 Some (VolumeContentSource_Volume
                         (Some {| VolumeSource.VolumeId := "vol-0" |})) |};
     CreateVolumeRequest.AccessibilityRequirements := None |}.

Definition sampleVolume (id state : string) (attachments : list (option string))
  : ec2.Volume.t :=
  {| ec2.Volume.VolumeId := Some id;
     ec2.Volume.State := Some state;
     ec2.Volume.Attachments :=
       map (fun st => {| ec2.VolumeAttachment.State := st |}) attachments |}.

(** An API that serves two pages: the first page with the token [page-2],
    and for that token the last page; any other token is an error.  The
    state of the world counts the calls. *)
Definition pagedAPI (first last : list ec2.Volume.t)
    (params : ec2.DescribeVolumesInput.t) (calls : nat)
  : (ec2.DescribeVolumesOutput.t + e2e.error) * nat :=
  match ec2.DescribeVolumesInput.NextToken params with
  | None =>
      (inl {| ec2.DescribeVolumesOutput.Volumes := first;
              ec2.DescribeVolumesOutput.NextToken := Some "page-2" |}, Datatypes.S calls)
  | Some token =>
      if bool_decide (token = "page-2") then
        (inl {| ec2.DescribeVolumesOutput.Volumes := last;
                ec2.DescribeVolumesOutput.NextToken := None |}, Datatypes.S calls)
      else (inr (e2e.AwsError "InvalidParameterValue"), Datatypes.S calls)
  end.

(** An API that answers every call with an empty page and the same token. *)
Definition endlessAPI (params : ec2.DescribeVolumesInput.t) (calls : nat)
  : (ec2.DescribeVolumesOutput.t + e2e.error) * nat :=
  (inl {| ec2.DescribeVolumesOutput.Volumes := [];
          ec2.DescribeVolumesOutput.NextToken := Some "again" |}, Datatypes.S calls).

(** * Properties *)

Section Properties.
Context {keys : Keys}.

(** ** Auxiliary facts *)

Lemma len0_true (s : string) : len0 s = true <-> s = EmptyString.
Proof. destruct s; cbn; split; congruence. Qed.

Lemma len0_false (s : string) : len0 s = false <-> s <> EmptyString.
Proof. destruct s; cbn; split; congruence. Qed.

Lemma length0_false {A} (l : list A) : l <> [] -> (length l =? 0)%nat = false.
Proof. destruct l; [congruence | reflexivity]. Qed.

Lemma limit_check_false (maxVolSize volSizeBytes : Z) :
  ~ (0 < maxVolSize < volSizeBytes) ->
  (0 <? maxVolSize) && (maxVolSize <? volSizeBytes) = false.
Proof. intros H. apply andb_false_iff. rewrite !Z.ltb_ge. lia. Qed.

Lemma GiB_pos : 0 < util.GiB.
Proof. reflexivity. Qed.

(** [int64] keeps a result within 64 bits and leaves one that fits as it
    is. *)
Lemma int64_range (z : Z) : - 2 ^ 63 <= int64 z < 2 ^ 63.
Proof.
  unfold int64. pose proof (Z.mod_pos_bound (z + 2 ^ 63) (2 ^ 64) ltac:(lia)). lia.
Qed.

Lemma int64_small (z : Z) : - 2 ^ 63 <= z < 2 ^ 63 -> int64 z = z.
Proof. intros Hz. unfold int64. rewrite Z.mod_small; lia. Qed.

(** Go's division of an [int64] by [GiB]. *)
Lemma quot_GiB_range (x : Z) :
  - 2 ^ 63 <= x < 2 ^ 63 ->
  - 2 ^ 33 <= Z.quot x util.GiB < 2 ^ 33
  /\ (0 <= x -> Z.quot x util.GiB = x / util.GiB)
  /\ (x < 0 -> Z.quot x util.GiB <= 0).
Proof.
  intros Hx. pose proof GiB_pos as Hpos.
  destruct (Z_lt_le_dec x 0) as [Hneg|Hnn].
  - replace x with (- (- x)) by lia. rewrite Z.quot_opp_l by lia.
    rewrite Z.quot_div_nonneg by lia.
    assert (0 <= - x / util.GiB) by (apply Z.div_pos; lia).
    assert (- x / util.GiB <= 2 ^ 33).
    { apply Z.div_le_upper_bound; [lia|]. change util.GiB with (2 ^ 30). lia. }
    lia.
  - rewrite Z.quot_div_nonneg by lia.
    assert (0 <= x / util.GiB) by (apply Z.div_pos; lia).
    assert (x / util.GiB < 2 ^ 33).
    { apply Z.div_lt_upper_bound; [lia|]. change util.GiB with (2 ^ 30). lia. }
    lia.
Qed.

(** Every size is a positive number of GiB that fits in 64 bits. *)
Lemma RoundUpBytes_GiB (b : Z) :
  exists m, 1 <= m < 2 ^ 33 /\ util.RoundUpBytes b = m * util.GiB.
Proof.
  unfold util.RoundUpBytes.
  destruct (quot_GiB_range _ (int64_range (b + util.GiB - 1))) as (Hq & _ & _).
  set (q := Z.quot _ _) in *.
  rewrite int64_small by (change util.GiB with (2 ^ 30); lia).
  destruct (Z.leb_spec (q * util.GiB) 0) as [Hle|Hgt].
  - exists 10. lia.
  - exists q. pose proof GiB_pos. nia.
Qed.

Lemma RoundUpBytes_multiple (b : Z) : util.RoundUpBytes b mod util.GiB = 0.
Proof.
  destruct (RoundUpBytes_GiB b) as (m & _ & ->). apply Z.mod_mul. pose proof GiB_pos. lia.
Qed.

Lemma RoundUpBytes_int64 (b : Z) : 0 < util.RoundUpBytes b <= 2 ^ 63 - 2 ^ 30.
Proof.
  destruct (RoundUpBytes_GiB b) as (m & Hm & ->). change util.GiB with (2 ^ 30). lia.
Qed.

(** Within the range where the round-up fits, the size is the least multiple
    of [GiB] that is not below the bytes. *)
Lemma RoundUpBytes_exact (b : Z) :
  0 < b <= 2 ^ 63 - 2 ^ 30 ->
  util.RoundUpBytes b = (b + util.GiB - 1) / util.GiB * util.GiB.
Proof.
  intros Hb. unfold util.RoundUpBytes. pose proof GiB_pos as Hpos.
  assert (Hx : - 2 ^ 63 <= b + util.GiB - 1 < 2 ^ 63) by (change util.GiB with (2 ^ 30); lia).
  rewrite (int64_small _ Hx).
  destruct (quot_GiB_range _ Hx) as (Hq & Hdiv & _).
  rewrite Hdiv in * by lia.
  assert (1 <= (b + util.GiB - 1) / util.GiB).
  { apply Z.div_le_lower_bound; lia. }
  rewrite int64_small by (change util.GiB with (2 ^ 30) in *; lia).
  destruct (Z.leb_spec ((b + util.GiB - 1) / util.GiB * util.GiB) 0); [nia | done].
Qed.

Lemma RoundUpBytes_bounds (b : Z) :
  0 < b <= 2 ^ 63 - 2 ^ 30 ->
  util.RoundUpBytes b - util.GiB < b <= util.RoundUpBytes b.
Proof.
  intros Hb. rewrite (RoundUpBytes_exact _ Hb). pose proof GiB_pos as Hpos.
  pose proof (Z.div_mod (b + util.GiB - 1) util.GiB ltac:(lia)) as Hdm.
  pose proof (Z.mod_pos_bound (b + util.GiB - 1) util.GiB Hpos) as Hm.
  lia.
Qed.

(** Zero or negative bytes give the default. *)
Lemma RoundUpBytes_default (b : Z) :
  - 2 ^ 63 <= b <= 0 -> util.RoundUpBytes b = 10 * util.GiB.
Proof.
  intros Hb. unfold util.RoundUpBytes. pose proof GiB_pos as Hpos.
  assert (Hx : - 2 ^ 63 <= b + util.GiB - 1 < 2 ^ 63) by (change util.GiB with (2 ^ 30); lia).
  rewrite (int64_small _ Hx).
  destruct (quot_GiB_range _ Hx) as (Hq & Hdiv & Hneg).
  assert (Hq0 : Z.quot (b + util.GiB - 1) util.GiB <= 0).
  { destruct (Z_lt_le_dec (b + util.GiB - 1) 0) as [Hlt|Hge]; [by apply Hneg|].
    rewrite Hdiv by done. rewrite Z.div_small by lia. done. }
  set (q := Z.quot _ _) in *.
  rewrite int64_small by (change util.GiB with (2 ^ 30); lia).
  destruct (Z.leb_spec (q * util.GiB) 0); [done | nia].
Qed.

Lemma RoundUpGiB_RoundUpBytes (b : Z) :
  util.GiBToBytes (util.RoundUpGiB (util.RoundUpBytes b)) = util.RoundUpBytes b.
Proof.
  destruct (RoundUpBytes_GiB b) as (m & Hm & ->).
  unfold util.GiBToBytes, util.RoundUpGiB. pose proof GiB_pos as Hpos.
  rewrite (int64_small (m * util.GiB + util.GiB - 1)) by (change util.GiB with (2 ^ 30); lia).
  rewrite Z.quot_div_nonneg by lia.
  replace (m * util.GiB + util.GiB - 1) with (util.GiB - 1 + m * util.GiB) by lia.
  rewrite Z.div_add by lia. rewrite Z.div_small by lia. rewrite Z.add_0_l.
  destruct (Z.leb_spec m 0); [lia|].
  apply int64_small. change util.GiB with (2 ^ 30). lia.
Qed.

(** A capacity in GiB is positive, and the default for zero or negative
    bytes. *)
Lemma RoundUpGiB_pos (b : Z) : 1 <= util.RoundUpGiB b < 2 ^ 33.
Proof.
  unfold util.RoundUpGiB.
  destruct (quot_GiB_range _ (int64_range (b + util.GiB - 1))) as (Hq & _ & _).
  set (q := Z.quot _ _) in *. destruct (Z.leb_spec q 0); lia.
Qed.

Lemma RoundUpGiB_default (b : Z) : - 2 ^ 63 <= b <= 0 -> util.RoundUpGiB b = 10.
Proof.
  intros Hb. unfold util.RoundUpGiB. pose proof GiB_pos as Hpos.
  assert (Hx : - 2 ^ 63 <= b + util.GiB - 1 < 2 ^ 63) by (change util.GiB with (2 ^ 30); lia).
  rewrite (int64_small _ Hx).
  destruct (quot_GiB_range _ Hx) as (Hq & Hdiv & Hneg).
  assert (Hq0 : Z.quot (b + util.GiB - 1) util.GiB <= 0).
  { destruct (Z_lt_le_dec (b + util.GiB - 1) 0) as [Hlt|Hge]; [by apply Hneg|].
    rewrite Hdiv by done. rewrite Z.div_small by lia. done. }
  destruct (Z.leb_spec (Z.quot (b + util.GiB - 1) util.GiB) 0); [done | lia].
Qed.

(** The argument checks of [CreateVolume] pass for an accepted request. *)
Ltac accept_request H :=
  let Hname := fresh "Hname" in
  let Hlimit := fresh "Hlimit" in
  let Hcaps := fresh "Hcaps" in
  let Hvalid := fresh "Hvalid" in
  pose proof H as (Hname & Hlimit & Hcaps & Hvalid);
  unfold CreateVolume;
  rewrite (proj2 (len0_false _) Hname), (limit_check_false _ _ Hlimit),
    (length0_false _ Hcaps), Hvalid;
  cbn [negb].

Section Capabilities.
Context {S : Type}.

Lemma hasSupport_elem (volumeCaps : list AccessMode.t) (cap : VolumeCapability.t) :
  hasSupport volumeCaps cap = true <->
  AccessMode.GetMode (VolumeCapability.AccessMode cap) ∈ map AccessMode.Mode volumeCaps.
Proof.
  induction volumeCaps as [|c rest IH]; cbn.
  - split; [discriminate | intros H; inversion H].
  - destruct (decide _) as [Heq|Hne].
    + split; [|done]. intros _. rewrite Heq. apply list_elem_of_here.
    + rewrite IH. split.
      * intros H. by apply list_elem_of_further.
      * intros H. inversion H; subst; [congruence | done].
Qed.

Lemma isValidVolumeCapabilities_forallb (d : Driver.t S) (volCaps : list VolumeCapability.t) :
  isValidVolumeCapabilities d volCaps = forallb (hasSupport (Driver.volumeCaps d)) volCaps.
Proof.
  unfold isValidVolumeCapabilities.
  assert (Hgen : forall acc,
    fold_left (fun foundAll c => if negb (hasSupport (Driver.volumeCaps d) c) then false else foundAll)
      volCaps acc = acc && forallb (hasSupport (Driver.volumeCaps d)) volCaps).
  { induction volCaps as [|c rest IH]; intros acc; cbn.
    - by rewrite andb_true_r.
    - rewrite IH. destruct (hasSupport _ c), acc; cbn; done. }
  apply Hgen.
Qed.

Lemma isValidVolumeCapabilities_all (d : Driver.t S) (volCaps : list VolumeCapability.t) :
  isValidVolumeCapabilities d volCaps = true <->
  forall cap, cap ∈ volCaps ->
    AccessMode.GetMode (VolumeCapability.AccessMode cap) ∈ supportedModes d.
Proof.
  rewrite isValidVolumeCapabilities_forallb, forallb_forall. unfold supportedModes.
  split.
  - intros H cap Hin. apply hasSupport_elem, H. by apply list_elem_of_In.
  - intros H cap Hin. apply hasSupport_elem, H. by apply list_elem_of_In.
Qed.
End Capabilities.

Section Zones.

Lemma firstZone_none (topologies : list Topology.t) :
  (forall t, t ∈ topologies -> Topology.Segments t !! topologyKey = None) ->
  firstZone topologies = None.
Proof.
  induction topologies as [|t rest IH]; intros H; cbn; [done|].
  rewrite (H t) by apply list_elem_of_here.
  apply IH. intros t' Hin. apply H. by apply list_elem_of_further.
Qed.

Lemma firstZone_first (before after : list Topology.t) (t : Topology.t) (zone : string) :
  (forall t', t' ∈ before -> Topology.Segments t' !! topologyKey = None) ->
  Topology.Segments t !! topologyKey = Some zone ->
  firstZone (before ++ t :: after) = Some zone.
Proof.
  induction before as [|b before IH]; intros Hbefore Ht; cbn.
  - by rewrite Ht.
  - rewrite (Hbefore b) by apply list_elem_of_here.
    apply IH; [|done]. intros t' Hin. apply Hbefore. by apply list_elem_of_further.
Qed.

(** C9 (pickAvailabilityZone): the zone is the value at the topology key of
    the first Preferred topology that carries the key; Requisite is scanned,
    in order, only when no Preferred topology carries it; a nil requirement
    and a requirement of which no topology carries the key give the empty
    string. *)
Theorem pickAvailabilityZone_preference :
  (forall req before t after zone,
      TopologyRequirement.Preferred req = before ++ t :: after ->
      (forall t', t' ∈ before -> Topology.Segments t' !! topologyKey = None) ->
      Topology.Segments t !! topologyKey = Some zone ->
      pickAvailabilityZone (Some req) = zone)
  /\ (forall req before t after zone,
      (forall t', t' ∈ TopologyRequirement.Preferred req ->
                  Topology.Segments t' !! topologyKey = None) ->
      TopologyRequirement.Requisite req = before ++ t :: after ->
      (forall t', t' ∈ before -> Topology.Segments t' !! topologyKey = None) ->
      Topology.Segments t !! topologyKey = Some zone ->
      pickAvailabilityZone (Some req) = zone)
  /\ pickAvailabilityZone None = EmptyString
  /\ (forall req,
      (forall t', t' ∈ TopologyRequirement.Preferred req ++ TopologyRequirement.Requisite req ->
                  Topology.Segments t' !! topologyKey = None) ->
      pickAvailabilityZone (Some req) = EmptyString).
Proof.
  repeat split.
  - intros req before t after zone Hpref Hbefore Ht. cbn.
    by rewrite Hpref, (firstZone_first _ _ _ _ Hbefore Ht).
  - intros req before t after zone Hnone Hreq Hbefore Ht. cbn.
    by rewrite (firstZone_none _ Hnone), Hreq, (firstZone_first _ _ _ _ Hbefore Ht).
  - intros req Hnone. cbn.
    rewrite !firstZone_none; [done| |].
    + intros t' Hin. apply Hnone, elem_of_app. by right.
    + intros t' Hin. apply Hnone, elem_of_app. by left.
Qed.
End Zones.

Section Generic.
Context {S : Type}.
Implicit Types (d : Driver.t S) (s : S).

(** C5 (ValidateVolumeCapabilities): an empty volume ID and an empty list of
    capabilities are InvalidArgument, a disk the provider does not find is
    NotFound; for a disk that is found the response carries, and with no
    error, the supplied capabilities as confirmed if and only if the access
    mode of each of them is among the supported modes of the driver, and an
    empty confirmation when one of them is not. *)
Theorem ValidateVolumeCapabilities_contract d (req : ValidateVolumeCapabilitiesRequest.t) s :
  let volumeID := ValidateVolumeCapabilitiesRequest.VolumeId req in
  let volCaps := ValidateVolumeCapabilitiesRequest.VolumeCapabilities req in
  (volumeID = EmptyString ->
     ValidateVolumeCapabilities d req s =
       (inr (status_Error codes.InvalidArgument (status.Text "Volume ID not provided")), s))
  /\ (volumeID <> EmptyString -> volCaps = [] ->
     ValidateVolumeCapabilities d req s =
       (inr (status_Error codes.InvalidArgument
               (status.Text "Volume capabilities not provided")), s))
  /\ (volumeID <> EmptyString -> volCaps <> [] ->
     forall disk s', cloud.GetDiskByID (Driver.cloud d) volumeID s
                     = ((disk, Some cloud.ErrNotFound), s') ->
     ValidateVolumeCapabilities d req s =
       (inr (status_Error codes.NotFound (status.Text "Volume not found")), s'))
  /\ (volumeID <> EmptyString -> volCaps <> [] ->
     forall disk s', cloud.GetDiskByID (Driver.cloud d) volumeID s = ((disk, None), s') ->
     exists resp,
       ValidateVolumeCapabilities d req s = (inl resp, s')
       /\ (ValidateVolumeCapabilitiesResponse.Confirmed resp
            = Some {| Confirmed.VolumeCapabilities := volCaps |}
           <-> forall cap, cap ∈ volCaps ->
                 AccessMode.GetMode (VolumeCapability.AccessMode cap) ∈ supportedModes d)
       /\ ((exists cap, cap ∈ volCaps
                /\ AccessMode.GetMode (VolumeCapability.AccessMode cap) ∉ supportedModes d) ->
           ValidateVolumeCapabilitiesResponse.Confirmed resp = None)).
Proof.
  intros volumeID volCaps. subst volumeID volCaps.
  unfold ValidateVolumeCapabilities, bind, call, fail, ret.
  repeat split.
  - intros ->. reflexivity.
  - intros Hid Hcaps. apply len0_false in Hid. by rewrite Hid, Hcaps.
  - intros Hid Hcaps disk s' Hget. apply len0_false in Hid.
    by rewrite Hid, (length0_false _ Hcaps), Hget.
  - intros Hid Hcaps disk s' Hget. apply len0_false in Hid.
    rewrite Hid, (length0_false _ Hcaps), Hget. cbn.
    eexists. split; [reflexivity|]. cbn.
    pose proof (isValidVolumeCapabilities_all d
                  (ValidateVolumeCapabilitiesRequest.VolumeCapabilities req)) as Hall.
    destruct (isValidVolumeCapabilities d _).
    + split; [tauto|]. intros (cap & Hin & Hnot). exfalso.
      apply Hnot. by apply Hall.
    + split; [|done]. split; [discriminate|]. intros H. apply Hall in H. discriminate.
Qed.

Lemma isValidVolumeCapabilities_one d (volCap : VolumeCapability.t) :
  isValidVolumeCapabilities d [volCap] = true <->
  AccessMode.GetMode (VolumeCapability.AccessMode volCap) ∈ supportedModes d.
Proof.
  rewrite isValidVolumeCapabilities_all. split.
  - intros H. apply H, list_elem_of_here.
  - intros H cap Hin. apply list_elem_of_singleton in Hin. by subst.
Qed.

(** C8 (ControllerPublishVolume): a missing volume ID, node ID or capability
    and an unsupported capability are InvalidArgument; then an instance that
    does not exist is NotFound, a disk the provider does not find is
    NotFound, a failure of AttachDisk is AlreadyExists for ErrAlreadyExists
    and Internal for any other error; on success the publish context is the
    map with the one key devicePath, bound to the device path the provider
    returned. *)
Theorem ControllerPublishVolume_contract d (req : ControllerPublishVolumeRequest.t) s :
  let volumeID := ControllerPublishVolumeRequest.VolumeId req in
  let nodeID := ControllerPublishVolumeRequest.NodeId req in
  let volCap := ControllerPublishVolumeRequest.VolumeCapability req in
  (volumeID = EmptyString ->
     ControllerPublishVolume d req s =
       (inr (status_Error codes.InvalidArgument (status.Text "Volume ID not provided")), s))
  /\ (volumeID <> EmptyString -> nodeID = EmptyString ->
     ControllerPublishVolume d req s =
       (inr (status_Error codes.InvalidArgument (status.Text "Node ID not provided")), s))
  /\ (volumeID <> EmptyString -> nodeID <> EmptyString -> volCap = None ->
     ControllerPublishVolume d req s =
       (inr (status_Error codes.InvalidArgument
               (status.Text "Volume capability not provided")), s))
  /\ (forall c, volumeID <> EmptyString -> nodeID <> EmptyString -> volCap = Some c ->
     AccessMode.GetMode (VolumeCapability.AccessMode c) ∉ supportedModes d ->
     ControllerPublishVolume d req s =
       (inr (status_Error codes.InvalidArgument
               (status.Text "Volume capability not supported")), s))
  /\ (forall c, volumeID <> EmptyString -> nodeID <> EmptyString -> volCap = Some c ->
     AccessMode.GetMode (VolumeCapability.AccessMode c) ∈ supportedModes d ->
     (forall s1,
        cloud.IsExistInstance (Driver.cloud d) nodeID s = (false, s1) ->
        codeOf (fst (ControllerPublishVolume d req s)) = codes.NotFound
        /\ snd (ControllerPublishVolume d req s) = s1)
     /\ (forall s1 disk s2,
        cloud.IsExistInstance (Driver.cloud d) nodeID s = (true, s1) ->
        cloud.GetDiskByID (Driver.cloud d) volumeID s1 = ((disk, Some cloud.ErrNotFound), s2) ->
        ControllerPublishVolume d req s =
          (inr (status_Error codes.NotFound (status.Text "Volume not found")), s2))
     /\ (forall s1 disk s2 devicePath s3,
        cloud.IsExistInstance (Driver.cloud d) nodeID s = (true, s1) ->
        cloud.GetDiskByID (Driver.cloud d) volumeID s1 = ((disk, None), s2) ->
        cloud.AttachDisk (Driver.cloud d) volumeID nodeID s2
          = ((devicePath, Some cloud.ErrAlreadyExists), s3) ->
        ControllerPublishVolume d req s =
          (inr (status_Error codes.AlreadyExists (status.ErrorText cloud.ErrAlreadyExists)), s3))
     /\ (forall s1 disk s2 devicePath e s3,
        cloud.IsExistInstance (Driver.cloud d) nodeID s = (true, s1) ->
        cloud.GetDiskByID (Driver.cloud d) volumeID s1 = ((disk, None), s2) ->
        cloud.AttachDisk (Driver.cloud d) volumeID nodeID s2 = ((devicePath, Some e), s3) ->
        e <> cloud.ErrAlreadyExists ->
        codeOf (fst (ControllerPublishVolume d req s)) = codes.Internal
        /\ snd (ControllerPublishVolume d req s) = s3)
     /\ (forall s1 disk s2 devicePath s3,
        cloud.IsExistInstance (Driver.cloud d) nodeID s = (true, s1) ->
        cloud.GetDiskByID (Driver.cloud d) volumeID s1 = ((disk, None), s2) ->
        cloud.AttachDisk (Driver.cloud d) volumeID nodeID s2 = ((devicePath, None), s3) ->
        exists resp,
          ControllerPublishVolume d req s = (inl resp, s3)
          /\ ControllerPublishVolumeResponse.PublishContext resp
             = {[ "devicePath" := devicePath ]}
          /\ ControllerPublishVolumeResponse.PublishContext resp !! "devicePath"
             = Some devicePath
          /\ dom (ControllerPublishVolumeResponse.PublishContext resp)
             = ({[ "devicePath" ]} : gset string))).
Proof.
  intros volumeID nodeID volCap. subst volumeID nodeID volCap.
  unfold ControllerPublishVolume, bind, call, fail, ret.
  split; [|split; [|split; [|split]]].
  - intros ->. reflexivity.
  - intros Hv ->. apply len0_false in Hv. by rewrite Hv.
  - intros Hv Hn ->. apply len0_false in Hv, Hn. by rewrite Hv, Hn.
  - intros c Hv Hn -> Hmode. apply len0_false in Hv, Hn. rewrite Hv, Hn.
    destruct (isValidVolumeCapabilities d [c]) eqn:Hvalid; [|done].
    apply isValidVolumeCapabilities_one in Hvalid. done.
  - intros c Hv Hn -> Hmode. apply len0_false in Hv, Hn. rewrite Hv, Hn.
    apply isValidVolumeCapabilities_one in Hmode. rewrite Hmode. cbn [negb].
    split; [|split; [|split; [|split]]].
    + intros s1 Hinst. by rewrite Hinst.
    + intros s1 disk s2 Hinst Hget. by rewrite Hinst; cbn; rewrite Hget.
    + intros s1 disk s2 devicePath s3 Hinst Hget Hatt.
      by rewrite Hinst; cbn; rewrite Hget; cbn; rewrite Hatt.
    + intros s1 disk s2 devicePath e s3 Hinst Hget Hatt He.
      rewrite Hinst; cbn; rewrite Hget; cbn; rewrite Hatt.
      by destruct e.
    + intros s1 disk s2 devicePath s3 Hinst Hget Hatt.
      rewrite Hinst; cbn; rewrite Hget; cbn; rewrite Hatt.
      eexists. split; [reflexivity|]. cbn.
      split; [done|]. split; [apply lookup_singleton_eq|apply dom_singleton_L].
Qed.

(** C7 (CreateSnapshot): an empty name and an empty source volume ID are
    InvalidArgument; when the provider has a snapshot of that name, the call
    returns that snapshot, ready to use, if its source volume is the one of
    the request (its creation time being one a protobuf timestamp holds), and
    AlreadyExists if its source volume is another one; in both cases no
    snapshot is created. *)
Theorem CreateSnapshot_idempotent_conflict d (req : CreateSnapshotRequest.t) s :
  let snapshotName := CreateSnapshotRequest.Name req in
  let volumeID := CreateSnapshotRequest.SourceVolumeId req in
  (snapshotName = EmptyString ->
     CreateSnapshot d req s =
       (inr (status_Error codes.InvalidArgument (status.Text "Snapshot name not provided")), s))
  /\ (snapshotName <> EmptyString -> volumeID = EmptyString ->
     CreateSnapshot d req s =
       (inr (status_Error codes.InvalidArgument
               (status.Text "Snapshot volume source ID not provided")), s))
  /\ (snapshotName <> EmptyString -> volumeID <> EmptyString ->
     forall snapshot s1,
       cloud.GetSnapshotByName (Driver.cloud d) snapshotName s = ((Some snapshot, None), s1) ->
       (cloud.SourceVolumeID snapshot = volumeID ->
        forall ts, ptypes.TimestampProto (cloud.CreationTime snapshot) = Some ts ->
        exists resp,
          CreateSnapshot d req s = (inl resp, s1)
          /\ Snapshot.SnapshotId (CreateSnapshotResponse.Snapshot resp)
             = cloud.SnapshotID snapshot
          /\ Snapshot.SourceVolumeId (CreateSnapshotResponse.Snapshot resp) = volumeID
          /\ Snapshot.SizeBytes (CreateSnapshotResponse.Snapshot resp) = cloud.Size snapshot
          /\ Snapshot.CreationTime (CreateSnapshotResponse.Snapshot resp) = ts
          /\ Snapshot.ReadyToUse (CreateSnapshotResponse.Snapshot resp) = true)
       /\ (cloud.SourceVolumeID snapshot <> volumeID ->
           codeOf (fst (CreateSnapshot d req s)) = codes.AlreadyExists
           /\ snd (CreateSnapshot d req s) = s1)).
Proof.
  intros snapshotName volumeID. subst snapshotName volumeID.
  unfold CreateSnapshot, bind, call, fail, ret.
  split; [|split].
  - intros ->. reflexivity.
  - intros Hn ->. apply len0_false in Hn. by rewrite Hn.
  - intros Hn Hv snapshot s1 Hget. apply len0_false in Hn, Hv.
    rewrite Hn, Hv, Hget. cbn. split.
    + intros Hsrc ts Hts. rewrite bool_decide_eq_true_2 by done. cbn.
      unfold newCreateSnapshotResponse. rewrite Hts.
      eexists. split; [reflexivity|]. cbn. done.
    + intros Hsrc. rewrite bool_decide_eq_false_2 by done. done.
Qed.

(** C10 (fsType of the CreateVolume response): when the provider finds a disk
    of the requested name and size, the volume context gives the fsType of
    that disk, whatever the fsType parameter of the request is; the fsType
    parameter is what the volume context gives when the disk is a new one. *)
Theorem CreateVolume_fsType d (req : CreateVolumeRequest.t) s :
  let volName := CreateVolumeRequest.Name req in
  let volumeParams := CreateVolumeRequest.Parameters req in
  accepted d req ->
  (forall disk s1,
     cloud.GetDiskByName (Driver.cloud d) volName (volSizeBytesOf req) s
       = ((Some disk, None), s1) ->
     CreateVolume d req s = (inl (newCreateVolumeResponse disk), s1)
     /\ Volume.VolumeContext (CreateVolumeResponse.Volume (newCreateVolumeResponse disk))
        = {[ "fsType" := cloud.FsType disk ]})
  /\ (forall s1 opts disk s2,
     cloud.GetDiskByName (Driver.cloud d) volName (volSizeBytesOf req) s
       = ((None, Some cloud.ErrNotFound), s1) ->
     diskOptionsOf req volName (volSizeBytesOf req) = inl opts ->
     cloud.CreateDisk (Driver.cloud d) volName opts s1 = ((Some disk, None), s2) ->
     exists resp,
       CreateVolume d req s = (inl resp, s2)
       /\ Volume.VolumeContext (CreateVolumeResponse.Volume resp)
          = {[ "fsType" := index volumeParams "fsType" ]}
       /\ Volume.VolumeId (CreateVolumeResponse.Volume resp) = cloud.VolumeID disk
       /\ Volume.CapacityBytes (CreateVolumeResponse.Volume resp)
          = util.GiBToBytes (cloud.CapacityGiB disk)).
Proof.
  intros volName volumeParams Hacc. subst volName volumeParams.
  accept_request Hacc.
  split.
  - intros disk s1 Hget. unfold bind, call, fail, ret. by rewrite Hget.
  - intros s1 opts disk s2 Hget Hopts Hcreate. unfold bind, call, fail, ret.
    rewrite Hget. cbn. rewrite Hopts, Hcreate.
    eexists. split; [reflexivity|]. done.
Qed.
End Generic.

(** ** CreateVolume over the provider *)
Section OverProvider.
Variable volumeCaps : list AccessMode.t.
Implicit Types (req : CreateVolumeRequest.t) (p : Provider) (sd : StoredDisk).

Lemma accepted_of_checks req :
  len0 (CreateVolumeRequest.Name req) = false ->
  (0 <? CapacityRange.GetLimitBytes (CreateVolumeRequest.CapacityRange req))
    && (CapacityRange.GetLimitBytes (CreateVolumeRequest.CapacityRange req)
          <? volSizeBytesOf req) = false ->
  (length (CreateVolumeRequest.VolumeCapabilities req) =? 0)%nat = false ->
  negb (isValidVolumeCapabilities (driverOn volumeCaps)
          (CreateVolumeRequest.VolumeCapabilities req)) = false ->
  accepted (driverOn volumeCaps) req.
Proof.
  intros Hname Hlimit Hcaps Hvalid. repeat split.
  - by apply len0_false.
  - apply andb_false_iff in Hlimit. rewrite !Z.ltb_ge in Hlimit. lia.
  - intros Heq. rewrite Heq in Hcaps. discriminate.
  - by apply negb_false_iff.
Qed.

Lemma diskOptionsOf_inl req (volName : string) (volSizeBytes : Z) opts :
  diskOptionsOf req volName volSizeBytes = inl opts ->
  cloud.DiskOptions.CapacityBytes opts = volSizeBytes
  /\ cloud.DiskOptions.Tags opts = {[ VolumeNameTagKey := volName ]}.
Proof.
  unfold diskOptionsOf. intros H.
  repeat (match type of H with
          | context [match ?x with _ => _ end] => destruct x
          end; try discriminate);
    injection H as <-; done.
Qed.

Lemma diskNamed_new (name : string) (disk : cloud.Disk) (tags : gmap string string) :
  diskNamed name {| sdDisk := disk; sdTags := <[ VolumeNameTagKey := name ]> tags |} = true.
Proof. unfold diskNamed. cbn. apply bool_decide_eq_true_2, lookup_insert_eq. Qed.

(** The disk of the name exists with the size: it is returned, nothing
    changes. *)
Lemma CreateVolume_found req p sd :
  accepted (driverOn volumeCaps) req ->
  List.filter (diskNamed (CreateVolumeRequest.Name req)) (disks p) = [sd] ->
  util.GiBToBytes (cloud.CapacityGiB (sdDisk sd)) = volSizeBytesOf req ->
  CreateVolume (driverOn volumeCaps) req p = (inl (newCreateVolumeResponse (sdDisk sd)), p).
Proof.
  intros Hacc Hfilter Hsize. accept_request Hacc.
  unfold bind, call, fail, ret. cbn. unfold provider_GetDiskByName.
  rewrite Hfilter. by rewrite decide_True.
Qed.

(** The disk of the name exists with another size. *)
Lemma CreateVolume_other_size req p sd :
  accepted (driverOn volumeCaps) req ->
  List.filter (diskNamed (CreateVolumeRequest.Name req)) (disks p) = [sd] ->
  util.GiBToBytes (cloud.CapacityGiB (sdDisk sd)) <> volSizeBytesOf req ->
  CreateVolume (driverOn volumeCaps) req p =
    (inr (status_Error codes.AlreadyExists (status.ErrorText cloud.ErrDiskExistsDiffSize)), p).
Proof.
  intros Hacc Hfilter Hsize. accept_request Hacc.
  unfold bind, call, fail, ret. cbn. unfold provider_GetDiskByName.
  rewrite Hfilter. by rewrite decide_False.
Qed.

(** No disk carries the name: one is created, of the size the controller
    works with. *)
Lemma CreateVolume_fresh req p opts :
  accepted (driverOn volumeCaps) req ->
  List.filter (diskNamed (CreateVolumeRequest.Name req)) (disks p) = [] ->
  diskOptionsOf req (CreateVolumeRequest.Name req) (volSizeBytesOf req) = inl opts ->
  exists resp sd,
    CreateVolume (driverOn volumeCaps) req p
      = (inl resp, withDisks p (disks p ++ [sd]) (Datatypes.S (serial p)))
    /\ diskNamed (CreateVolumeRequest.Name req) sd = true
    /\ cloud.CapacityGiB (sdDisk sd) = util.RoundUpGiB (volSizeBytesOf req)
    /\ cloud.VolumeID (sdDisk sd) = "vol-" +:+ pretty (serial p)
    /\ Volume.VolumeId (CreateVolumeResponse.Volume resp) = cloud.VolumeID (sdDisk sd)
    /\ Volume.CapacityBytes (CreateVolumeResponse.Volume resp) = volSizeBytesOf req
    /\ Volume.VolumeContext (CreateVolumeResponse.Volume resp)
       = {[ "fsType" := index (CreateVolumeRequest.Parameters req) "fsType" ]}.
Proof.
  intros Hacc Hfilter Hopts. accept_request Hacc.
  destruct (diskOptionsOf_inl _ _ _ _ Hopts) as [Hcap Htags].
  unfold bind, call, fail, ret. cbn. unfold provider_GetDiskByName.
  rewrite Hfilter. cbn. rewrite Hopts. unfold provider_CreateDisk.
  rewrite Hfilter, Hcap, Htags. cbn.
  eexists _, _. split; [reflexivity|]. cbn.
  split; [apply diskNamed_new|].
  repeat split. unfold volSizeBytesOf, volSizeOf. apply RoundUpGiB_RoundUpBytes.
Qed.

(** What a successful [CreateVolume] leaves: the request was accepted, and
    exactly one disk carries the name; it has the size the controller works
    with, and the response gives its ID and that size. *)
Lemma CreateVolume_ok_inv req p resp p1 :
  CreateVolume (driverOn volumeCaps) req p = (inl resp, p1) ->
  accepted (driverOn volumeCaps) req
  /\ exists sd,
      List.filter (diskNamed (CreateVolumeRequest.Name req)) (disks p1) = [sd]
      /\ util.GiBToBytes (cloud.CapacityGiB (sdDisk sd)) = volSizeBytesOf req
      /\ Volume.VolumeId (CreateVolumeResponse.Volume resp) = cloud.VolumeID (sdDisk sd)
      /\ Volume.CapacityBytes (CreateVolumeResponse.Volume resp) = volSizeBytesOf req.
Proof.
  intros Hrun. pose proof Hrun as Hrun0. unfold CreateVolume in Hrun.
  destruct (len0 _) eqn:Hname; [discriminate|].
  destruct (_ && _) eqn:Hlimit; [discriminate|].
  destruct (_ =? _)%nat eqn:Hcaps; [discriminate|].
  destruct (negb _) eqn:Hvalid; [discriminate|].
  pose proof (accepted_of_checks _ Hname Hlimit Hcaps Hvalid) as Hacc.
  split; [done|]. clear Hrun.
  destruct (List.filter (diskNamed (CreateVolumeRequest.Name req)) (disks p))
    as [|sd [|sd' rest]] eqn:Hfilter.
  - destruct (diskOptionsOf req (CreateVolumeRequest.Name req) (volSizeBytesOf req))
      as [opts|e] eqn:Hopts.
    + destruct (CreateVolume_fresh _ _ _ Hacc Hfilter Hopts)
        as (resp' & sd & Hrun & Hnamed & Hcap & _ & Hid & Hbytes & _).
      rewrite Hrun in Hrun0. injection Hrun0 as -> <-.
      exists sd. cbn. rewrite List.filter_app, Hfilter. cbn. rewrite Hnamed.
      repeat split; try done.
      rewrite Hcap. unfold volSizeBytesOf, volSizeOf. apply RoundUpGiB_RoundUpBytes.
    + exfalso. revert Hrun0. accept_request Hacc.
      unfold bind, call, fail, ret. cbn. unfold provider_GetDiskByName.
      rewrite Hfilter. cbn. by rewrite Hopts.
  - destruct (decide (util.GiBToBytes (cloud.CapacityGiB (sdDisk sd)) = volSizeBytesOf req))
      as [Hsize|Hsize].
    + rewrite (CreateVolume_found _ _ _ Hacc Hfilter Hsize) in Hrun0.
      injection Hrun0 as <- <-. exists sd. done.
    + rewrite (CreateVolume_other_size _ _ _ Hacc Hfilter Hsize) in Hrun0. discriminate.
  - exfalso. revert Hrun0. accept_request Hacc.
    unfold bind, call, fail, ret. cbn. unfold provider_GetDiskByName.
    by rewrite Hfilter.
Qed.

(** A successful [CreateVolume] leaves one disk of the name, and the
    provider either as it was or with that disk as the one new disk. *)
Lemma CreateVolume_ok_state req p resp p1 :
  CreateVolume (driverOn volumeCaps) req p = (inl resp, p1) ->
  exists sd,
    List.filter (diskNamed (CreateVolumeRequest.Name req)) (disks p1) = [sd]
    /\ (p1 = p \/ p1 = withDisks p (disks p ++ [sd]) (Datatypes.S (serial p))).
Proof.
  intros Hrun.
  destruct (CreateVolume_ok_inv _ _ _ _ Hrun) as (Hacc & _).
  destruct (List.filter (diskNamed (CreateVolumeRequest.Name req)) (disks p))
    as [|sd [|sd' rest]] eqn:Hfilter.
  - destruct (diskOptionsOf req (CreateVolumeRequest.Name req) (volSizeBytesOf req))
      as [opts|e] eqn:Hopts.
    + destruct (CreateVolume_fresh _ _ _ Hacc Hfilter Hopts)
        as (resp' & sd & Hrun' & Hnamed & _).
      rewrite Hrun' in Hrun. injection Hrun as -> <-.
      exists sd. cbn. rewrite List.filter_app, Hfilter. cbn. rewrite Hnamed.
      split; [done | by right].
    + exfalso. revert Hrun. accept_request Hacc.
      unfold bind, call, fail, ret. cbn. unfold provider_GetDiskByName.
      rewrite Hfilter. cbn. by rewrite Hopts.
  - destruct (decide (util.GiBToBytes (cloud.CapacityGiB (sdDisk sd)) = volSizeBytesOf req))
      as [Hsize|Hsize].
    + rewrite (CreateVolume_found _ _ _ Hacc Hfilter Hsize) in Hrun.
      injection Hrun as <- <-. exists sd. split; [done | by left].
    + rewrite (CreateVolume_other_size _ _ _ Hacc Hfilter Hsize) in Hrun. discriminate.
  - exfalso. revert Hrun. accept_request Hacc.
    unfold bind, call, fail, ret. cbn. unfold provider_GetDiskByName.
    by rewrite Hfilter.
Qed.

(** Behind any provider, a disk that [GetDiskByName] finds is returned as it
    is; [CreateDisk] is not called. *)
Lemma CreateVolume_returns_existing {S} (d : Driver.t S) req s disk s1 :
  accepted d req ->
  cloud.GetDiskByName (Driver.cloud d) (CreateVolumeRequest.Name req) (volSizeBytesOf req) s
    = ((Some disk, None), s1) ->
  CreateVolume d req s = (inl (newCreateVolumeResponse disk), s1).
Proof.
  intros Hacc Hget. accept_request Hacc. unfold bind, call, fail, ret. by rewrite Hget.
Qed.

(** C1 (CreateVolume is idempotent): behind any provider, an accepted call
    for which [GetDiskByName] finds a disk returns that disk and does not
    create one.  Over the provider of the spec: when a call succeeds,
    exactly one disk carries the name afterwards (the one that was there, or
    the one new disk), the response gives the ID and the capacity of that
    disk, and the same call again finds that disk, returns it, and leaves
    the provider as it is, so both responses have the same volume ID and the
    same capacity; and a call for a name that no disk carries does succeed
    and creates one disk of the name, whenever the request is accepted and
    its parameters and content source can be used. *)
Theorem CreateVolume_idempotent req p :
  (forall S (d : Driver.t S) s disk s1,
     accepted d req ->
     cloud.GetDiskByName (Driver.cloud d) (CreateVolumeRequest.Name req) (volSizeBytesOf req) s
       = ((Some disk, None), s1) ->
     CreateVolume d req s = (inl (newCreateVolumeResponse disk), s1))
  /\ (forall resp1 p1,
     CreateVolume (driverOn volumeCaps) req p = (inl resp1, p1) ->
     exists sd,
       List.filter (diskNamed (CreateVolumeRequest.Name req)) (disks p1) = [sd]
       /\ (p1 = p \/ disks p1 = disks p ++ [sd])
       /\ Volume.VolumeId (CreateVolumeResponse.Volume resp1) = cloud.VolumeID (sdDisk sd)
       /\ Volume.CapacityBytes (CreateVolumeResponse.Volume resp1)
          = util.GiBToBytes (cloud.CapacityGiB (sdDisk sd))
       /\ provider_GetDiskByName (CreateVolumeRequest.Name req) (volSizeBytesOf req) p1
          = ((Some (sdDisk sd), None), p1)
       /\ CreateVolume (driverOn volumeCaps) req p1
          = (inl (newCreateVolumeResponse (sdDisk sd)), p1)
       /\ Volume.VolumeId (CreateVolumeResponse.Volume (newCreateVolumeResponse (sdDisk sd)))
          = Volume.VolumeId (CreateVolumeResponse.Volume resp1)
       /\ Volume.CapacityBytes
            (CreateVolumeResponse.Volume (newCreateVolumeResponse (sdDisk sd)))
          = Volume.CapacityBytes (CreateVolumeResponse.Volume resp1))
  /\ (forall opts,
     accepted (driverOn volumeCaps) req ->
     diskOptionsOf req (CreateVolumeRequest.Name req) (volSizeBytesOf req) = inl opts ->
     List.filter (diskNamed (CreateVolumeRequest.Name req)) (disks p) = [] ->
     exists resp1 sd,
       CreateVolume (driverOn volumeCaps) req p
         = (inl resp1, withDisks p (disks p ++ [sd]) (Datatypes.S (serial p)))
       /\ diskNamed (CreateVolumeRequest.Name req) sd = true
       /\ Volume.VolumeId (CreateVolumeResponse.Volume resp1) = cloud.VolumeID (sdDisk sd)).
Proof.
  split; [|split].
  - intros S d s disk s1. apply CreateVolume_returns_existing.
  - intros resp1 p1 Hrun.
    destruct (CreateVolume_ok_inv _ _ _ _ Hrun) as (Hacc & sd & Hfilter & Hsize & Hid & Hcap).
    destruct (CreateVolume_ok_state _ _ _ _ Hrun) as (sd' & Hfilter' & Hstate).
    rewrite Hfilter in Hfilter'. injection Hfilter' as <-.
    exists sd. split; [done|]. split.
    { destruct Hstate as [->| ->]; [by left | by right]. }
    split; [done|]. split; [by rewrite Hcap, Hsize|]. split.
    { unfold provider_GetDiskByName. rewrite Hfilter. by rewrite decide_True. }
    split; [by apply CreateVolume_found|].
    cbn. by rewrite Hid, Hcap, Hsize.
  - intros opts Hacc Hopts Hfilter.
    destruct (CreateVolume_fresh _ _ _ Hacc Hfilter Hopts)
      as (resp & sd & Hrun & Hnamed & _ & _ & Hid & _).
    by exists resp, sd.
Qed.

(** C2, as amended (conflict of sizes): when a call for a name and a size
    has succeeded, an accepted call for the same name and a size that rounds
    up to another number of GiB returns AlreadyExists and leaves the provider
    as it is. *)
Theorem CreateVolume_conflict_rounded req1 req2 r1 r2 p resp1 p1 :
  CreateVolumeRequest.Name req1 = CreateVolumeRequest.Name req2 ->
  CreateVolumeRequest.CapacityRange req1 = Some r1 ->
  CreateVolumeRequest.CapacityRange req2 = Some r2 ->
  util.RoundUpBytes (CapacityRange.RequiredBytes r1)
    <> util.RoundUpBytes (CapacityRange.RequiredBytes r2) ->
  CreateVolume (driverOn volumeCaps) req1 p = (inl resp1, p1) ->
  accepted (driverOn volumeCaps) req2 ->
  CreateVolume (driverOn volumeCaps) req2 p1 =
    (inr (status_Error codes.AlreadyExists (status.ErrorText cloud.ErrDiskExistsDiffSize)), p1).
Proof.
  intros Hname Hr1 Hr2 Hne Hrun Hacc2.
  destruct (CreateVolume_ok_inv _ _ _ _ Hrun) as (_ & sd & Hfilter & Hsize & _).
  rewrite Hname in Hfilter.
  apply (CreateVolume_other_size _ _ _ Hacc2 Hfilter).
  rewrite Hsize. unfold volSizeBytesOf, volSizeOf. by rewrite Hr1, Hr2.
Qed.

(** C3, as amended (round-up law): the capacity C of the response to a
    request of B > 0 bytes is the size that the controller rounds up before
    it asks the provider; it is a 64-bit integer and a multiple of 2^30.
    For B of at most 2^63 - 2^30 it satisfies C - 2^30 < B <= C, and for
    1073741825 bytes (1 GiB and 1 byte) it is 2147483648 bytes (2 GiB).  For
    a larger B no 64-bit capacity can satisfy the law, and C is below B. *)
Theorem CreateVolume_round_up req r p resp p1 :
  CreateVolumeRequest.CapacityRange req = Some r ->
  0 < CapacityRange.RequiredBytes r ->
  CreateVolume (driverOn volumeCaps) req p = (inl resp, p1) ->
  let B := CapacityRange.RequiredBytes r in
  let C := Volume.CapacityBytes (CreateVolumeResponse.Volume resp) in
  C = volSizeBytesOf req
  /\ C = util.RoundUpBytes B
  /\ - 2 ^ 63 <= C < 2 ^ 63
  /\ C mod 2 ^ 30 = 0
  /\ (B <= 2 ^ 63 - 2 ^ 30 -> C - 2 ^ 30 < B <= C)
  /\ (2 ^ 63 - 2 ^ 30 < B -> C < B)
  /\ (B = 1073741825 -> C = 2147483648).
Proof.
  intros Hr Hpos Hrun B C. subst B C.
  destruct (CreateVolume_ok_inv _ _ _ _ Hrun) as (_ & sd & _ & _ & _ & ->).
  split; [done|].
  unfold volSizeBytesOf, volSizeOf. rewrite Hr.
  pose proof (RoundUpBytes_int64 (CapacityRange.RequiredBytes r)) as Hfit.
  split; [done|]. split; [lia|].
  split; [apply RoundUpBytes_multiple|].
  split; [intros Hle; apply RoundUpBytes_bounds; lia|].
  split; [lia|].
  intros ->. reflexivity.
Qed.

(** C4 (default size): a request without a capacity range asks for the
    default size of 10 GiB, which is the size the controller works with and
    the capacity of the response; a request whose capacity range has zero
    or negative required bytes asks for those bytes, and the size the
    controller works with and the capacity of the response are the default
    of 10 GiB as well, by the capacity semantics of section 4.1 of the spec;
    and the provider gives every new disk a positive capacity, the default
    one when it is asked for zero or negative bytes. *)
Theorem CreateVolume_default_size req :
  (CreateVolumeRequest.CapacityRange req = None ->
     volSizeOf req = cloud.DefaultVolumeSize
     /\ cloud.DefaultVolumeSize = 10 * 2 ^ 30
     /\ volSizeBytesOf req = 10 * 2 ^ 30
     /\ forall p resp p1,
          CreateVolume (driverOn volumeCaps) req p = (inl resp, p1) ->
          Volume.CapacityBytes (CreateVolumeResponse.Volume resp) = 10 * 2 ^ 30)
  /\ (forall r, CreateVolumeRequest.CapacityRange req = Some r ->
     - 2 ^ 63 <= CapacityRange.RequiredBytes r <= 0 ->
     volSizeOf req = CapacityRange.RequiredBytes r
     /\ volSizeBytesOf req = 10 * 2 ^ 30
     /\ forall p resp p1,
          CreateVolume (driverOn volumeCaps) req p = (inl resp, p1) ->
          Volume.CapacityBytes (CreateVolumeResponse.Volume resp) = 10 * 2 ^ 30)
  /\ (forall name opts p,
     List.filter (diskNamed name) (disks p) = [] ->
     exists disk p1,
       provider_CreateDisk name opts p = ((Some disk, None), p1)
       /\ 1 <= cloud.CapacityGiB disk
       /\ (- 2 ^ 63 <= cloud.DiskOptions.CapacityBytes opts <= 0 ->
           cloud.CapacityGiB disk = 10)).
Proof.
  split; [|split].
  - intros Hnone.
    assert (Hsize : volSizeBytesOf req = 10 * 2 ^ 30).
    { unfold volSizeBytesOf, volSizeOf. rewrite Hnone. reflexivity. }
    split; [unfold volSizeOf; by rewrite Hnone|]. split; [reflexivity|].
    split; [done|]. intros p resp p1 Hrun.
    destruct (CreateVolume_ok_inv _ _ _ _ Hrun) as (_ & sd & _ & _ & _ & ->). done.
  - intros r Hr Hle.
    assert (Hsize : volSizeBytesOf req = 10 * 2 ^ 30).
    { unfold volSizeBytesOf, volSizeOf. rewrite Hr. by apply RoundUpBytes_default. }
    split; [unfold volSizeOf; by rewrite Hr|].
    split; [done|]. intros p resp p1 Hrun.
    destruct (CreateVolume_ok_inv _ _ _ _ Hrun) as (_ & sd & _ & _ & _ & ->). done.
  - intros name opts p Hfilter. unfold provider_CreateDisk.
    rewrite Hfilter. cbn. eexists _, _. split; [reflexivity|]. cbn.
    split; [apply RoundUpGiB_pos | apply RoundUpGiB_default].
Qed.

Lemma existsb_filter_negb {A} (f : A -> bool) (l : list A) :
  existsb f (List.filter (fun x => negb (f x)) l) = false.
Proof.
  induction l as [|x l IH]; cbn; [done|].
  destruct (f x) eqn:Hfx; cbn; [done|]. by rewrite Hfx.
Qed.

(** C6 (DeleteVolume is idempotent): an empty volume ID is InvalidArgument;
    ErrNotFound of the provider is success; any other error of the provider
    is Internal; hence a DeleteVolume and the same DeleteVolume again both
    succeed, and the disk is gone. *)
Theorem DeleteVolume_idempotent :
  (forall S (d : Driver.t S) (r : DeleteVolumeRequest.t) s,
     DeleteVolumeRequest.VolumeId r = EmptyString ->
     DeleteVolume d r s =
       (inr (status_Error codes.InvalidArgument (status.Text "Volume ID not provided")), s))
  /\ (forall S (d : Driver.t S) (r : DeleteVolumeRequest.t) s deleted s',
     DeleteVolumeRequest.VolumeId r <> EmptyString ->
     cloud.DeleteDisk (Driver.cloud d) (DeleteVolumeRequest.VolumeId r) s
       = ((deleted, Some cloud.ErrNotFound), s') ->
     DeleteVolume d r s = (inl DeleteVolumeResponse.Build_t, s'))
  /\ (forall S (d : Driver.t S) (r : DeleteVolumeRequest.t) s deleted e s',
     DeleteVolumeRequest.VolumeId r <> EmptyString ->
     cloud.DeleteDisk (Driver.cloud d) (DeleteVolumeRequest.VolumeId r) s
       = ((deleted, Some e), s') ->
     e <> cloud.ErrNotFound ->
     codeOf (fst (DeleteVolume d r s)) = codes.Internal
     /\ snd (DeleteVolume d r s) = s')
  /\ (forall (r : DeleteVolumeRequest.t) p,
     DeleteVolumeRequest.VolumeId r <> EmptyString ->
     exists p1,
       DeleteVolume (driverOn volumeCaps) r p = (inl DeleteVolumeResponse.Build_t, p1)
       /\ DeleteVolume (driverOn volumeCaps) r p1 = (inl DeleteVolumeResponse.Build_t, p1)
       /\ existsb (diskHasID (DeleteVolumeRequest.VolumeId r)) (disks p1) = false).
Proof.
  unfold DeleteVolume, bind, call, fail, ret.
  split; [|split; [|split]].
  - intros S d r s ->. reflexivity.
  - intros S d r s deleted s' Hid Hdel. apply len0_false in Hid. by rewrite Hid, Hdel.
  - intros S d r s deleted e s' Hid Hdel He. apply len0_false in Hid.
    rewrite Hid, Hdel. by destruct e.
  - intros r p Hid. apply len0_false in Hid. rewrite Hid. cbn.
    unfold provider_DeleteDisk.
    destruct (existsb (diskHasID (DeleteVolumeRequest.VolumeId r)) (disks p)) eqn:Hex.
    + eexists. split; [reflexivity|]. cbn.
      rewrite existsb_filter_negb. done.
    + eexists. split; [reflexivity|]. by rewrite Hex.
Qed.
End OverProvider.

End Properties.

(** * Further properties of the controller *)

Section MoreProperties.
Context {keys : Keys}.

Ltac pass_checks H :=
  let Hname := fresh "Hname" in
  let Hlimit := fresh "Hlimit" in
  let Hcaps := fresh "Hcaps" in
  let Hvalid := fresh "Hvalid" in
  pose proof H as (Hname & Hlimit & Hcaps & Hvalid);
  unfold CreateVolume;
  rewrite (proj2 (len0_false _) Hname), (limit_check_false _ _ Hlimit),
    (length0_false _ Hcaps), Hvalid;
  cbn [negb]; unfold bind, call, fail, ret.

Section AnyProvider.
Context {S : Type}.
Implicit Types (d : Driver.t S) (s : S) (req : CreateVolumeRequest.t).

(** X1 (CreateVolume, argument checks): a request that does not pass the
    argument checks (no name, a size above a positive limit after the
    round-up, no capability or an unsupported one) is InvalidArgument, and
    the provider is not called. *)
Theorem CreateVolume_rejected d req s :
  ~ accepted d req ->
  codeOf (fst (CreateVolume d req s)) = codes.InvalidArgument
  /\ snd (CreateVolume d req s) = s.
Proof.
  intros Hnot. unfold CreateVolume.
  destruct (len0 _) eqn:Hname; [done|].
  destruct (_ && _) eqn:Hlimit; [done|].
  destruct (_ =? _)%nat eqn:Hcaps; [done|].
  destruct (negb _) eqn:Hvalid; [done|].
  exfalso. apply Hnot. repeat split.
  - by apply len0_false.
  - apply andb_false_iff in Hlimit. rewrite !Z.ltb_ge in Hlimit. lia.
  - intros Heq. rewrite Heq in Hcaps. discriminate.
  - by apply negb_false_iff.
Qed.

(** X2 (CreateVolume, errors of GetDiskByName): for an accepted request, an
    error of GetDiskByName other than ErrNotFound ends the call, whether a
    disk comes with it or not: AlreadyExists for ErrDiskExistsDiffSize,
    Internal for every other error; CreateDisk is not called. *)
Theorem CreateVolume_lookup_error d req s disk e s1 :
  accepted d req ->
  cloud.GetDiskByName (Driver.cloud d) (CreateVolumeRequest.Name req) (volSizeBytesOf req) s
    = ((disk, Some e), s1) ->
  e <> cloud.ErrNotFound ->
  CreateVolume d req s =
    (inr (status_Error
            (if decide (e = cloud.ErrDiskExistsDiffSize)
             then codes.AlreadyExists else codes.Internal)
            (status.ErrorText e)), s1).
Proof.
  intros Hacc Hget He. pass_checks Hacc. rewrite Hget.
  destruct e; try congruence; cbn; case_decide; congruence.
Qed.

(** X3 (CreateVolume, failures on the way to a new disk): for an accepted
    request of which the provider has no disk, options that cannot be built
    end the call before CreateDisk; every error of CreateDisk, ErrAlreadyExists
    among them, is Internal; and a CreateDisk that returns neither a disk nor
    an error makes the handler dereference nil. *)
Theorem CreateVolume_create_failures d req s err s1 :
  accepted d req ->
  cloud.GetDiskByName (Driver.cloud d) (CreateVolumeRequest.Name req) (volSizeBytesOf req) s
    = ((None, err), s1) ->
  err = None \/ err = Some cloud.ErrNotFound ->
  (forall e,
     diskOptionsOf req (CreateVolumeRequest.Name req) (volSizeBytesOf req) = inr e ->
     CreateVolume d req s = (inr e, s1))
  /\ (forall opts,
     diskOptionsOf req (CreateVolumeRequest.Name req) (volSizeBytesOf req) = inl opts ->
     (forall disk e s2,
        cloud.CreateDisk (Driver.cloud d) (CreateVolumeRequest.Name req) opts s1
          = ((disk, Some e), s2) ->
        codeOf (fst (CreateVolume d req s)) = codes.Internal
        /\ snd (CreateVolume d req s) = s2)
     /\ (forall s2,
        cloud.CreateDisk (Driver.cloud d) (CreateVolumeRequest.Name req) opts s1
          = ((None, None), s2) ->
        CreateVolume d req s = (inr nil_dereference, s2))).
Proof.
  intros Hacc Hget Herr. pass_checks Hacc. rewrite Hget.
  destruct Herr as [-> | ->]; cbn;
    (split;
     [ intros e Hopts; by rewrite Hopts
     | intros opts Hopts; rewrite Hopts; split;
       [ intros disk e s2 Hcreate; by rewrite Hcreate
       | intros s2 Hcreate; by rewrite Hcreate ] ]).
Qed.

(** X4 (CreateVolume, an existing disk is returned whatever else is asked):
    when GetDiskByName returns a disk, the response is built from that disk
    alone; two accepted requests of the same name and size get the same
    response, whatever their parameters, topology requirement and content
    source are, even ones a new disk would be refused for. *)
Theorem CreateVolume_existing_ignores_options d req req' s disk err s1 :
  accepted d req ->
  accepted d req' ->
  CreateVolumeRequest.Name req' = CreateVolumeRequest.Name req ->
  volSizeBytesOf req' = volSizeBytesOf req ->
  cloud.GetDiskByName (Driver.cloud d) (CreateVolumeRequest.Name req) (volSizeBytesOf req) s
    = ((Some disk, err), s1) ->
  err = None \/ err = Some cloud.ErrNotFound ->
  CreateVolume d req s = (inl (newCreateVolumeResponse disk), s1)
  /\ CreateVolume d req' s = (inl (newCreateVolumeResponse disk), s1).
Proof.
  intros Hacc Hacc' Hname Hsize Hget Herr. split.
  - pass_checks Hacc. rewrite Hget. by destruct Herr as [-> | ->].
  - pass_checks Hacc'. rewrite Hname, Hsize, Hget. by destruct Herr as [-> | ->].
Qed.
End AnyProvider.

Section Options.
Implicit Types (req : CreateVolumeRequest.t).

(** X5 (options of a new disk): the options built for CreateDisk carry the
    size, the name tag alone, the volume type and the zone picked from the
    topology requirement; the disk is encrypted exactly when the parameter
    encrypted is the string true, and the KMS key is passed on only then;
    iopsPerGB is read only for the type io1 and is 0 otherwise; the snapshot
    ID is the one of the content source, empty without one. *)
Theorem diskOptionsOf_options req (volName : string) (volSizeBytes : Z) opts :
  diskOptionsOf req volName volSizeBytes = inl opts ->
  let volumeParams := CreateVolumeRequest.Parameters req in
  cloud.DiskOptions.CapacityBytes opts = volSizeBytes
  /\ cloud.DiskOptions.Tags opts = {[ VolumeNameTagKey := volName ]}
  /\ cloud.DiskOptions.VolumeType opts = index volumeParams "type"
  /\ cloud.DiskOptions.AvailabilityZone opts
     = pickAvailabilityZone (CreateVolumeRequest.AccessibilityRequirements req)
  /\ (cloud.DiskOptions.Encrypted opts = true <-> index volumeParams "encrypted" = "true")
  /\ (cloud.DiskOptions.Encrypted opts = true ->
      cloud.DiskOptions.KmsKeyID opts = index volumeParams "kmsKeyId")
  /\ (cloud.DiskOptions.Encrypted opts = false ->
      cloud.DiskOptions.KmsKeyID opts = EmptyString)
  /\ (index volumeParams "type" = cloud.VolumeTypeIO1 ->
      strconv.Atoi (index volumeParams "iopsPerGB") = Some (cloud.DiskOptions.IOPSPerGB opts))
  /\ (index volumeParams "type" <> cloud.VolumeTypeIO1 ->
      cloud.DiskOptions.IOPSPerGB opts = 0)
  /\ (CreateVolumeRequest.VolumeContentSource req = None ->
      cloud.DiskOptions.SnapshotID opts = EmptyString)
  /\ (forall volumeSource sourceSnapshot,
      CreateVolumeRequest.VolumeContentSource req = Some volumeSource ->
      VolumeContentSource.GetSnapshot volumeSource = Some sourceSnapshot ->
      cloud.DiskOptions.SnapshotID opts = SnapshotSource.SnapshotId sourceSnapshot).
Proof.
  intros H. cbv zeta. unfold diskOptionsOf in H.
  repeat case_match; simplify_eq; cbn.
  all: repeat split; try done; try congruence.
  all: try (intros; simplify_eq; done).
Qed.

(** X6 (when no options can be built): building the options fails exactly
    when the type is io1 and iopsPerGB is not an integer, or when there is a
    content source that is not a snapshot source with its snapshot; the
    failure is InvalidArgument. *)
Theorem diskOptionsOf_failure req (volName : string) (volSizeBytes : Z) :
  let volumeParams := CreateVolumeRequest.Parameters req in
  ((exists e, diskOptionsOf req volName volSizeBytes = inr e)
   <-> (index volumeParams "type" = cloud.VolumeTypeIO1
        /\ strconv.Atoi (index volumeParams "iopsPerGB") = None)
       \/ (exists volumeSource,
             CreateVolumeRequest.VolumeContentSource req = Some volumeSource
             /\ VolumeContentSource.GetSnapshot volumeSource = None))
  /\ (forall e, diskOptionsOf req volName volSizeBytes = inr e ->
                status_Code e = codes.InvalidArgument).
Proof.
  cbv zeta. unfold diskOptionsOf, VolumeContentSource.GetSnapshot. split.
  - split.
    + intros [e He]. repeat case_match; simplify_eq; eauto.
      all: right; eexists; split; [reflexivity|]; by simplify_option_eq.
    + intros [[Hio1 Hatoi] | (volumeSource & Hsrc & Hnone)].
      * rewrite decide_True by done. rewrite Hatoi. eauto.
      * rewrite Hsrc. repeat case_match; simplify_eq; eauto.
  - intros e H. repeat case_match; simplify_eq; reflexivity.
Qed.
End Options.

Section Topologies.

(** X7 (the topology of a response picks its zone): the accessible topology
    of a CreateVolume response, given back as the preferred topologies of a
    requirement, or as the requisite ones when none is preferred, makes
    pickAvailabilityZone return the zone of the disk. *)
Theorem response_topology_picks_zone (disk : cloud.Disk) (requisite rest : list Topology.t) :
  let accessible :=
    Volume.AccessibleTopology (CreateVolumeResponse.Volume (newCreateVolumeResponse disk)) in
  pickAvailabilityZone
    (Some {| TopologyRequirement.Requisite := requisite;
             TopologyRequirement.Preferred := accessible ++ rest |})
  = cloud.AvailabilityZone disk
  /\ pickAvailabilityZone
       (Some {| TopologyRequirement.Requisite := accessible ++ rest;
                TopologyRequirement.Preferred := [] |})
     = cloud.AvailabilityZone disk.
Proof.
  cbn. rewrite lookup_singleton_eq. done.
Qed.

Lemma firstZone_some (topologies : list Topology.t) (zone : string) :
  firstZone topologies = Some zone ->
  exists t, t ∈ topologies /\ Topology.Segments t !! topologyKey = Some zone.
Proof.
  induction topologies as [|t rest IH]; cbn; [discriminate|].
  destruct (Topology.Segments t !! topologyKey) as [z|] eqn:Hz.
  - intros [= <-]. exists t. split; [apply list_elem_of_here | done].
  - intros H. destruct (IH H) as (t' & Hin & Ht').
    exists t'. split; [by apply list_elem_of_further | done].
Qed.

(** X8 (pickAvailabilityZone invents no zone): a zone it returns, other than
    the empty string, is the value at the topology key of a topology of the
    requirement. *)
Theorem pickAvailabilityZone_from_requirement (requirement : option TopologyRequirement.t)
    (zone : string) :
  pickAvailabilityZone requirement = zone ->
  zone <> EmptyString ->
  exists req t,
    requirement = Some req
    /\ t ∈ TopologyRequirement.Preferred req ++ TopologyRequirement.Requisite req
    /\ Topology.Segments t !! topologyKey = Some zone.
Proof.
  intros Hpick Hzone. destruct requirement as [req|]; cbn in Hpick; [|congruence].
  exists req.
  destruct (firstZone (TopologyRequirement.Preferred req)) as [z|] eqn:Hpref.
  - subst z. destruct (firstZone_some _ _ Hpref) as (t & Hin & Ht).
    exists t. split; [done|]. split; [|done]. apply elem_of_app. by left.
  - destruct (firstZone (TopologyRequirement.Requisite req)) as [z|] eqn:Hreq; [|congruence].
    subst z. destruct (firstZone_some _ _ Hreq) as (t & Hin & Ht).
    exists t. split; [done|]. split; [|done]. apply elem_of_app. by right.
Qed.
End Topologies.

Section AnyProviderMore.
Context {S : Type}.
Implicit Types (d : Driver.t S) (s : S).

(** X9 (isValidVolumeCapabilities as a judgement on the list): capabilities
    are judged one by one: a concatenation is valid exactly when both parts
    are, lists with the same members get the same verdict whatever the order
    and the repetitions, a driver that supports more modes accepts what one
    with fewer modes accepts, and a capability without an access mode counts
    as the mode UNKNOWN. *)
Theorem isValidVolumeCapabilities_judgement d :
  (forall l1 l2,
     isValidVolumeCapabilities d (l1 ++ l2)
     = isValidVolumeCapabilities d l1 && isValidVolumeCapabilities d l2)
  /\ (forall l1 l2 : list VolumeCapability.t,
     (forall cap, cap ∈ l1 <-> cap ∈ l2) ->
     isValidVolumeCapabilities d l1 = isValidVolumeCapabilities d l2)
  /\ (forall (d' : Driver.t S) l,
     (forall m, m ∈ supportedModes d -> m ∈ supportedModes d') ->
     isValidVolumeCapabilities d l = true -> isValidVolumeCapabilities d' l = true)
  /\ (forall cap,
     VolumeCapability.AccessMode cap = None ->
     (isValidVolumeCapabilities d [cap] = true <-> UNKNOWN ∈ supportedModes d)).
Proof.
  split; [|split; [|split]].
  - intros l1 l2. rewrite !isValidVolumeCapabilities_forallb. apply forallb_app.
  - intros l1 l2 Hsame.
    destruct (isValidVolumeCapabilities d l1) eqn:H1, (isValidVolumeCapabilities d l2) eqn:H2;
      try done.
    + rewrite isValidVolumeCapabilities_all in H1.
      assert (H2' : isValidVolumeCapabilities d l2 = true).
      { apply isValidVolumeCapabilities_all. intros cap Hin. apply H1, Hsame, Hin. }
      congruence.
    + rewrite isValidVolumeCapabilities_all in H2.
      assert (H1' : isValidVolumeCapabilities d l1 = true).
      { apply isValidVolumeCapabilities_all. intros cap Hin. apply H2, Hsame, Hin. }
      congruence.
  - intros d' l Hmore. rewrite !isValidVolumeCapabilities_all.
    intros H cap Hin. apply Hmore, H, Hin.
  - intros cap Hnone. rewrite isValidVolumeCapabilities_one, Hnone. done.
Qed.

(** X10 (CreateSnapshot, errors of GetSnapshotByName): an error of
    GetSnapshotByName other than ErrNotFound is returned as it is, not as a
    gRPC status, so its code is Unknown; no snapshot is created. *)
Theorem CreateSnapshot_lookup_error d (req : CreateSnapshotRequest.t) s snapshot e s1 :
  CreateSnapshotRequest.Name req <> EmptyString ->
  CreateSnapshotRequest.SourceVolumeId req <> EmptyString ->
  cloud.GetSnapshotByName (Driver.cloud d) (CreateSnapshotRequest.Name req) s
    = ((snapshot, Some e), s1) ->
  e <> cloud.ErrNotFound ->
  CreateSnapshot d req s = (inr (cloud_error e), s1)
  /\ codeOf (fst (CreateSnapshot d req s)) = codes.Unknown.
Proof.
  intros Hn Hv Hget He. apply len0_false in Hn, Hv.
  unfold CreateSnapshot, bind, call, fail, ret. rewrite Hn, Hv, Hget.
  destruct e; try congruence; done.
Qed.

(** X11 (CreateSnapshot, a new snapshot): when the provider has no snapshot
    of the name, CreateSnapshot of the provider is called for the source
    volume with the name tag alone; its error is Internal, the snapshot it
    returns makes the response, and a return of neither a snapshot nor an
    error makes the handler dereference nil. *)
Theorem CreateSnapshot_new d (req : CreateSnapshotRequest.t) s err s1 :
  let snapshotName := CreateSnapshotRequest.Name req in
  let volumeID := CreateSnapshotRequest.SourceVolumeId req in
  let opts := {| cloud.SnapshotOptions.Tags := {[ SnapshotNameTagKey := snapshotName ]} |} in
  snapshotName <> EmptyString ->
  volumeID <> EmptyString ->
  cloud.GetSnapshotByName (Driver.cloud d) snapshotName s = ((None, err), s1) ->
  err = None \/ err = Some cloud.ErrNotFound ->
  (forall snapshot e s2,
     cloud.CreateSnapshot (Driver.cloud d) volumeID opts s1 = ((snapshot, Some e), s2) ->
     codeOf (fst (CreateSnapshot d req s)) = codes.Internal
     /\ snd (CreateSnapshot d req s) = s2)
  /\ (forall snapshot s2,
     cloud.CreateSnapshot (Driver.cloud d) volumeID opts s1 = ((Some snapshot, None), s2) ->
     CreateSnapshot d req s = (newCreateSnapshotResponse snapshot, s2))
  /\ (forall s2,
     cloud.CreateSnapshot (Driver.cloud d) volumeID opts s1 = ((None, None), s2) ->
     CreateSnapshot d req s = (inr nil_dereference, s2)).
Proof.
  intros snapshotName volumeID opts Hn Hv Hget Herr. subst snapshotName volumeID opts.
  apply len0_false in Hn, Hv.
  unfold CreateSnapshot, bind, call, fail, ret. rewrite Hn, Hv, Hget.
  destruct Herr as [-> | ->]; cbn;
    (split; [|split];
     [ intros snapshot e s2 Hcreate; by rewrite Hcreate
     | intros snapshot s2 Hcreate; by rewrite Hcreate
     | intros s2 Hcreate; by rewrite Hcreate ]).
Qed.

(** X12 (errors of GetDiskByID): in ValidateVolumeCapabilities and in
    ControllerPublishVolume an error of GetDiskByID other than ErrNotFound is
    Internal; the capabilities are not judged in the first and the disk is
    not attached in the second. *)
Theorem GetDiskByID_error_is_Internal d :
  (forall (req : ValidateVolumeCapabilitiesRequest.t) s disk e s',
     ValidateVolumeCapabilitiesRequest.VolumeId req <> EmptyString ->
     ValidateVolumeCapabilitiesRequest.VolumeCapabilities req <> [] ->
     cloud.GetDiskByID (Driver.cloud d) (ValidateVolumeCapabilitiesRequest.VolumeId req) s
       = ((disk, Some e), s') ->
     e <> cloud.ErrNotFound ->
     codeOf (fst (ValidateVolumeCapabilities d req s)) = codes.Internal
     /\ snd (ValidateVolumeCapabilities d req s) = s')
  /\ (forall (req : ControllerPublishVolumeRequest.t) s c s1 disk e s2,
     ControllerPublishVolumeRequest.VolumeId req <> EmptyString ->
     ControllerPublishVolumeRequest.NodeId req <> EmptyString ->
     ControllerPublishVolumeRequest.VolumeCapability req = Some c ->
     AccessMode.GetMode (VolumeCapability.AccessMode c) ∈ supportedModes d ->
     cloud.IsExistInstance (Driver.cloud d) (ControllerPublishVolumeRequest.NodeId req) s
       = (true, s1) ->
     cloud.GetDiskByID (Driver.cloud d) (ControllerPublishVolumeRequest.VolumeId req) s1
       = ((disk, Some e), s2) ->
     e <> cloud.ErrNotFound ->
     codeOf (fst (ControllerPublishVolume d req s)) = codes.Internal
     /\ snd (ControllerPublishVolume d req s) = s2).
Proof.
  split.
  - intros req s disk e s' Hid Hcaps Hget He. apply len0_false in Hid.
    unfold ValidateVolumeCapabilities, bind, call, fail, ret.
    rewrite Hid, (length0_false _ Hcaps), Hget.
    destruct e; try congruence; done.
  - intros req s c s1 disk e s2 Hv Hn Hcap Hmode Hinst Hget He.
    apply len0_false in Hv, Hn. apply isValidVolumeCapabilities_one in Hmode.
    unfold ControllerPublishVolume, bind, call, fail, ret.
    rewrite Hv, Hn, Hcap, Hmode. cbn. rewrite Hinst. cbn. rewrite Hget.
    destruct e; try congruence; done.
Qed.

Import csi_rest.

(** X13 (ControllerUnpublishVolume): an empty volume ID or node ID is
    InvalidArgument and the provider is not called; every error of
    DetachDisk is Internal, ErrNotFound as well (unlike in DeleteVolume it is
    not turned into success); with no error the call succeeds. *)
Theorem ControllerUnpublishVolume_contract (c : CloudRest.t S)
    (req : ControllerUnpublishVolumeRequest.t) s :
  let volumeID := ControllerUnpublishVolumeRequest.VolumeId req in
  let nodeID := ControllerUnpublishVolumeRequest.NodeId req in
  (volumeID = EmptyString \/ nodeID = EmptyString ->
     codeOf (fst (ControllerUnpublishVolume c req s)) = codes.InvalidArgument
     /\ snd (ControllerUnpublishVolume c req s) = s)
  /\ (volumeID <> EmptyString -> nodeID <> EmptyString ->
     (forall e s',
        CloudRest.DetachDisk c volumeID nodeID s = (Some e, s') ->
        codeOf (fst (ControllerUnpublishVolume c req s)) = codes.Internal
        /\ snd (ControllerUnpublishVolume c req s) = s')
     /\ (forall s',
        CloudRest.DetachDisk c volumeID nodeID s = (None, s') ->
        ControllerUnpublishVolume c req s = (inl ControllerUnpublishVolumeResponse.Build_t, s'))).
Proof.
  intros volumeID nodeID. subst volumeID nodeID.
  unfold ControllerUnpublishVolume, bind, call, fail, ret. split.
  - intros [Hv | Hn].
    + by rewrite Hv.
    + rewrite Hn. by destruct (len0 _).
  - intros Hv Hn. apply len0_false in Hv, Hn. rewrite Hv, Hn. split.
    + intros e s' Hdet. by rewrite Hdet.
    + intros s' Hdet. by rewrite Hdet.
Qed.

(** X14 (DeleteSnapshot): an empty snapshot ID is InvalidArgument and the
    provider is not called; ErrNotFound of the provider is success, as is no
    error; every other error is Internal. *)
Theorem DeleteSnapshot_contract (c : CloudRest.t S) (req : DeleteSnapshotRequest.t) s :
  let snapshotID := DeleteSnapshotRequest.SnapshotId req in
  (snapshotID = EmptyString ->
     DeleteSnapshot c req s =
       (inr (status_Error codes.InvalidArgument (status.Text "Snapshot ID not provided")), s))
  /\ (snapshotID <> EmptyString ->
     forall deleted err s',
       CloudRest.DeleteSnapshot c snapshotID s = ((deleted, err), s') ->
       (err = None \/ err = Some cloud.ErrNotFound ->
        DeleteSnapshot c req s = (inl DeleteSnapshotResponse.Build_t, s'))
       /\ (forall e, err = Some e -> e <> cloud.ErrNotFound ->
           codeOf (fst (DeleteSnapshot c req s)) = codes.Internal
           /\ snd (DeleteSnapshot c req s) = s')).
Proof.
  intros snapshotID. subst snapshotID.
  unfold DeleteSnapshot, bind, call, fail, ret. split.
  - intros ->. reflexivity.
  - intros Hid deleted err s' Hdel. apply len0_false in Hid. rewrite Hid, Hdel. split.
    + by intros [-> | ->].
    + intros e -> He. destruct e; try congruence; done.
Qed.

(** X15 (ControllerGetCapabilities): the call always succeeds without the
    provider, and the RPC types read back from the capabilities of the
    response are the capabilities of the driver, one for one and in order. *)
Theorem ControllerGetCapabilities_lists_all (controllerCaps : list RPC_Type) s :
  exists resp,
    ControllerGetCapabilities controllerCaps s = (inl resp, s)
    /\ map ControllerServiceCapability.GetRpcType
         (ControllerGetCapabilitiesResponse.Capabilities resp) = controllerCaps
    /\ length (ControllerGetCapabilitiesResponse.Capabilities resp) = length controllerCaps.
Proof.
  unfold ControllerGetCapabilities, ret. eexists. split; [reflexivity|]. cbn.
  set (mk := fun cap : RPC_Type =>
    {| ControllerServiceCapability.Type_ :=
         Some (ControllerServiceCapability_Rpc
                 (Some {| ControllerServiceCapability_RPC.Type_ := cap |})) |}).
  assert (Hfold : forall caps acc,
    fold_left (fun caps0 cap => caps0 ++ [mk cap]) caps acc = acc ++ map mk caps).
  { induction caps as [|cap caps IH]; intros acc; cbn.
    - by rewrite app_nil_r.
    - rewrite IH. by rewrite <- app_assoc. }
  rewrite Hfold. cbn. split.
  - rewrite map_map. cbn. apply map_id.
  - by rewrite length_map.
Qed.
End AnyProviderMore.

Section SameSize.
Variable volumeCaps : list AccessMode.t.

(** After a call has succeeded, an accepted call for the same name whose
    size rounds up to the same number of bytes returns the disk of the
    first call: the same volume ID and capacity, and the provider is left
    as it is.  The sizes asked for need not be equal. *)
Theorem CreateVolume_same_rounded_size (req1 req2 : CreateVolumeRequest.t) p resp1 p1 :
  CreateVolumeRequest.Name req1 = CreateVolumeRequest.Name req2 ->
  util.RoundUpBytes (volSizeOf req1) = util.RoundUpBytes (volSizeOf req2) ->
  CreateVolume (driverOn volumeCaps) req1 p = (inl resp1, p1) ->
  accepted (driverOn volumeCaps) req2 ->
  exists resp2,
    CreateVolume (driverOn volumeCaps) req2 p1 = (inl resp2, p1)
    /\ Volume.VolumeId (CreateVolumeResponse.Volume resp2)
       = Volume.VolumeId (CreateVolumeResponse.Volume resp1)
    /\ Volume.CapacityBytes (CreateVolumeResponse.Volume resp2)
       = Volume.CapacityBytes (CreateVolumeResponse.Volume resp1).
Proof.
  intros Hname Hsame Hrun Hacc2.
  destruct (CreateVolume_ok_inv _ _ _ _ _ Hrun) as (_ & sd & Hfilter & Hsize & Hid & Hcap).
  rewrite Hname in Hfilter.
  assert (Hsize2 : util.GiBToBytes (cloud.CapacityGiB (sdDisk sd)) = volSizeBytesOf req2).
  { rewrite Hsize. exact Hsame. }
  exists (newCreateVolumeResponse (sdDisk sd)).
  split; [by apply CreateVolume_found|].
  cbn. by rewrite Hid, Hcap, Hsize.
Qed.

End SameSize.
End MoreProperties.

(** * Properties of the polling of the end-to-end test *)

Section Polling.
Context {W : Type}.
Variable DescribeVolumes :
  ec2.DescribeVolumesInput.t -> W -> (ec2.DescribeVolumesOutput.t + e2e.error) * W.

Lemma describeVolumes_loop_served params w volumes params' w' :
  e2e.Served DescribeVolumes params w volumes params' w' ->
  exists n, forall fuel acc,
    (n <= fuel)%nat ->
    e2e.describeVolumes_loop DescribeVolumes fuel params acc w
    = Some (inl (acc ++ volumes), params', w').
Proof.
  induction 1 as [params w response w' Hcall Hlast
                 |params w response w1 volumes params' w' Hcall Hmore Hrest IH].
  - exists 1%nat. intros fuel acc Hfuel.
    destruct fuel as [|fuel]; [lia|]. cbn. rewrite Hcall.
    by rewrite decide_True.
  - destruct IH as [n IH]. exists (Datatypes.S n). intros fuel acc Hfuel.
    destruct fuel as [|fuel]; [lia|]. cbn. rewrite Hcall.
    rewrite decide_False by done.
    rewrite IH by lia. by rewrite <- app_assoc.
Qed.

(** X16 (describeVolumes follows the pages): when the API serves a last page
    after finitely many, describeVolumes returns the volumes of all the pages
    in the order of the pages, and leaves in its input the token of the
    last page it asked for. *)
Theorem describeVolumes_collects_pages params w volumes params' w' :
  e2e.Served DescribeVolumes params w volumes params' w' ->
  exists n, forall fuel,
    (n <= fuel)%nat ->
    e2e.describeVolumes DescribeVolumes fuel params w = Some (inl volumes, params', w').
Proof.
  intros Hserved. destruct (describeVolumes_loop_served _ _ _ _ _ Hserved) as [n Hn].
  exists n. intros fuel Hfuel. unfold e2e.describeVolumes. by rewrite Hn.
Qed.

(** X17 (describeVolumes has no bound on the pages): against an API that
    answers every call with a page and a token that is not empty, the loop
    does not end, whatever the number of pages it is given. *)
Theorem describeVolumes_endless params w :
  (forall params0 w0, exists response w1,
      DescribeVolumes params0 w0 = (inl response, w1)
      /\ aws.StringValue (ec2.DescribeVolumesOutput.NextToken response) <> EmptyString) ->
  forall fuel, e2e.describeVolumes DescribeVolumes fuel params w = None.
Proof.
  intros Hmore fuel. unfold e2e.describeVolumes. generalize (@nil ec2.Volume.t) as acc.
  revert params w. induction fuel as [|fuel IH]; intros params w acc; cbn; [done|].
  destruct (Hmore params w) as (response & w1 & Hcall & Htoken).
  rewrite Hcall. rewrite decide_False by done. apply IH.
Qed.

(** X18 (the condition of waitForVolumeState): after the volumes have been
    described, the condition is met exactly when there is one volume, it is
    in the state waited for and, for the state in-use, its first attachment
    is attached; the condition is never met together with an error; it
    returns an error exactly when describing failed or the volumes are not
    one; and it panics exactly when the one volume is in the state in-use
    that is waited for and has no attachment. *)
Theorem volumeStateReached_cases (state : string) (described : list ec2.Volume.t + e2e.error) :
  (e2e.volumeStateReached state described = e2e.Return true None
   <-> exists volume,
         described = inl [volume]
         /\ aws.StringValue (ec2.Volume.State volume) = state
         /\ (state = "in-use" ->
             exists attachment rest,
               ec2.Volume.Attachments volume = attachment :: rest
               /\ aws.StringValue (ec2.VolumeAttachment.State attachment) = "attached"))
  /\ (forall err, e2e.volumeStateReached state described <> e2e.Return true (Some err))
  /\ ((exists done err, e2e.volumeStateReached state described = e2e.Return done (Some err))
      <-> (exists err, described = inr err)
          \/ (exists volumes, described = inl volumes /\ length volumes <> 1%nat))
  /\ (e2e.volumeStateReached state described = e2e.Panic
      <-> exists volume,
            described = inl [volume]
            /\ state = "in-use"
            /\ aws.StringValue (ec2.Volume.State volume) = "in-use"
            /\ ec2.Volume.Attachments volume = []).
Proof.
  unfold e2e.volumeStateReached.
  destruct described as [[|volume [|volume' rest]]|err]; cbn.
  - repeat split; try done.
    + intros (v & Hv & _). discriminate.
    + intros _. right. exists []. done.
    + eauto.
    + intros (v & Hv & _). discriminate.
  - destruct (decide (aws.StringValue (ec2.Volume.State volume) = state)) as [Hstate|Hstate].
    + rewrite (bool_decide_eq_true_2 _ Hstate). cbn.
      destruct (decide (state = "in-use")) as [Huse|Huse].
      * rewrite (bool_decide_eq_true_2 _ Huse).
        destruct (ec2.Volume.Attachments volume) as [|attachment atts] eqn:Hatts.
        -- repeat split; try done.
           ++ intros (v & [= <-] & _ & Hatt). destruct (Hatt Huse) as (a & r & Ha & _).
              congruence.
           ++ intros (done & err & H). discriminate.
           ++ intros [[err H] | (vs & [= <-] & Hlen)]; [discriminate | done].
           ++ intros _. exists volume. repeat split; try done. congruence.
        -- destruct (decide (aws.StringValue (ec2.VolumeAttachment.State attachment)
                             = "attached")) as [Hatt|Hatt].
           ++ rewrite (bool_decide_eq_true_2 _ Hatt). cbn. repeat split; try done.
              ** intros _. exists volume. repeat split; try done.
                 intros _. exists attachment, atts. done.
              ** intros (done & err & H). discriminate.
              ** intros [[err H] | (vs & [= <-] & Hlen)]; [discriminate | done].
              ** intros (v & [= <-] & _ & _ & Hnil). congruence.
           ++ rewrite (bool_decide_eq_false_2 _ Hatt). cbn. repeat split; try done.
              ** intros (v & [= <-] & _ & Hex). destruct (Hex Huse) as (a & r & Ha & Hs).
                 rewrite Hatts in Ha. injection Ha as <- <-. done.
              ** intros (done & err & H). discriminate.
              ** intros [[err H] | (vs & [= <-] & Hlen)]; [discriminate | done].
              ** intros (v & [= <-] & _ & _ & Hnil). congruence.
      * rewrite (bool_decide_eq_false_2 _ Huse). repeat split; try done.
        -- intros _. exists volume. repeat split; try done.
        -- intros (done & err & H). discriminate.
        -- intros [[err H] | (vs & [= <-] & Hlen)]; [discriminate | done].
        -- intros (v & _ & Hs & _). done.
    + rewrite (bool_decide_eq_false_2 _ Hstate). cbn. repeat split; try done.
      * intros (v & [= <-] & Hs & _). done.
      * intros (done & err & H). discriminate.
      * intros [[err H] | (vs & [= <-] & Hlen)]; [discriminate | done].
      * intros (v & [= <-] & Hu & Hs & _). congruence.
  - repeat split; try done.
    + intros (v & Hv & _). discriminate.
    + intros _. right. eexists. split; [reflexivity|]. cbn. lia.
    + eauto.
    + intros (v & Hv & _). discriminate.
  - repeat split; try done.
    + intros (v & Hv & _). discriminate.
    + intros _. left. eauto.
    + eauto.
    + intros (v & Hv & _). discriminate.
Qed.

(** X19 (the condition of waitForVolumes): the condition is met exactly when
    the number of volumes described is the expected one, or when no volume
    is expected and describing failed with the code InvalidVolume.NotFound of
    the API; every other failure of describing is returned as the error, and
    a different number of volumes is no error. *)
Theorem volumesCounted_cases (nVolumes : nat) (described : list ec2.Volume.t + e2e.error) :
  (e2e.volumesCounted nVolumes described = e2e.Return true None
   <-> (exists volumes, described = inl volumes /\ length volumes = nVolumes)
       \/ (nVolumes = 0%nat /\ described = inr (e2e.AwsError "InvalidVolume.NotFound")))
  /\ (forall err,
      described = inr err ->
      ~ (nVolumes = 0%nat /\ err = e2e.AwsError "InvalidVolume.NotFound") ->
      e2e.volumesCounted nVolumes described = e2e.Return false (Some err))
  /\ (forall volumes,
      described = inl volumes -> length volumes <> nVolumes ->
      e2e.volumesCounted nVolumes described = e2e.Return false None)
  /\ e2e.volumesCounted nVolumes described <> e2e.Panic.
Proof.
  unfold e2e.volumesCounted. destruct described as [volumes|err].
  - destruct (length volumes =? nVolumes)%nat eqn:Hlen; cbn.
    + apply Nat.eqb_eq in Hlen. repeat split; try done.
      * intros _. left. eauto.
      * intros vs [= <-] Hne. done.
    + apply Nat.eqb_neq in Hlen. repeat split; try done.
      intros [(vs & [= <-] & Heq) | [_ H]]; [done | discriminate].
  - destruct (nVolumes =? 0)%nat eqn:Hzero.
    + apply Nat.eqb_eq in Hzero. destruct err as [code|msg|fmt n].
      * destruct (decide (code = "InvalidVolume.NotFound")) as [Hcode|Hcode].
        -- rewrite (bool_decide_eq_true_2 _ Hcode). subst code. repeat split; try done.
           ++ intros _. right. done.
           ++ intros err' [= <-] Hnot. exfalso. apply Hnot. done.
        -- rewrite (bool_decide_eq_false_2 _ Hcode). repeat split; try done.
           ++ intros [(vs & H & _) | [_ [= H]]]; [discriminate | done].
           ++ intros err' [= <-] _. done.
      * repeat split; try done.
        -- intros [(vs & H & _) | [_ H]]; discriminate.
        -- intros err' [= <-] _. done.
      * repeat split; try done.
        -- intros [(vs & H & _) | [_ H]]; discriminate.
        -- intros err' [= <-] _. done.
    + apply Nat.eqb_neq in Hzero. repeat split; try done.
      * intros [(vs & H & _) | [H _]]; [discriminate | done].
      * intros err' [= <-] _. done.
Qed.

(** X20 (the condition functions over the pages): when the API serves the
    pages of the volume from the first page on, the two condition functions
    judge the volumes of all the pages together, and the world is left as
    the last page left it. *)
Theorem verify_over_pages (volumeID state : string) (nVolumes : nat) w volumes params' w' :
  e2e.Served DescribeVolumes (e2e.describeInput volumeID) w volumes params' w' ->
  exists n, forall fuel,
    (n <= fuel)%nat ->
    e2e.verifyVolumeState DescribeVolumes fuel volumeID state w
    = Some (e2e.volumeStateReached state (inl volumes), w')
    /\ e2e.verifyVolumes DescribeVolumes fuel volumeID nVolumes w
       = Some (e2e.volumesCounted nVolumes (inl volumes), w').
Proof.
  intros Hserved. destruct (describeVolumes_collects_pages _ _ _ _ _ Hserved) as [n Hn].
  exists n. intros fuel Hfuel.
  unfold e2e.verifyVolumeState, e2e.verifyVolumes. by rewrite (Hn fuel Hfuel).
Qed.
End Polling.

(** * The properties at the sample data *)

#[local] Existing Instance sampleKeys.

(** ** The tests of the controller, replayed on the sample driver *)

Example test_CreateVolume_success_normal :
  observed (CreateVolume sampleDriver (volumeRequest "random-vol-name" (Some stdVolSize) ∅)
              sampleProvider)
  = (codes.OK, Some (stdVolSize, Some EmptyString)).
Proof. vm_compute. reflexivity. Qed.

Example test_CreateVolume_fail_no_name :
  observed (CreateVolume sampleDriver (volumeRequest EmptyString (Some stdVolSize) ∅)
              sampleProvider)
  = (codes.InvalidArgument, None).
Proof. vm_compute. reflexivity. Qed.

Example test_CreateVolume_same_name_same_capacity :
  observed (CreateVolume sampleDriver (volumeRequest "test-vol" (Some stdVolSize) ∅)
              providerWithVolume)
  = (codes.OK, Some (stdVolSize, Some EmptyString)).
Proof. vm_compute. reflexivity. Qed.

Example test_CreateVolume_same_name_different_capacity :
  observed (CreateVolume sampleDriver (volumeRequest "test-vol" (Some 10000) ∅)
              providerWithVolume)
  = (codes.AlreadyExists, None).
Proof. vm_compute. reflexivity. Qed.

Example test_CreateVolume_no_capacity_range :
  observed (CreateVolume sampleDriver (volumeRequest "test-vol" None ∅) sampleProvider)
  = (codes.OK, Some (cloud.DefaultVolumeSize, Some EmptyString)).
Proof. vm_compute. reflexivity. Qed.

Example test_CreateVolume_correct_round_up :
  observed (CreateVolume sampleDriver (volumeRequest "vol-test" (Some 1073741825) ∅)
              sampleProvider)
  = (codes.OK, Some (2147483648, Some EmptyString)).
Proof. vm_compute. reflexivity. Qed.

Example test_CreateVolume_fstype_parameter :
  observed (CreateVolume sampleDriver
              (volumeRequest "vol-test" (Some stdVolSize) {[ "fsType" := "ext4" ]})
              sampleProvider)
  = (codes.OK, Some (stdVolSize, Some "ext4")).
Proof. vm_compute. reflexivity. Qed.

Example test_CreateVolume_volume_type_io1 :
  observed (CreateVolume sampleDriver
              (volumeRequest "vol-test" (Some stdVolSize)
                 {[ "type" := cloud.VolumeTypeIO1; "iopsPerGB" := "5" ]})
              sampleProvider)
  = (codes.OK, Some (stdVolSize, Some EmptyString)).
Proof. vm_compute. reflexivity. Qed.

Example test_DeleteVolume :
  codeOf (fst (DeleteVolume sampleDriver {| DeleteVolumeRequest.VolumeId := "vol-test" |}
                 sampleProvider)) = codes.OK
  /\ codeOf (fst (DeleteVolume sampleDriver
                    {| DeleteVolumeRequest.VolumeId := "invalid-volume-name" |}
                    sampleProvider)) = codes.OK.
Proof. vm_compute. split; reflexivity. Qed.

Example test_CreateSnapshot :
  let first := CreateSnapshot sampleDriver (snapshotRequest "test-snapshot" "vol-test")
                 sampleProvider in
  (Snapshot.ReadyToUse ∘ CreateSnapshotResponse.Snapshot) <$>
     (match fst first with inl resp => Some resp | inr _ => None end) = Some true
  /\ codeOf (fst (CreateSnapshot sampleDriver (snapshotRequest EmptyString "vol-test")
                    sampleProvider)) = codes.InvalidArgument
  /\ codeOf (fst (CreateSnapshot sampleDriver (snapshotRequest "test-snapshot" "vol-xxx")
                    (snd first))) = codes.AlreadyExists
  /\ codeOf (fst (CreateSnapshot sampleDriver (snapshotRequest "test-snapshot" "vol-test")
                    (snd first))) = codes.OK.
Proof. vm_compute. repeat split; reflexivity. Qed.

Example test_pickAvailabilityZone :
  let zone := zoneTopology topologyKey "us-west-2b" in
  pickAvailabilityZone
    (Some {| TopologyRequirement.Requisite := [zone]; TopologyRequirement.Preferred := [zone] |})
  = "us-west-2b"
  /\ pickAvailabilityZone
       (Some {| TopologyRequirement.Requisite := [zone]; TopologyRequirement.Preferred := [] |})
     = "us-west-2b"
  /\ pickAvailabilityZone
       (Some {| TopologyRequirement.Requisite := [emptyTopology];
                TopologyRequirement.Preferred := [emptyTopology] |})
     = EmptyString
  /\ pickAvailabilityZone None = EmptyString.
Proof. vm_compute. repeat split; reflexivity. Qed.

(** ** The claims at the sample data *)

Lemma pickAvailabilityZone_preference_witness :
  pickAvailabilityZone
    (Some {| TopologyRequirement.Requisite := [ zoneTopology topologyKey "us-west-2a" ];
             TopologyRequirement.Preferred := [ emptyTopology; zoneTopology topologyKey "us-west-2b" ] |})
  = "us-west-2b"
  /\ pickAvailabilityZone
    (Some {| TopologyRequirement.Requisite := [ zoneTopology topologyKey "us-west-2a" ];
             TopologyRequirement.Preferred := [ emptyTopology ] |})
  = "us-west-2a"
  /\ pickAvailabilityZone
    (Some {| TopologyRequirement.Requisite := [ emptyTopology ];
             TopologyRequirement.Preferred := [ emptyTopology ] |})
  = EmptyString.
Proof.
  destruct (pickAvailabilityZone_preference (keys := sampleKeys)) as (Hpref & Hreq & _ & Hnone).
  split; [|split].
  - apply (Hpref _ [emptyTopology] (zoneTopology topologyKey "us-west-2b") []).
    + reflexivity.
    + intros t' Hin. apply list_elem_of_singleton in Hin. rewrite Hin. reflexivity.
    + vm_compute. reflexivity.
  - apply (Hreq _ [] (zoneTopology topologyKey "us-west-2a") []).
    + intros t' Hin. apply list_elem_of_singleton in Hin. rewrite Hin. reflexivity.
    + reflexivity.
    + intros t' Hin. inversion Hin.
    + vm_compute. reflexivity.
  - apply Hnone. intros t' Hin. cbn in Hin.
    apply elem_of_cons in Hin as [->|Hin]; [reflexivity|].
    apply list_elem_of_singleton in Hin. rewrite Hin. reflexivity.
Defined.

Lemma CreateVolume_idempotent_witness :
  let req := volumeRequest "test-vol" (Some stdVolSize) ∅ in
  exists resp1 p1 sd,
    CreateVolume sampleDriver req sampleProvider = (inl resp1, p1)
    /\ disks p1 = disks sampleProvider ++ [sd]
    /\ List.filter (diskNamed "test-vol") (disks p1) = [sd]
    /\ Volume.VolumeId (CreateVolumeResponse.Volume resp1) = cloud.VolumeID (sdDisk sd)
    /\ Volume.CapacityBytes (CreateVolumeResponse.Volume resp1)
       = util.GiBToBytes (cloud.CapacityGiB (sdDisk sd))
    /\ CreateVolume sampleDriver req p1 = (inl (newCreateVolumeResponse (sdDisk sd)), p1)
    /\ Volume.VolumeId (CreateVolumeResponse.Volume (newCreateVolumeResponse (sdDisk sd)))
       = Volume.VolumeId (CreateVolumeResponse.Volume resp1)
    /\ Volume.CapacityBytes
         (CreateVolumeResponse.Volume (newCreateVolumeResponse (sdDisk sd)))
       = Volume.CapacityBytes (CreateVolumeResponse.Volume resp1).
Proof.
  intros req.
  destruct (CreateVolume_idempotent (Driver.volumeCaps sampleDriver) req sampleProvider)
    as (_ & Hagain & Hfirst).
  edestruct Hfirst as (resp1 & sd0 & Hrun & _).
  - split; [discriminate | split; [cbn; lia | split; [discriminate | reflexivity]]].
  - vm_compute. reflexivity.
  - reflexivity.
  - destruct (Hagain resp1 _ Hrun)
      as (sd & Hfilter & Hstate & Hid & Hcap & _ & Hrun2 & Hid2 & Hcap2).
    exists resp1. eexists. exists sd. split; [exact Hrun|].
    split.
    { destruct Hstate as [Hsame|Hnew]; [|exact Hnew].
      exfalso. rewrite Hsame in Hfilter. vm_compute in Hfilter. discriminate Hfilter. }
    split; [exact Hfilter|]. split; [exact Hid|]. split; [exact Hcap|].
    split; [exact Hrun2|]. split; assumption.
Defined.

Lemma CreateVolume_conflict_rounded_witness :
  let req1 := volumeRequest "test-vol" (Some stdVolSize) ∅ in
  let req2 := volumeRequest "test-vol" (Some 10000) ∅ in
  let p1 := snd (CreateVolume sampleDriver req1 sampleProvider) in
  codeOf (fst (CreateVolume sampleDriver req1 sampleProvider)) = codes.OK
  /\ CreateVolume sampleDriver req2 p1 =
       (inr (status_Error codes.AlreadyExists (status.ErrorText cloud.ErrDiskExistsDiffSize)), p1).
Proof.
  intros req1 req2 p1. split; [reflexivity|].
  eapply (CreateVolume_conflict_rounded (Driver.volumeCaps sampleDriver) req1 req2 _ _ sampleProvider).
  - reflexivity.
  - reflexivity.
  - reflexivity.
  - vm_compute. discriminate.
  - vm_compute. reflexivity.
  - split; [discriminate | split; [cbn; lia | split; [discriminate | reflexivity]]].
Defined.

Lemma CreateVolume_round_up_witness :
  let req := volumeRequest "vol-test" (Some 1073741825) ∅ in
  exists resp p1,
    CreateVolume sampleDriver req sampleProvider = (inl resp, p1)
    /\ Volume.CapacityBytes (CreateVolumeResponse.Volume resp) = volSizeBytesOf req
    /\ Volume.CapacityBytes (CreateVolumeResponse.Volume resp) mod 2 ^ 30 = 0
    /\ Volume.CapacityBytes (CreateVolumeResponse.Volume resp) - 2 ^ 30
         < 1073741825 <= Volume.CapacityBytes (CreateVolumeResponse.Volume resp)
    /\ Volume.CapacityBytes (CreateVolumeResponse.Volume resp) = 2147483648.
Proof.
  intros req.
  destruct (CreateVolume sampleDriver req sampleProvider) as [[resp|e] p1] eqn:Hrun.
  - exists resp, p1. split; [reflexivity|].
    destruct (CreateVolume_round_up (Driver.volumeCaps sampleDriver) req
                {| CapacityRange.RequiredBytes := 1073741825; CapacityRange.LimitBytes := 0 |}
                sampleProvider resp p1) as (Hsize & _ & _ & Hmod & Hbounds & _ & Hlit).
    + reflexivity.
    + cbn. lia.
    + exact Hrun.
    + split; [exact Hsize|]. split; [exact Hmod|]. split.
      * apply Hbounds. cbn. lia.
      * apply Hlit. reflexivity.
  - exfalso. vm_compute in Hrun. discriminate Hrun.
Defined.

Lemma CreateVolume_default_size_witness :
  let req := volumeRequest "test-vol" None ∅ in
  let req0 := volumeRequest "test-vol" (Some 0) ∅ in
  volSizeBytesOf req = 10 * 2 ^ 30
  /\ (exists resp p1,
        CreateVolume sampleDriver req sampleProvider = (inl resp, p1)
        /\ Volume.CapacityBytes (CreateVolumeResponse.Volume resp) = 10 * 2 ^ 30)
  /\ volSizeBytesOf req0 = 10 * 2 ^ 30
  /\ (exists resp p1,
        CreateVolume sampleDriver req0 sampleProvider = (inl resp, p1)
        /\ Volume.CapacityBytes (CreateVolumeResponse.Volume resp) = 10 * 2 ^ 30).
Proof.
  intros req req0.
  destruct (CreateVolume_default_size (Driver.volumeCaps sampleDriver) req) as (Hnone & _ & _).
  destruct (CreateVolume_default_size (Driver.volumeCaps sampleDriver) req0) as (_ & Hsome & _).
  destruct (Hnone eq_refl) as (_ & _ & Hsize & Hcap).
  destruct (Hsome {| CapacityRange.RequiredBytes := 0; CapacityRange.LimitBytes := 0 |} eq_refl)
    as (_ & Hsize0 & Hcap0); [cbn; lia|].
  split; [exact Hsize|]. split; [|split; [exact Hsize0|]].
  - destruct (CreateVolume sampleDriver req sampleProvider) as [[resp|e] p1] eqn:Hrun.
    + exists resp, p1. split; [reflexivity|]. exact (Hcap _ _ _ Hrun).
    + exfalso. vm_compute in Hrun. discriminate Hrun.
  - destruct (CreateVolume sampleDriver req0 sampleProvider) as [[resp|e] p1] eqn:Hrun.
    + exists resp, p1. split; [reflexivity|]. exact (Hcap0 _ _ _ Hrun).
    + exfalso. vm_compute in Hrun. discriminate Hrun.
Defined.

(** C2 as stated fails: 1 GiB and 10000 bytes are distinct sizes that both
    round up to 1 GiB, and the second call returns the volume of the first. *)
Lemma same_GiB_sizes_do_not_conflict :
  let req1 := volumeRequest "test-vol" (Some (1 * 1024 * 1024 * 1024)) ∅ in
  let req2 := volumeRequest "test-vol" (Some 10000) ∅ in
  let r1 := CreateVolume sampleDriver req1 sampleProvider in
  let r2 := CreateVolume sampleDriver req2 (snd r1) in
  1 * 1024 * 1024 * 1024 <> 10000
  /\ codeOf (fst r1) = codes.OK
  /\ codeOf (fst r2) = codes.OK
  /\ codeOf (fst r2) <> codes.AlreadyExists.
Proof. vm_compute. repeat split; discriminate. Qed.

(** C3 as stated fails: 2^63 - 1 is a positive number of requested bytes,
    and the largest multiple of 2^30 that fits in 64 bits is below it; so is
    the capacity of the response. *)
Lemma round_up_does_not_fit_in_64_bits :
  let B := 2 ^ 63 - 1 in
  let req := volumeRequest "vol-test" (Some B) ∅ in
  0 < B < 2 ^ 63
  /\ (2 ^ 63 - 1) / 2 ^ 30 * 2 ^ 30 < B
  /\ exists resp p1,
       CreateVolume sampleDriver req sampleProvider = (inl resp, p1)
       /\ - 2 ^ 63 <= Volume.CapacityBytes (CreateVolumeResponse.Volume resp) < 2 ^ 63
       /\ Volume.CapacityBytes (CreateVolumeResponse.Volume resp) < B
       /\ ~ (Volume.CapacityBytes (CreateVolumeResponse.Volume resp) - 2 ^ 30
              < B <= Volume.CapacityBytes (CreateVolumeResponse.Volume resp)).
Proof.
  intros B req. split; [cbn; lia|]. split; [reflexivity|].
  eexists _, _. split; [vm_compute; reflexivity|]. cbn. lia.
Qed.

Lemma ValidateVolumeCapabilities_contract_witness :
  let validate id caps :=
    ValidateVolumeCapabilities sampleDriver
      {| ValidateVolumeCapabilitiesRequest.VolumeId := id;
         ValidateVolumeCapabilitiesRequest.VolumeCapabilities := caps |} providerWithVolume in
  codeOf (fst (validate EmptyString stdVolCap)) = codes.InvalidArgument
  /\ codeOf (fst (validate "vol-0" [])) = codes.InvalidArgument
  /\ codeOf (fst (validate "vol-404" stdVolCap)) = codes.NotFound
  /\ (exists resp,
        validate "vol-0" stdVolCap = (inl resp, providerWithVolume)
        /\ ValidateVolumeCapabilitiesResponse.Confirmed resp
           = Some {| Confirmed.VolumeCapabilities := stdVolCap |})
  /\ (exists resp,
        validate "vol-0" [readerVolCap] = (inl resp, providerWithVolume)
        /\ ValidateVolumeCapabilitiesResponse.Confirmed resp = None).
Proof.
  intros validate. subst validate. cbv beta.
  split; [|split; [|split; [|split]]].
  - destruct (ValidateVolumeCapabilities_contract sampleDriver
                {| ValidateVolumeCapabilitiesRequest.VolumeId := EmptyString;
                   ValidateVolumeCapabilitiesRequest.VolumeCapabilities := stdVolCap |}
                providerWithVolume) as (H & _).
    rewrite (H eq_refl). reflexivity.
  - destruct (ValidateVolumeCapabilities_contract sampleDriver
                {| ValidateVolumeCapabilitiesRequest.VolumeId := "vol-0";
                   ValidateVolumeCapabilitiesRequest.VolumeCapabilities := [] |}
                providerWithVolume) as (_ & H & _).
    rewrite H; [reflexivity | discriminate | reflexivity].
  - destruct (ValidateVolumeCapabilities_contract sampleDriver
                {| ValidateVolumeCapabilitiesRequest.VolumeId := "vol-404";
                   ValidateVolumeCapabilitiesRequest.VolumeCapabilities := stdVolCap |}
                providerWithVolume) as (_ & _ & H & _).
    rewrite (H ltac:(discriminate) ltac:(discriminate) None providerWithVolume);
      [reflexivity | vm_compute; reflexivity].
  - destruct (ValidateVolumeCapabilities_contract sampleDriver
                {| ValidateVolumeCapabilitiesRequest.VolumeId := "vol-0";
                   ValidateVolumeCapabilitiesRequest.VolumeCapabilities := stdVolCap |}
                providerWithVolume) as (_ & _ & _ & H).
    edestruct (H ltac:(discriminate) ltac:(discriminate)) as (resp & Hrun & Hiff & _).
    { vm_compute. reflexivity. }
    exists resp. split; [exact Hrun|]. apply Hiff.
    intros cap Hin. apply list_elem_of_singleton in Hin. rewrite Hin.
    apply list_elem_of_here.
  - destruct (ValidateVolumeCapabilities_contract sampleDriver
                {| ValidateVolumeCapabilitiesRequest.VolumeId := "vol-0";
                   ValidateVolumeCapabilitiesRequest.VolumeCapabilities := [readerVolCap] |}
                providerWithVolume) as (_ & _ & _ & H).
    edestruct (H ltac:(discriminate) ltac:(discriminate)) as (resp & Hrun & _ & Hnone).
    { vm_compute. reflexivity. }
    exists resp. split; [exact Hrun|]. apply Hnone.
    exists readerVolCap. split; [apply list_elem_of_here|].
    intros Hin. apply list_elem_of_singleton in Hin. discriminate Hin.
Defined.

Lemma DeleteVolume_idempotent_witness :
  let delete c id p :=
    DeleteVolume (NewDriver c) {| DeleteVolumeRequest.VolumeId := id |} p in
  codeOf (fst (delete provider EmptyString providerWithVolume)) = codes.InvalidArgument
  /\ codeOf (fst (delete provider "vol-404" providerWithVolume)) = codes.OK
  /\ codeOf (fst (delete timeoutProvider "vol-0" providerWithVolume)) = codes.Internal
  /\ (exists p1,
        delete provider "vol-0" providerWithVolume = (inl DeleteVolumeResponse.Build_t, p1)
        /\ delete provider "vol-0" p1 = (inl DeleteVolumeResponse.Build_t, p1)
        /\ disks p1 = []).
Proof.
  intros delete. subst delete. cbv beta.
  destruct (DeleteVolume_idempotent (Driver.volumeCaps sampleDriver))
    as (Hempty & Hnotfound & Hother & Htwice).
  split; [|split; [|split]].
  - rewrite Hempty; reflexivity.
  - rewrite (Hnotfound _ _ _ _ false providerWithVolume);
      [reflexivity | discriminate | vm_compute; reflexivity].
  - destruct (Hother _ (NewDriver timeoutProvider) {| DeleteVolumeRequest.VolumeId := "vol-0" |}
                providerWithVolume false cloud.ErrTimeout providerWithVolume) as [Hcode _];
      [discriminate | reflexivity | discriminate | exact Hcode].
  - destruct (Htwice {| DeleteVolumeRequest.VolumeId := "vol-0" |} providerWithVolume)
      as (p1 & Hrun1 & Hrun2 & _); [discriminate|].
    exists p1. split; [exact Hrun1|]. split; [exact Hrun2|].
    assert (Hp1 : p1 = snd (DeleteVolume (driverOn (Driver.volumeCaps sampleDriver))
                              {| DeleteVolumeRequest.VolumeId := "vol-0" |} providerWithVolume)).
    { rewrite Hrun1. reflexivity. }
    rewrite Hp1. vm_compute. reflexivity.
Defined.

Lemma CreateSnapshot_idempotent_conflict_witness :
  codeOf (fst (CreateSnapshot sampleDriver (snapshotRequest EmptyString "vol-0")
                 providerWithSnapshot)) = codes.InvalidArgument
  /\ codeOf (fst (CreateSnapshot sampleDriver (snapshotRequest "test-snapshot" EmptyString)
                    providerWithSnapshot)) = codes.InvalidArgument
  /\ (exists resp,
        CreateSnapshot sampleDriver (snapshotRequest "test-snapshot" "vol-0") providerWithSnapshot
          = (inl resp, providerWithSnapshot)
        /\ Snapshot.SnapshotId (CreateSnapshotResponse.Snapshot resp) = "snap-1"
        /\ Snapshot.ReadyToUse (CreateSnapshotResponse.Snapshot resp) = true)
  /\ codeOf (fst (CreateSnapshot sampleDriver (snapshotRequest "test-snapshot" "vol-xxx")
                    providerWithSnapshot)) = codes.AlreadyExists.
Proof.
  split; [|split; [|split]].
  - destruct (CreateSnapshot_idempotent_conflict sampleDriver
                (snapshotRequest EmptyString "vol-0") providerWithSnapshot) as (H & _).
    rewrite (H eq_refl). reflexivity.
  - destruct (CreateSnapshot_idempotent_conflict sampleDriver
                (snapshotRequest "test-snapshot" EmptyString) providerWithSnapshot) as (_ & H & _).
    rewrite H; [reflexivity | discriminate | reflexivity].
  - destruct (CreateSnapshot_idempotent_conflict sampleDriver
                (snapshotRequest "test-snapshot" "vol-0") providerWithSnapshot) as (_ & _ & H).
    edestruct (H ltac:(discriminate) ltac:(discriminate)) as [Hsame _].
    { vm_compute. reflexivity. }
    edestruct Hsame as (resp & Hrun & Hid & _ & _ & _ & Hready).
    { reflexivity. }
    { vm_compute. reflexivity. }
    exists resp. split; [exact Hrun|]. split; [exact Hid | exact Hready].
  - destruct (CreateSnapshot_idempotent_conflict sampleDriver
                (snapshotRequest "test-snapshot" "vol-xxx") providerWithSnapshot) as (_ & _ & H).
    edestruct (H ltac:(discriminate) ltac:(discriminate)) as [_ Hdiff].
    { vm_compute. reflexivity. }
    apply Hdiff. discriminate.
Defined.

Lemma ControllerPublishVolume_contract_witness :
  let cap := head stdVolCap in
  let publish c v n k p := ControllerPublishVolume (NewDriver c) (publishRequest v n k) p in
  codeOf (fst (publish provider EmptyString "i-0123456789" cap providerWithVolume))
    = codes.InvalidArgument
  /\ codeOf (fst (publish provider "vol-0" EmptyString cap providerWithVolume))
    = codes.InvalidArgument
  /\ codeOf (fst (publish provider "vol-0" "i-0123456789" None providerWithVolume))
    = codes.InvalidArgument
  /\ codeOf (fst (publish provider "vol-0" "i-0123456789" (Some readerVolCap) providerWithVolume))
    = codes.InvalidArgument
  /\ codeOf (fst (publish provider "vol-0" "i-404" cap providerWithVolume)) = codes.NotFound
  /\ codeOf (fst (publish provider "vol-404" "i-0123456789" cap providerWithVolume))
    = codes.NotFound
  /\ codeOf (fst (publish provider "vol-0" "i-9876543210" cap providerAttached))
    = codes.AlreadyExists
  /\ codeOf (fst (publish timeoutProvider "vol-0" "i-0123456789" cap providerWithVolume))
    = codes.Internal
  /\ (exists resp,
        publish provider "vol-0" "i-0123456789" cap providerWithVolume = (inl resp, providerAttached)
        /\ ControllerPublishVolumeResponse.PublishContext resp = {[ "devicePath" := "/dev/xvdba" ]}
        /\ dom (ControllerPublishVolumeResponse.PublishContext resp)
           = ({[ "devicePath" ]} : gset string)).
Proof.
  intros cap publish. subst cap publish. cbv beta.
  split; [|split; [|split; [|split; [|split; [|split; [|split; [|split]]]]]]].
  - destruct (ControllerPublishVolume_contract (NewDriver provider)
                (publishRequest EmptyString "i-0123456789" (head stdVolCap)) providerWithVolume)
      as (H & _).
    rewrite (H eq_refl). reflexivity.
  - destruct (ControllerPublishVolume_contract (NewDriver provider)
                (publishRequest "vol-0" EmptyString (head stdVolCap)) providerWithVolume)
      as (_ & H & _).
    rewrite H; [reflexivity | discriminate | reflexivity].
  - destruct (ControllerPublishVolume_contract (NewDriver provider)
                (publishRequest "vol-0" "i-0123456789" None) providerWithVolume)
      as (_ & _ & H & _).
    rewrite H; [reflexivity | discriminate | discriminate | reflexivity].
  - destruct (ControllerPublishVolume_contract (NewDriver provider)
                (publishRequest "vol-0" "i-0123456789" (Some readerVolCap)) providerWithVolume)
      as (_ & _ & _ & H & _).
    rewrite (H readerVolCap); [reflexivity | discriminate | discriminate | reflexivity |].
    intros Hin. apply list_elem_of_singleton in Hin. discriminate Hin.
  - destruct (ControllerPublishVolume_contract (NewDriver provider)
                (publishRequest "vol-0" "i-404" (head stdVolCap)) providerWithVolume)
      as (_ & _ & _ & _ & H).
    edestruct H as (Hinst & _);
      [discriminate | discriminate | reflexivity | apply list_elem_of_here |].
    apply (Hinst providerWithVolume). vm_compute. reflexivity.
  - destruct (ControllerPublishVolume_contract (NewDriver provider)
                (publishRequest "vol-404" "i-0123456789" (head stdVolCap)) providerWithVolume)
      as (_ & _ & _ & _ & H).
    edestruct H as (_ & Hdisk & _);
      [discriminate | discriminate | reflexivity | apply list_elem_of_here |].
    rewrite (Hdisk providerWithVolume None providerWithVolume);
      [reflexivity | vm_compute; reflexivity | vm_compute; reflexivity].
  - destruct (ControllerPublishVolume_contract (NewDriver provider)
                (publishRequest "vol-0" "i-9876543210" (head stdVolCap)) providerAttached)
      as (_ & _ & _ & _ & H).
    edestruct H as (_ & _ & Hexists & _);
      [discriminate | discriminate | reflexivity | apply list_elem_of_here |].
    erewrite Hexists;
      [reflexivity | vm_compute; reflexivity | vm_compute; reflexivity | vm_compute; reflexivity].
  - destruct (ControllerPublishVolume_contract (NewDriver timeoutProvider)
                (publishRequest "vol-0" "i-0123456789" (head stdVolCap)) providerWithVolume)
      as (_ & _ & _ & _ & H).
    edestruct H as (_ & _ & _ & Hother & _);
      [discriminate | discriminate | reflexivity | apply list_elem_of_here |].
    edestruct Hother as [Hcode _];
      [vm_compute; reflexivity | vm_compute; reflexivity | vm_compute; reflexivity
      | discriminate | exact Hcode].
  - destruct (ControllerPublishVolume_contract (NewDriver provider)
                (publishRequest "vol-0" "i-0123456789" (head stdVolCap)) providerWithVolume)
      as (_ & _ & _ & _ & H).
    edestruct H as (_ & _ & _ & _ & Hok);
      [discriminate | discriminate | reflexivity | apply list_elem_of_here |].
    edestruct Hok as (resp & Hrun & Hctx & _ & Hdom);
      [vm_compute; reflexivity | vm_compute; reflexivity | vm_compute; reflexivity |].
    exists resp. split; [exact Hrun|]. split; [exact Hctx | exact Hdom].
Defined.

Lemma CreateVolume_fsType_witness :
  let req := volumeRequest "test-vol" (Some stdVolSize) {[ "fsType" := "xfs" ]} in
  (exists resp,
     CreateVolume sampleDriver req providerWithVolume = (inl resp, providerWithVolume)
     /\ Volume.VolumeContext (CreateVolumeResponse.Volume resp) = {[ "fsType" := EmptyString ]})
  /\ (exists resp p1,
     CreateVolume sampleDriver req sampleProvider = (inl resp, p1)
     /\ Volume.VolumeContext (CreateVolumeResponse.Volume resp) = {[ "fsType" := "xfs" ]}).
Proof.
  intros req.
  assert (Hacc : accepted sampleDriver req).
  { split; [discriminate | split; [cbn; lia | split; [discriminate | reflexivity]]]. }
  split.
  - destruct (CreateVolume_fsType sampleDriver req providerWithVolume Hacc) as [Hfound _].
    edestruct Hfound as [Hrun Hctx].
    { vm_compute. reflexivity. }
    eexists. split; [exact Hrun|]. exact Hctx.
  - destruct (CreateVolume_fsType sampleDriver req sampleProvider Hacc) as [_ Hnew].
    edestruct Hnew as (resp & Hrun & Hctx & _).
    { vm_compute. reflexivity. }
    { vm_compute. reflexivity. }
    { vm_compute. reflexivity. }
    exists resp. eexists. split; [exact Hrun|].
    rewrite Hctx. vm_compute. reflexivity.
Defined.

(** ** The further properties at the sample data *)

Lemma CreateVolume_rejected_witness :
  let req := volumeRequest EmptyString (Some stdVolSize) ∅ in
  codeOf (fst (CreateVolume sampleDriver req sampleProvider)) = codes.InvalidArgument
  /\ snd (CreateVolume sampleDriver req sampleProvider) = sampleProvider.
Proof.
  intros req. apply (CreateVolume_rejected sampleDriver req sampleProvider).
  intros (Hname & _). apply Hname. reflexivity.
Defined.

Lemma CreateVolume_lookup_error_witness :
  CreateVolume sampleDriver (volumeRequest "test-vol" (Some 10000) ∅) providerWithVolume
  = (inr (status_Error codes.AlreadyExists (status.ErrorText cloud.ErrDiskExistsDiffSize)),
     providerWithVolume)
  /\ CreateVolume sampleDriver (volumeRequest "test-vol" (Some stdVolSize) ∅) providerWithTwins
     = (inr (status_Error codes.Internal (status.ErrorText cloud.ErrMultiDisks)),
        providerWithTwins).
Proof.
  split.
  - apply (CreateVolume_lookup_error sampleDriver (volumeRequest "test-vol" (Some 10000) ∅)
             providerWithVolume None cloud.ErrDiskExistsDiffSize providerWithVolume).
    + split; [discriminate | split; [cbn; lia | split; [discriminate | reflexivity]]].
    + vm_compute. reflexivity.
    + discriminate.
  - apply (CreateVolume_lookup_error sampleDriver (volumeRequest "test-vol" (Some stdVolSize) ∅)
             providerWithTwins None cloud.ErrMultiDisks providerWithTwins).
    + split; [discriminate | split; [cbn; lia | split; [discriminate | reflexivity]]].
    + vm_compute. reflexivity.
    + discriminate.
Defined.

Lemma CreateVolume_create_failures_witness :
  codeOf (fst (CreateVolume sampleDriver badIopsRequest sampleProvider)) = codes.InvalidArgument
  /\ snd (CreateVolume sampleDriver badIopsRequest sampleProvider) = sampleProvider
  /\ codeOf (fst (CreateVolume (NewDriver timeoutProvider)
                    (volumeRequest "test-vol" (Some stdVolSize) ∅) sampleProvider))
     = codes.Internal
  /\ CreateVolume (NewDriver silentProvider)
       (volumeRequest "test-vol" (Some stdVolSize) ∅) sampleProvider
     = (inr nil_dereference, sampleProvider).
Proof.
  assert (Hbad : accepted sampleDriver badIopsRequest).
  { split; [discriminate | split; [cbn; lia | split; [discriminate | reflexivity]]]. }
  assert (Hstd : forall c : cloud.Cloud Provider,
             accepted (NewDriver c) (volumeRequest "test-vol" (Some stdVolSize) ∅)).
  { intros c. split; [discriminate | split; [cbn; lia | split; [discriminate | reflexivity]]]. }
  split; [|split; [|split]].
  - destruct (CreateVolume_create_failures sampleDriver badIopsRequest sampleProvider
                (Some cloud.ErrNotFound) sampleProvider Hbad) as [Hopts _].
    { vm_compute. reflexivity. }
    { right. reflexivity. }
    erewrite Hopts; [|vm_compute; reflexivity]. reflexivity.
  - destruct (CreateVolume_create_failures sampleDriver badIopsRequest sampleProvider
                (Some cloud.ErrNotFound) sampleProvider Hbad) as [Hopts _].
    { vm_compute. reflexivity. }
    { right. reflexivity. }
    erewrite Hopts; [|vm_compute; reflexivity]. reflexivity.
  - destruct (CreateVolume_create_failures (NewDriver timeoutProvider)
                (volumeRequest "test-vol" (Some stdVolSize) ∅) sampleProvider
                (Some cloud.ErrNotFound) sampleProvider (Hstd _)) as [_ Hcreate].
    { vm_compute. reflexivity. }
    { right. reflexivity. }
    edestruct Hcreate as [Herr _]; [vm_compute; reflexivity|].
    edestruct Herr as [Hcode _]; [vm_compute; reflexivity | exact Hcode].
  - destruct (CreateVolume_create_failures (NewDriver silentProvider)
                (volumeRequest "test-vol" (Some stdVolSize) ∅) sampleProvider
                (Some cloud.ErrNotFound) sampleProvider (Hstd _)) as [_ Hcreate].
    { vm_compute. reflexivity. }
    { right. reflexivity. }
    edestruct Hcreate as [_ Hnil]; [vm_compute; reflexivity|].
    apply Hnil. vm_compute. reflexivity.
Defined.

Lemma CreateVolume_existing_ignores_options_witness :
  exists resp,
    CreateVolume sampleDriver (volumeRequest "test-vol" (Some stdVolSize) ∅) providerWithVolume
    = (inl resp, providerWithVolume)
    /\ CreateVolume sampleDriver badIopsRequest providerWithVolume
       = (inl resp, providerWithVolume)
    /\ codeOf (fst (CreateVolume sampleDriver badIopsRequest sampleProvider))
       = codes.InvalidArgument.
Proof.
  edestruct (CreateVolume_existing_ignores_options sampleDriver
               (volumeRequest "test-vol" (Some stdVolSize) ∅) badIopsRequest
               providerWithVolume) as [Hfirst Hsecond].
  - split; [discriminate | split; [cbn; lia | split; [discriminate | reflexivity]]].
  - split; [discriminate | split; [cbn; lia | split; [discriminate | reflexivity]]].
  - reflexivity.
  - reflexivity.
  - vm_compute. reflexivity.
  - left. reflexivity.
  - eexists. split; [exact Hfirst|]. split; [exact Hsecond|]. reflexivity.
Defined.

Lemma diskOptionsOf_options_witness :
  exists opts,
    diskOptionsOf restoreRequest "restored-vol" (volSizeBytesOf restoreRequest) = inl opts
    /\ cloud.DiskOptions.CapacityBytes opts = 10 * 2 ^ 30
    /\ cloud.DiskOptions.AvailabilityZone opts = "us-west-2b"
    /\ cloud.DiskOptions.Encrypted opts = true
    /\ cloud.DiskOptions.KmsKeyID opts = "arn:aws:kms:key/abcd1234"
    /\ cloud.DiskOptions.IOPSPerGB opts = 5
    /\ cloud.DiskOptions.SnapshotID opts = "snap-1".
Proof.
  destruct (diskOptionsOf restoreRequest "restored-vol" (volSizeBytesOf restoreRequest))
    as [opts|e] eqn:Hopts.
  - exists opts. split; [reflexivity|].
    destruct (diskOptionsOf_options restoreRequest "restored-vol"
                (volSizeBytesOf restoreRequest) opts Hopts)
      as (Hcap & _ & _ & Hzone & Henc & Hkms & _ & Hiops & _ & _ & Hsnap).
    split; [rewrite Hcap; reflexivity|].
    split; [rewrite Hzone; reflexivity|].
    assert (Htrue : cloud.DiskOptions.Encrypted opts = true) by (apply Henc; reflexivity).
    split; [exact Htrue|].
    split; [rewrite (Hkms Htrue); reflexivity|].
    split.
    + assert (Hsome : Some 5 = Some (cloud.DiskOptions.IOPSPerGB opts))
        by (apply (Hiops eq_refl)).
      injection Hsome as <-. reflexivity.
    + rewrite (Hsnap _ {| SnapshotSource.SnapshotId := "snap-1" |} eq_refl eq_refl).
      reflexivity.
  - exfalso. vm_compute in Hopts. discriminate Hopts.
Defined.

Lemma diskOptionsOf_failure_witness :
  (exists e, diskOptionsOf badIopsRequest "test-vol" stdVolSize = inr e
             /\ status_Code e = codes.InvalidArgument)
  /\ (exists e, diskOptionsOf cloneRequest "cloned-vol" stdVolSize = inr e
                /\ status_Code e = codes.InvalidArgument).
Proof.
  split.
  - destruct (diskOptionsOf_failure badIopsRequest "test-vol" stdVolSize) as [Hiff Hcode].
    destruct (proj2 Hiff) as [e He].
    { left. split; [reflexivity | vm_compute; reflexivity]. }
    exists e. split; [exact He | exact (Hcode e He)].
  - destruct (diskOptionsOf_failure cloneRequest "cloned-vol" stdVolSize) as [Hiff Hcode].
    destruct (proj2 Hiff) as [e He].
    { right. eexists. split; reflexivity. }
    exists e. split; [exact He | exact (Hcode e He)].
Defined.

Lemma pickAvailabilityZone_from_requirement_witness :
  exists req t,
    CreateVolumeRequest.AccessibilityRequirements restoreRequest = Some req
    /\ t ∈ TopologyRequirement.Preferred req ++ TopologyRequirement.Requisite req
    /\ Topology.Segments t !! topologyKey = Some "us-west-2b".
Proof.
  apply (pickAvailabilityZone_from_requirement
           (CreateVolumeRequest.AccessibilityRequirements restoreRequest) "us-west-2b").
  - vm_compute. reflexivity.
  - discriminate.
Defined.

Lemma isValidVolumeCapabilities_judgement_witness :
  isValidVolumeCapabilities sampleDriver (stdVolCap ++ [readerVolCap]) = false
  /\ isValidVolumeCapabilities sampleDriver (stdVolCap ++ stdVolCap)
     = isValidVolumeCapabilities sampleDriver stdVolCap
  /\ isValidVolumeCapabilities
       (driverOn [ {| AccessMode.Mode := SINGLE_NODE_WRITER |};
                   {| AccessMode.Mode := MULTI_NODE_READER_ONLY |} ]) stdVolCap = true
  /\ isValidVolumeCapabilities sampleDriver
       [ {| VolumeCapability.AccessType := Some Mount; VolumeCapability.AccessMode := None |} ]
     <> true.
Proof.
  destruct (isValidVolumeCapabilities_judgement sampleDriver) as (Happ & Hsame & Hmore & Hnil).
  split; [|split; [|split]].
  - rewrite Happ. reflexivity.
  - apply Hsame. intros cap. rewrite elem_of_app. split; [intros [H|H]; exact H | intros H; left; exact H].
  - apply (Hmore _ stdVolCap); [|reflexivity].
    intros m Hm. apply list_elem_of_singleton in Hm. rewrite Hm. apply list_elem_of_here.
  - intros Hvalid. apply Hnil in Hvalid; [|reflexivity].
    apply list_elem_of_singleton in Hvalid. discriminate Hvalid.
Defined.

Lemma CreateSnapshot_lookup_error_witness :
  let d := NewDriver (failingProvider cloud.ErrTimeout) in
  CreateSnapshot d (snapshotRequest "test-snapshot" "vol-0") providerWithVolume
  = (inr (cloud_error cloud.ErrTimeout), providerWithVolume)
  /\ codeOf (fst (CreateSnapshot d (snapshotRequest "test-snapshot" "vol-0")
                    providerWithVolume)) = codes.Unknown.
Proof.
  intros d.
  apply (CreateSnapshot_lookup_error d (snapshotRequest "test-snapshot" "vol-0")
           providerWithVolume None cloud.ErrTimeout providerWithVolume).
  - discriminate.
  - discriminate.
  - reflexivity.
  - discriminate.
Defined.

Lemma CreateSnapshot_new_witness :
  let req := snapshotRequest "test-snapshot" "vol-0" in
  (exists resp,
     CreateSnapshot sampleDriver req providerWithVolume = (inl resp, providerWithSnapshot)
     /\ Snapshot.SnapshotId (CreateSnapshotResponse.Snapshot resp) = "snap-1"
     /\ Snapshot.SizeBytes (CreateSnapshotResponse.Snapshot resp) = stdVolSize)
  /\ codeOf (fst (CreateSnapshot (NewDriver timeoutProvider) req providerWithVolume))
     = codes.Internal
  /\ CreateSnapshot (NewDriver silentProvider) req providerWithVolume
     = (inr nil_dereference, providerWithVolume).
Proof.
  intros req. split; [|split].
  - edestruct (CreateSnapshot_new sampleDriver req providerWithVolume
                 (Some cloud.ErrNotFound) providerWithVolume) as (_ & Hnew & _).
    + discriminate.
    + discriminate.
    + vm_compute. reflexivity.
    + right. reflexivity.
    + eexists. split.
      * erewrite Hnew; [|vm_compute; reflexivity].
        vm_compute. reflexivity.
      * split; reflexivity.
  - edestruct (CreateSnapshot_new (NewDriver timeoutProvider) req providerWithVolume
                 (Some cloud.ErrNotFound) providerWithVolume) as (Herr & _).
    + discriminate.
    + discriminate.
    + vm_compute. reflexivity.
    + right. reflexivity.
    + edestruct Herr as [Hcode _]; [vm_compute; reflexivity | exact Hcode].
  - edestruct (CreateSnapshot_new (NewDriver silentProvider) req providerWithVolume
                 (Some cloud.ErrNotFound) providerWithVolume) as (_ & _ & Hnil).
    + discriminate.
    + discriminate.
    + reflexivity.
    + right. reflexivity.
    + apply Hnil. reflexivity.
Defined.

Lemma GetDiskByID_error_is_Internal_witness :
  let d := NewDriver (failingProvider cloud.ErrTimeout) in
  codeOf (fst (ValidateVolumeCapabilities d
                 {| ValidateVolumeCapabilitiesRequest.VolumeId := "vol-0";
                    ValidateVolumeCapabilitiesRequest.VolumeCapabilities := [readerVolCap] |}
                 providerWithVolume)) = codes.Internal
  /\ codeOf (fst (ControllerPublishVolume d
                    (publishRequest "vol-0" "i-0123456789" (head stdVolCap))
                    providerWithVolume)) = codes.Internal.
Proof.
  intros d. destruct (GetDiskByID_error_is_Internal d) as [Hvalidate Hpublish]. split.
  - edestruct Hvalidate as [Hcode _]; [| | | |exact Hcode].
    + discriminate.
    + discriminate.
    + reflexivity.
    + discriminate.
  - edestruct Hpublish as [Hcode _]; [| | | | | | |exact Hcode].
    + discriminate.
    + discriminate.
    + reflexivity.
    + apply list_elem_of_here.
    + vm_compute. reflexivity.
    + reflexivity.
    + discriminate.
Defined.

Import csi_rest.

Lemma ControllerUnpublishVolume_contract_witness :
  let unpublish err v n :=
    ControllerUnpublishVolume (restReturning err)
      {| ControllerUnpublishVolumeRequest.VolumeId := v;
         ControllerUnpublishVolumeRequest.NodeId := n |} providerAttached in
  codeOf (fst (unpublish None EmptyString "i-0123456789")) = codes.InvalidArgument
  /\ codeOf (fst (unpublish None "vol-0" EmptyString)) = codes.InvalidArgument
  /\ codeOf (fst (unpublish (Some cloud.ErrNotFound) "vol-0" "i-0123456789")) = codes.Internal
  /\ codeOf (fst (unpublish None "vol-0" "i-0123456789")) = codes.OK.
Proof.
  intros unpublish. subst unpublish. cbv beta.
  split; [|split; [|split]].
  - edestruct (ControllerUnpublishVolume_contract (restReturning None)
                 {| ControllerUnpublishVolumeRequest.VolumeId := EmptyString;
                    ControllerUnpublishVolumeRequest.NodeId := "i-0123456789" |}
                 providerAttached) as [Hempty _].
    apply Hempty. left. reflexivity.
  - edestruct (ControllerUnpublishVolume_contract (restReturning None)
                 {| ControllerUnpublishVolumeRequest.VolumeId := "vol-0";
                    ControllerUnpublishVolumeRequest.NodeId := EmptyString |}
                 providerAttached) as [Hempty _].
    apply Hempty. right. reflexivity.
  - edestruct (ControllerUnpublishVolume_contract (restReturning (Some cloud.ErrNotFound))
                 {| ControllerUnpublishVolumeRequest.VolumeId := "vol-0";
                    ControllerUnpublishVolumeRequest.NodeId := "i-0123456789" |}
                 providerAttached) as [_ Hcall].
    edestruct Hcall as [Herr _]; [discriminate | discriminate |].
    edestruct Herr as [Hcode _]; [reflexivity | exact Hcode].
  - edestruct (ControllerUnpublishVolume_contract (restReturning None)
                 {| ControllerUnpublishVolumeRequest.VolumeId := "vol-0";
                    ControllerUnpublishVolumeRequest.NodeId := "i-0123456789" |}
                 providerAttached) as [_ Hcall].
    edestruct Hcall as [_ Hok]; [discriminate | discriminate |].
    erewrite Hok; reflexivity.
Defined.

Lemma DeleteSnapshot_contract_witness :
  let delete err id :=
    DeleteSnapshot (restReturning err) {| DeleteSnapshotRequest.SnapshotId := id |}
      providerWithSnapshot in
  codeOf (fst (delete None EmptyString)) = codes.InvalidArgument
  /\ codeOf (fst (delete (Some cloud.ErrNotFound) "xxx")) = codes.OK
  /\ codeOf (fst (delete None "snap-1")) = codes.OK
  /\ codeOf (fst (delete (Some cloud.ErrTimeout) "snap-1")) = codes.Internal.
Proof.
  intros delete. subst delete. cbv beta.
  split; [|split; [|split]].
  - edestruct (DeleteSnapshot_contract (restReturning None)
                 {| DeleteSnapshotRequest.SnapshotId := EmptyString |} providerWithSnapshot)
      as [Hempty _].
    rewrite Hempty; reflexivity.
  - edestruct (DeleteSnapshot_contract (restReturning (Some cloud.ErrNotFound))
                 {| DeleteSnapshotRequest.SnapshotId := "xxx" |} providerWithSnapshot)
      as [_ Hcall].
    edestruct Hcall as [Hok _]; [discriminate | reflexivity |].
    rewrite Hok; [reflexivity | right; reflexivity].
  - edestruct (DeleteSnapshot_contract (restReturning None)
                 {| DeleteSnapshotRequest.SnapshotId := "snap-1" |} providerWithSnapshot)
      as [_ Hcall].
    edestruct Hcall as [Hok _]; [discriminate | reflexivity |].
    rewrite Hok; [reflexivity | left; reflexivity].
  - edestruct (DeleteSnapshot_contract (restReturning (Some cloud.ErrTimeout))
                 {| DeleteSnapshotRequest.SnapshotId := "snap-1" |} providerWithSnapshot)
      as [_ Hcall].
    edestruct Hcall as [_ Herr]; [discriminate | reflexivity |].
    edestruct Herr as [Hcode _]; [reflexivity | discriminate | exact Hcode].
Defined.

Lemma describeVolumes_collects_pages_witness :
  let first := [ sampleVolume "vol-0" "in-use" [ Some "attached" ] ] in
  let last := [ sampleVolume "vol-1" "available" [] ] in
  exists fuel,
    e2e.describeVolumes (pagedAPI first last) fuel (e2e.describeInput "vol-0") 0%nat
    = Some (inl (first ++ last),
            {| ec2.DescribeVolumesInput.VolumeIds := [Some "vol-0"];
               ec2.DescribeVolumesInput.NextToken := Some "page-2" |}, 2%nat).
Proof.
  intros first last.
  destruct (describeVolumes_collects_pages (pagedAPI first last) (e2e.describeInput "vol-0")
              0%nat (first ++ last)
              {| ec2.DescribeVolumesInput.VolumeIds := [Some "vol-0"];
                 ec2.DescribeVolumesInput.NextToken := Some "page-2" |} 2%nat) as [n Hn];
    [|exists n; apply Hn; lia].
  apply (e2e.Served_more (pagedAPI first last) _ _
           {| ec2.DescribeVolumesOutput.Volumes := first;
              ec2.DescribeVolumesOutput.NextToken := Some "page-2" |} 1%nat last).
  - reflexivity.
  - discriminate.
  - apply (e2e.Served_last (pagedAPI first last) _ _
             {| ec2.DescribeVolumesOutput.Volumes := last;
                ec2.DescribeVolumesOutput.NextToken := None |}).
    + reflexivity.
    + reflexivity.
Defined.

Lemma describeVolumes_endless_witness :
  e2e.describeVolumes endlessAPI 1000 (e2e.describeInput "vol-0") 0%nat = None.
Proof.
  apply (describeVolumes_endless endlessAPI).
  intros params0 w0. eexists _, _. split; [reflexivity | discriminate].
Defined.

Lemma volumeStateReached_cases_witness :
  e2e.volumeStateReached "in-use" (inl [ sampleVolume "vol-0" "in-use" [ Some "attached" ] ])
  = e2e.Return true None
  /\ e2e.volumeStateReached "in-use" (inl [ sampleVolume "vol-0" "in-use" [] ]) = e2e.Panic
  /\ exists done err,
       e2e.volumeStateReached "available" (inl []) = e2e.Return done (Some err).
Proof.
  split; [|split].
  - apply (volumeStateReached_cases "in-use"). eexists. split; [reflexivity|].
    split; [reflexivity|]. intros _. eexists _, _. split; reflexivity.
  - apply (volumeStateReached_cases "in-use"). eexists. split; [reflexivity|].
    split; [reflexivity|]. split; reflexivity.
  - apply (volumeStateReached_cases "available"). right. exists []. split; [reflexivity|].
    discriminate.
Defined.

Lemma volumesCounted_cases_witness :
  e2e.volumesCounted 0 (inr (e2e.AwsError "InvalidVolume.NotFound")) = e2e.Return true None
  /\ e2e.volumesCounted 1 (inr (e2e.AwsError "InvalidVolume.NotFound"))
     = e2e.Return false (Some (e2e.AwsError "InvalidVolume.NotFound"))
  /\ e2e.volumesCounted 0 (inl [ sampleVolume "vol-0" "deleting" [] ]) = e2e.Return false None.
Proof.
  split; [|split].
  - apply (volumesCounted_cases 0). right. split; reflexivity.
  - apply (volumesCounted_cases 1 (inr (e2e.AwsError "InvalidVolume.NotFound"))).
    + reflexivity.
    + intros [H _]. discriminate H.
  - apply (volumesCounted_cases 0 (inl [ sampleVolume "vol-0" "deleting" [] ])
             ) with (volumes := [ sampleVolume "vol-0" "deleting" [] ]).
    + reflexivity.
    + discriminate.
Defined.

Lemma verify_over_pages_witness :
  let first := [ sampleVolume "vol-0" "in-use" [ Some "attached" ] ] in
  let last := [ sampleVolume "vol-1" "available" [] ] in
  exists fuel,
    e2e.verifyVolumeState (pagedAPI first last) fuel "vol-0" "in-use" 0%nat
    = Some (e2e.Return false (Some (e2e.Errorf "expected 1 volume, got %d" 2)), 2%nat)
    /\ e2e.verifyVolumes (pagedAPI first last) fuel "vol-0" 2 0%nat
       = Some (e2e.Return true None, 2%nat).
Proof.
  intros first last.
  destruct (verify_over_pages (pagedAPI first last) "vol-0" "in-use" 2 0%nat (first ++ last)
              {| ec2.DescribeVolumesInput.VolumeIds := [Some "vol-0"];
                 ec2.DescribeVolumesInput.NextToken := Some "page-2" |} 2%nat) as [n Hn];
    [|exists n; apply Hn; lia].
  apply (e2e.Served_more (pagedAPI first last) _ _
           {| ec2.DescribeVolumesOutput.Volumes := first;
              ec2.DescribeVolumesOutput.NextToken := Some "page-2" |} 1%nat last).
  - reflexivity.
  - discriminate.
  - apply (e2e.Served_last (pagedAPI first last) _ _
             {| ec2.DescribeVolumesOutput.Volumes := last;
                ec2.DescribeVolumesOutput.NextToken := None |}).
    + reflexivity.
    + reflexivity.
Defined.

Lemma CreateVolume_same_rounded_size_witness :
  let req1 := volumeRequest "test-vol" (Some (1 * 1024 * 1024 * 1024)) ∅ in
  let req2 := volumeRequest "test-vol" (Some 10000) ∅ in
  exists resp1 p1 resp2,
    CreateVolume sampleDriver req1 sampleProvider = (inl resp1, p1)
    /\ CreateVolume sampleDriver req2 p1 = (inl resp2, p1)
    /\ Volume.VolumeId (CreateVolumeResponse.Volume resp2)
       = Volume.VolumeId (CreateVolumeResponse.Volume resp1)
    /\ Volume.CapacityBytes (CreateVolumeResponse.Volume resp2)
       = Volume.CapacityBytes (CreateVolumeResponse.Volume resp1).
Proof.
  intros req1 req2.
  destruct (CreateVolume sampleDriver req1 sampleProvider) as [[resp1|e] p1] eqn:Hrun.
  - destruct (CreateVolume_same_rounded_size (Driver.volumeCaps sampleDriver)
                req1 req2 sampleProvider resp1 p1) as (resp2 & Hrun2 & Hid & Hcap).
    + reflexivity.
    + vm_compute. reflexivity.
    + exact Hrun.
    + split; [discriminate | split; [cbn; lia | split; [discriminate | reflexivity]]].
    + exists resp1, p1, resp2. split; [reflexivity|]. split; [exact Hrun2|]. split; assumption.
  - exfalso. vm_compute in Hrun. discriminate Hrun.
Defined.
